(** * A point-of-sale backend: shallow embedding of [backend/server.py]

    The request handlers of [server.py] are embedded as functions in a small
    state-and-exception monad over the three Mongo collections ([users],
    [products], [sales]).  Everything the handlers obtain from the outside
    world is an explicit argument: fresh uuids, clock readings, salts.

    Conventions.
    - A Mongo collection is the list of its documents in natural (insertion)
      order; [find_one] returns the first match, [to_list n] keeps the first
      [n] documents of a cursor.
    - A Python [dict] is an association list in insertion order
      ([dict_get], [dict_set]): iteration order is observable in the report.
    - Python [int] is [Z].  The [float] amounts (totals, subtotals, prices)
      are values of an arbitrary type [num] with a [zero] and an [add]; no
      law of arithmetic is assumed unless a statement says so.
    - Timestamps are the ISO-8601 strings that the handlers store; Mongo and
      Python compare them as strings.
    - Embedded handlers: [register], [login], [get_current_user],
      [get_admin_user], [get_products], [create_product], [update_product],
      [delete_product], [create_sale], [get_sales], [get_report_summary]
      and [seed_data].  A handler takes the user that its [Depends] gate
      resolved as the argument [current_user], as the Python function
      does. *)

From Stdlib Require Import List String Ascii ZArith Bool Lia.
From Stdlib Require Import Permutation Sorted.
Import ListNotations.

Set Implicit Arguments.
Local Open Scope string_scope.
Local Open Scope Z_scope.

(** ** Numbers and outside services *)

(** Arithmetic of the amounts: Python's [0] and [+]. *)
Class Number (num : Type) : Type := {
  zero : num;
  add : num -> num -> num
}.

(** Amounts that stand for whole numbers and add exactly, as binary64
    floats do on the whole numbers from 0 to 2^53: [of_whole] is the
    amount of a whole number, [whole] the whole number of an amount, and
    [exact_bound] the limit up to which sums are exact. *)
Class ExactAmounts (num : Type) {number : Number num} : Type := {
  of_whole : Z -> num;
  whole : num -> Z;
  exact_bound : Z;
  zero_exact : zero = of_whole 0;
  add_exact :
    forall a b : Z,
      0 <= a -> 0 <= b -> a + b <= exact_bound ->
      add (of_whole a) (of_whole b) = of_whole (a + b)
}.

Arguments ExactAmounts num {number}.

(** Claims of a token: the payload dict of [create_access_token], with the
    two keys the program ever uses. *)
Record Claims : Type := {
  claim_sub : option string;
  claim_exp : option Z
}.

(** The services the program calls and does not define: the process-wide
    signing key, the HS256 MAC of [jose], the bcrypt context of [passlib]
    (hashing takes the salt it draws) and Mongo's case-insensitive regular
    expression search.  [verify_password] answers [None] when [passlib]
    raises instead of returning, as it does on a stored string that it
    cannot identify as a hash. *)
Class Platform : Type := {
  SECRET_KEY : string;
  hs256 : string -> Claims -> string;
  get_password_hash : string -> string -> string;
  verify_password : string -> string -> option bool;
  regex_search_i : string -> string -> bool
}.

Definition ALGORITHM : string := "HS256".
Definition ACCESS_TOKEN_EXPIRE_MINUTES : Z := 60 * 24 * 7.

(** ** Documents *)

(** The pydantic model [User]: the public view, without a password. *)
Record User : Type := {
  user_id : string;
  user_email : string;
  user_name : string;
  user_role : string;
  user_created_at : string
}.

(** A document of [db.users]: the fields of [User] and the password hash. *)
Record UserDoc : Type := {
  doc_user : User;
  doc_password : string
}.

Record UserCreate : Type := {
  uc_email : string;
  uc_password : string;
  uc_name : string;
  uc_role : string
}.

Record UserLogin : Type := {
  ul_email : string;
  ul_password : string
}.

(** A bearer credential as [jose] sees it: either a string that is not a
    compact JWS at all, or a header algorithm, a payload and a signature. *)
Inductive bearer : Type :=
| Garbled (raw : string)
| Signed (alg : string) (claims : Claims) (signature : string).

Record Token : Type := {
  access_token : bearer;
  token_type : string;
  token_user : User
}.

Record Product (num : Type) : Type := {
  prod_id : string;
  prod_name : string;
  prod_category : string;
  prod_cost : num;
  prod_sale_price : num;
  prod_employee_price : num;
  prod_image_url : string;
  prod_times_sold : Z;
  prod_created_at : string
}.

Record ProductCreate (num : Type) : Type := {
  pc_name : string;
  pc_category : string;
  pc_cost : num;
  pc_sale_price : num;
  pc_employee_price : num;
  pc_image_url : string
}.

Record ProductUpdate (num : Type) : Type := {
  pu_name : option string;
  pu_category : option string;
  pu_cost : option num;
  pu_sale_price : option num;
  pu_employee_price : option num;
  pu_image_url : option string
}.

Record SaleProduct (num : Type) : Type := {
  product_id : string;
  product_name : string;
  quantity : Z;
  unit_price : num;
  subtotal : num
}.

Record Sale (num : Type) : Type := {
  sale_id : string;
  sale_products : list (SaleProduct num);
  sale_total : num;
  sale_customer_type : string;
  sale_payment_method : string;
  sale_amount_paid : num;
  sale_change_amount : num;
  sale_cashier_id : string;
  sale_cashier_name : string;
  sale_date : string
}.

Record SaleCreate (num : Type) : Type := {
  sc_products : list (SaleProduct num);
  sc_total : num;
  sc_customer_type : string;
  sc_payment_method : string;
  sc_amount_paid : num;
  sc_change_amount : num
}.

(** The value of one key of [product_sales] in [get_report_summary]. *)
Record ProductSales (num : Type) : Type := {
  ps_product_id : string;
  ps_product_name : string;
  ps_quantity : Z;
  ps_revenue : num
}.

(** One element of [daily_sales]: the dict with keys [date] and [total]. *)
Record DailySale (num : Type) : Type := {
  ds_date : string;
  ds_total : num
}.

Record ReportSummary (num : Type) : Type := {
  total_sales : num;
  total_transactions : Z;
  top_products : list (ProductSales num);
  sales_by_category : list (string * num);
  daily_sales : list (DailySale num)
}.

Record HTTPException : Type := {
  status_code : Z;
  detail : string;
  headers : option (list (string * string))
}.

(** ** The store *)

Record Database (num : Type) : Type := {
  users : list UserDoc;
  products : list (Product num);
  sales : list (Sale num)
}.

(** The write operations the handlers send to Mongo, in the order sent. *)
Inductive Write (num : Type) : Type :=
| InsertUser (doc : UserDoc)
| InsertProduct (doc : Product num)
| InsertManyProducts (docs : list (Product num))
| SetProduct (pid : string) (fields : ProductUpdate num)
| IncTimesSold (pid : string) (by_ : Z)
| DeleteProduct (pid : string)
| InsertSale (doc : Sale num).

Arguments InsertUser {num} doc.
Arguments InsertProduct {num} doc.
Arguments InsertManyProducts {num} docs.
Arguments SetProduct {num} pid fields.
Arguments IncTimesSold {num} pid by_.
Arguments DeleteProduct {num} pid.
Arguments InsertSale {num} doc.

Record World (num : Type) : Type := {
  db : Database num;
  journal : list (Write num)
}.

(** A handler: runs on a world, ends in an [HTTPException] or a value, and
    leaves a world.  A raised exception keeps the writes already made. *)
Definition Handler (num A : Type) : Type :=
  World num -> (HTTPException + A) * World num.

Definition ret {num A} (a : A) : Handler num A := fun w => (inr a, w).

Definition raise {num A} (e : HTTPException) : Handler num A :=
  fun w => (inl e, w).

Definition bind {num A B} (m : Handler num A) (k : A -> Handler num B)
  : Handler num B :=
  fun w => match m w with
           | (inl e, w') => (inl e, w')
           | (inr a, w') => k a w'
           end.

Notation "x <- m ;; k" := (bind m (fun x => k))
  (at level 61, m at next level, right associativity).
Notation "m ;; k" := (bind m (fun _ => k))
  (at level 61, right associativity).

(** The [for] loop of a handler over a list. *)
Fixpoint for_each {num A} (l : list A) (body : A -> Handler num unit)
  : Handler num unit :=
  match l with
  | [] => ret tt
  | x :: l' => body x ;; for_each l' body
  end.

(** Python truthiness of an optional string: [None] and [""] are false. *)
Definition truthy (s : option string) : bool :=
  match s with
  | None => false
  | Some v => negb (String.eqb v "")
  end.

(** ** Mongo operations *)

(** [cursor.to_list(length)]: at most [length] documents of the cursor. *)
Definition to_list {A} (length : Z) (cursor : list A) : list A :=
  firstn (Z.to_nat length) cursor.

Fixpoint update_first {A} (p : A -> bool) (f : A -> A) (l : list A)
  : list A :=
  match l with
  | [] => []
  | x :: l' => if p x then f x :: l' else x :: update_first p f l'
  end.

Fixpoint remove_first {A} (p : A -> bool) (l : list A) : list A :=
  match l with
  | [] => []
  | x :: l' => if p x then l' else x :: remove_first p l'
  end.

Section Store.
Context {num : Type}.

Definition has_id (pid : string) (p : Product num) : bool :=
  String.eqb (prod_id p) pid.

Definition or_else {A} (o : option A) (old : A) : A :=
  match o with
  | Some v => v
  | None => old
  end.

(** [{"$set": update_data}], where [update_data] holds the fields of the
    request that are not [None]. *)
Definition set_fields (u : ProductUpdate num) (p : Product num)
  : Product num :=
  {| prod_id := prod_id p;
     prod_name := or_else (pu_name u) (prod_name p);
     prod_category := or_else (pu_category u) (prod_category p);
     prod_cost := or_else (pu_cost u) (prod_cost p);
     prod_sale_price := or_else (pu_sale_price u) (prod_sale_price p);
     prod_employee_price :=
       or_else (pu_employee_price u) (prod_employee_price p);
     prod_image_url := or_else (pu_image_url u) (prod_image_url p);
     prod_times_sold := prod_times_sold p;
     prod_created_at := prod_created_at p |}.

(** [{"$inc": {"times_sold": n}}]. *)
Definition inc_times_sold (n : Z) (p : Product num) : Product num :=
  {| prod_id := prod_id p;
     prod_name := prod_name p;
     prod_category := prod_category p;
     prod_cost := prod_cost p;
     prod_sale_price := prod_sale_price p;
     prod_employee_price := prod_employee_price p;
     prod_image_url := prod_image_url p;
     prod_times_sold := prod_times_sold p + n;
     prod_created_at := prod_created_at p |}.

Definition with_users (d : Database num) (us : list UserDoc)
  : Database num :=
  {| users := us; products := products d; sales := sales d |}.

Definition with_products (d : Database num) (ps : list (Product num))
  : Database num :=
  {| users := users d; products := ps; sales := sales d |}.

Definition with_sales (d : Database num) (ss : list (Sale num))
  : Database num :=
  {| users := users d; products := products d; sales := ss |}.

(** What each write does to the collections.  [update_one] and
    [delete_one] touch the first matching document only. *)
Definition apply_write (op : Write num) (d : Database num)
  : Database num :=
  match op with
  | InsertUser doc => with_users d (users d ++ [doc])
  | InsertProduct doc => with_products d (products d ++ [doc])
  | InsertManyProducts docs => with_products d (products d ++ docs)
  | SetProduct pid fields =>
      with_products d
        (update_first (has_id pid) (set_fields fields) (products d))
  | IncTimesSold pid n =>
      with_products d
        (update_first (has_id pid) (inc_times_sold n) (products d))
  | DeleteProduct pid =>
      with_products d (remove_first (has_id pid) (products d))
  | InsertSale doc => with_sales d (sales d ++ [doc])
  end.

Definition read {A} (f : Database num -> A) : Handler num A :=
  fun w => (inr (f (db w)), w).

Definition write (op : Write num) : Handler num unit :=
  fun w => (inr tt, {| db := apply_write op (db w);
                       journal := journal w ++ [op] |}).

Definition users_find_one_by_email (email : string)
  : Handler num (option UserDoc) :=
  read (fun d =>
    find (fun u => String.eqb (user_email (doc_user u)) email) (users d)).

Definition users_find_one_by_id (uid : string)
  : Handler num (option UserDoc) :=
  read (fun d =>
    find (fun u => String.eqb (user_id (doc_user u)) uid) (users d)).

Definition products_find_one (pid : string)
  : Handler num (option (Product num)) :=
  read (fun d => find (has_id pid) (products d)).

(** [delete_one] is sent whatever the collection holds, and answers with
    its [deleted_count]. *)
Definition products_delete_one (pid : string) : Handler num Z :=
  deleted_count <- read (fun d =>
                     if existsb (has_id pid) (products d) then 1 else 0) ;;
  write (DeleteProduct pid) ;;
  ret deleted_count.
End Store.

(** ** Tokens and the two gates *)

Section Auth.
Context {num : Type} {platform : Platform}.

Definition jwt_encode (claims : Claims) (key alg : string) : bearer :=
  Signed alg claims (hs256 key claims).

(** [jwt.decode]: [None] stands for any [JWTError].  The signature is
    checked first, then [exp] against the clock ([now], in seconds):
    [jose] rejects a token only when [exp < now]. *)
Definition jwt_decode (now : Z) (token : bearer) (key : string)
    (algorithms : list string) : option Claims :=
  match token with
  | Garbled _ => None
  | Signed alg claims signature =>
      if existsb (String.eqb alg) algorithms
         && String.eqb signature (hs256 key claims)
      then match claim_exp claims with
           | Some exp => if exp <? now then None else Some claims
           | None => Some claims
           end
      else None
  end.

(** [now] is the clock reading in seconds; a week of minutes is added. *)
Definition create_access_token (now : Z) (data : Claims) : bearer :=
  let expire := now + ACCESS_TOKEN_EXPIRE_MINUTES * 60 in
  let to_encode :=
    {| claim_sub := claim_sub data; claim_exp := Some expire |} in
  jwt_encode to_encode SECRET_KEY ALGORITHM.

Definition credentials_exception : HTTPException :=
  {| status_code := 401;
     detail := "Could not validate credentials";
     headers := Some [("WWW-Authenticate", "Bearer")] |}.

Definition get_current_user (now : Z) (token : bearer)
  : Handler num UserDoc :=
  match jwt_decode now token SECRET_KEY [ALGORITHM] with
  | None => raise credentials_exception
  | Some payload =>
      match claim_sub payload with
      | None => raise credentials_exception
      | Some uid =>
          user <- users_find_one_by_id uid ;;
          match user with
          | None => raise credentials_exception
          | Some u => ret u
          end
      end
  end.

Definition get_admin_user (current_user : UserDoc)
  : Handler num UserDoc :=
  if String.eqb (user_role (doc_user current_user)) "admin"
  then ret current_user
  else raise {| status_code := 403;
                detail := "Admin access required";
                headers := None |}.

(** [register]; the uuid, the creation time and the salt are drawn by the
    caller of the model. *)
Definition register (fresh_id now_iso salt : string)
    (user_data : UserCreate) : Handler num User :=
  existing_user <- users_find_one_by_email (uc_email user_data) ;;
  match existing_user with
  | Some _ =>
      raise {| status_code := 400;
               detail := "Email already registered";
               headers := None |}
  | None =>
      let hashed_password :=
        get_password_hash salt (uc_password user_data) in
      let user_obj :=
        {| user_id := fresh_id;
           user_email := uc_email user_data;
           user_name := uc_name user_data;
           user_role := uc_role user_data;
           user_created_at := now_iso |} in
      write (InsertUser {| doc_user := user_obj;
                           doc_password := hashed_password |}) ;;
      ret user_obj
  end.

Definition login (now : Z) (credentials : UserLogin)
  : Handler num Token :=
  user <- users_find_one_by_email (ul_email credentials) ;;
  match user with
  | None =>
      raise {| status_code := 401;
               detail := "Incorrect email or password";
               headers := None |}
  | Some u =>
      match verify_password (ul_password credentials) (doc_password u) with
      | None =>
          (* the exception of [passlib] is not caught: a server error *)
          raise {| status_code := 500;
                   detail := "Internal Server Error";
                   headers := None |}
      | Some false =>
          raise {| status_code := 401;
                   detail := "Incorrect email or password";
                   headers := None |}
      | Some true =>
          let access_token :=
            create_access_token now
              {| claim_sub := Some (user_id (doc_user u));
                 claim_exp := None |} in
          ret {| access_token := access_token;
                 token_type := "bearer";
                 token_user := doc_user u |}
      end
  end.
End Auth.

(** ** Dictionaries and sorting *)

(** A Python [dict] with string keys, in insertion order. *)
Fixpoint dict_get {V} (d : list (string * V)) (k : string) : option V :=
  match d with
  | [] => None
  | (k', v) :: d' => if String.eqb k' k then Some v else dict_get d' k
  end.

(** [d[k] = v]: an existing key keeps its place, a new key goes last. *)
Fixpoint dict_set {V} (d : list (string * V)) (k : string) (v : V)
  : list (string * V) :=
  match d with
  | [] => [(k, v)]
  | (k', v') :: d' =>
      if String.eqb k' k then (k', v) :: d' else (k', v') :: dict_set d' k v
  end.

(** [d.get(k, default)]. *)
Definition dict_get_default {V} (d : list (string * V)) (k : string)
    (default : V) : V :=
  or_else (dict_get d k) default.

(** A stable sort, as Python's [sorted] and [list.sort] are: [before y x]
    says that [y] has to come strictly before [x]; elements that neither
    precede the other keep the order they had. *)
Fixpoint insert_by {A} (before : A -> A -> bool) (x : A) (l : list A)
  : list A :=
  match l with
  | [] => [x]
  | y :: l' =>
      if before y x then y :: insert_by before x l' else x :: y :: l'
  end.

Definition sort_by {A} (before : A -> A -> bool) (l : list A) : list A :=
  fold_right (insert_by before) [] l.

(** ** Catalog and sales handlers *)

(** The [date] filter of [get_sales] and [get_report_summary]. *)
Record DateQuery : Type := {
  q_gte : option string;
  q_lte : option string
}.

Record Message : Type := {
  message : string;
  products_count : option Z;
  users_created : option Z
}.

Section Handlers.
Context {num : Type} {platform : Platform}.

(** The query dict of [get_products], as a test on a document. *)
Definition product_query (category search : option string)
    (p : Product num) : bool :=
  (if truthy category
   then String.eqb (prod_category p) (or_else category "")
   else true)
  && (if truthy search
      then regex_search_i (or_else search "") (prod_name p)
      else true).

Definition get_products (category search : option string)
  : Handler num (list (Product num)) :=
  let query := product_query category search in
  read (fun d => to_list 1000 (filter query (products d))).

Definition create_product (fresh_id now_iso : string)
    (product : ProductCreate num) (current_user : UserDoc)
  : Handler num (Product num) :=
  let product_obj :=
    {| prod_id := fresh_id;
       prod_name := pc_name product;
       prod_category := pc_category product;
       prod_cost := pc_cost product;
       prod_sale_price := pc_sale_price product;
       prod_employee_price := pc_employee_price product;
       prod_image_url := pc_image_url product;
       prod_times_sold := 0;
       prod_created_at := now_iso |} in
  write (InsertProduct product_obj) ;;
  ret product_obj.

Definition not_found : HTTPException :=
  {| status_code := 404; detail := "Product not found"; headers := None |}.

(** [update_data] is empty when every field of the request is [None]. *)
Definition no_fields (u : ProductUpdate num) : bool :=
  match pu_name u, pu_category u, pu_cost u,
        pu_sale_price u, pu_employee_price u, pu_image_url u with
  | None, None, None, None, None, None => true
  | _, _, _, _, _, _ => false
  end.

Definition update_product (pid : string) (product : ProductUpdate num)
    (current_user : UserDoc) : Handler num (Product num) :=
  existing <- products_find_one pid ;;
  match existing with
  | None => raise not_found
  | Some _ =>
      (if no_fields product then ret tt
       else write (SetProduct pid product)) ;;
      updated <- products_find_one pid ;;
      match updated with
      | Some p => ret p
      | None =>
          (* [updated["created_at"]] on [None]: a server error *)
          raise {| status_code := 500;
                   detail := "Internal Server Error";
                   headers := None |}
      end
  end.

Definition delete_product (pid : string) (current_user : UserDoc)
  : Handler num Message :=
  deleted_count <- products_delete_one pid ;;
  if deleted_count =? 0 then raise not_found
  else ret {| message := "Product deleted";
              products_count := None;
              users_created := None |}.

Definition create_sale (fresh_id now_iso : string)
    (sale_data : SaleCreate num) (current_user : UserDoc)
  : Handler num (Sale num) :=
  let sale_obj :=
    {| sale_id := fresh_id;
       sale_products := sc_products sale_data;
       sale_total := sc_total sale_data;
       sale_customer_type := sc_customer_type sale_data;
       sale_payment_method := sc_payment_method sale_data;
       sale_amount_paid := sc_amount_paid sale_data;
       sale_change_amount := sc_change_amount sale_data;
       sale_cashier_id := user_id (doc_user current_user);
       sale_cashier_name := user_name (doc_user current_user);
       sale_date := now_iso |} in
  write (InsertSale sale_obj) ;;
  for_each (sc_products sale_data) (fun item =>
    write (IncTimesSold (product_id item) (quantity item))) ;;
  ret sale_obj.

(** The query dict built from the two optional bounds. *)
Definition date_query (start_date end_date : option string) : DateQuery :=
  {| q_gte := if truthy start_date then start_date else None;
     q_lte := if truthy end_date then end_date else None |}.

(** Mongo compares the stored ISO strings with the bounds as strings. *)
Definition in_range (q : DateQuery) (s : Sale num) : bool :=
  match q_gte q with
  | Some lo => String.leb lo (sale_date s)
  | None => true
  end
  && match q_lte q with
     | Some hi => String.leb (sale_date s) hi
     | None => true
     end.

(** [.sort("date", -1)]: newest first. *)
Definition newer (y x : Sale num) : bool :=
  String.ltb (sale_date x) (sale_date y).

Definition get_sales (start_date end_date : option string)
    (current_user : UserDoc) : Handler num (list (Sale num)) :=
  let query := date_query start_date end_date in
  read (fun d =>
    to_list 1000 (sort_by newer (filter (in_range query) (sales d)))).

(** [seed_data].  [products_to_insert] is the list of documents the
    handler builds from its four literal tables (fresh ids, the table's
    category, [times_sold = 0]); the two users get their ids, creation
    times and salts from the caller of the model. *)
Definition seed_user (uid email name role now_iso salt password : string)
  : UserDoc :=
  {| doc_user := {| user_id := uid;
                    user_email := email;
                    user_name := name;
                    user_role := role;
                    user_created_at := now_iso |};
     doc_password := get_password_hash salt password |}.

Definition seed_data (products_to_insert : list (Product num))
    (admin_id cashier_id now_iso salt1 salt2 : string)
  : Handler num Message :=
  existing_products <- read (fun d => Z.of_nat (List.length (products d))) ;;
  if existing_products >? 0
  then ret {| message := "Database already seeded";
              products_count := None;
              users_created := None |}
  else
    (match products_to_insert with
     | [] => ret tt
     | _ :: _ => write (InsertManyProducts products_to_insert)
     end) ;;
    write (InsertUser (seed_user admin_id "admin@pos.com" "Admin User"
                         "admin" now_iso salt1 "admin123")) ;;
    write (InsertUser (seed_user cashier_id "cashier@pos.com"
                         "Cashier User" "cashier" now_iso salt2
                         "cashier123")) ;;
    ret {| message := "Database seeded successfully";
           products_count :=
             Some (Z.of_nat (List.length products_to_insert));
           users_created := Some 2 |}.
End Handlers.

(** ** The reporting engine *)

(** What [get_report_summary] reads off the clock ([now]): the ISO string
    of today's midnight and of [now - timedelta(days=n)]. *)
Record Clock : Type := {
  midnight_iso : string;
  days_ago_iso : Z -> string
}.

(** [datetime.fromisoformat(sale_date).strftime("%Y-%m-%d")]: for a stamp
    written by [isoformat()] this is its first ten characters. *)
Definition day_key_of (sale_date : string) : string :=
  substring 0 10 sale_date.

Section Reporting.
Context {num : Type} {number : Number num}.

(** The body of the inner loop: one line item into [product_sales]. *)
Definition add_item (product_sales : list (string * ProductSales num))
    (item : SaleProduct num) : list (string * ProductSales num) :=
  let pid := product_id item in
  let entry :=
    match dict_get product_sales pid with
    | Some e => e
    | None => {| ps_product_id := pid;
                 ps_product_name := product_name item;
                 ps_quantity := 0;
                 ps_revenue := zero |}
    end in
  dict_set product_sales pid
    {| ps_product_id := ps_product_id entry;
       ps_product_name := ps_product_name entry;
       ps_quantity := ps_quantity entry + quantity item;
       ps_revenue := add (ps_revenue entry) (subtotal item) |}.

(** The first statement of the outer loop: the sale into
    [daily_totals]. *)
Definition add_day (daily_totals : list (string * num)) (sale : Sale num)
  : list (string * num) :=
  let day_key := day_key_of (sale_date sale) in
  dict_set daily_totals day_key
    (add (dict_get_default daily_totals day_key zero) (sale_total sale)).

(** The body of the outer loop, on the pair of [product_sales] and
    [daily_totals]. *)
Definition add_sale
    (acc : list (string * ProductSales num) * list (string * num))
    (sale : Sale num)
  : list (string * ProductSales num) * list (string * num) :=
  let (product_sales, daily_totals) := acc in
  (fold_left add_item (sale_products sale) product_sales,
   add_day daily_totals sale).

(** The body of the category loop, given the product that [find_one]
    returned for the key. *)
Definition add_category (category_sales : list (string * num))
    (product : option (Product num)) (data : ProductSales num)
  : list (string * num) :=
  match product with
  | Some p =>
      let category := prod_category p in
      dict_set category_sales category
        (add (dict_get_default category_sales category zero)
             (ps_revenue data))
  | None => category_sales
  end.

Fixpoint category_loop (items : list (string * ProductSales num))
    (category_sales : list (string * num))
  : Handler num (list (string * num)) :=
  match items with
  | [] => ret category_sales
  | (pid, data) :: items' =>
      product <- products_find_one pid ;;
      category_loop items' (add_category category_sales product data)
  end.

Definition more_sold (y x : ProductSales num) : bool :=
  ps_quantity y >? ps_quantity x.

Definition earlier_day (y x : string * num) : bool :=
  String.ltb (fst y) (fst x).

Definition default_start (clock : Clock) (period : string)
    (start_date : option string) : option string :=
  if String.eqb period "daily" then Some (midnight_iso clock)
  else if String.eqb period "weekly" then Some (days_ago_iso clock 7)
  else if String.eqb period "monthly" then Some (days_ago_iso clock 30)
  else if String.eqb period "yearly" then Some (days_ago_iso clock 365)
  else start_date.

(** The query of the report: the period gives the lower bound when the
    request has none. *)
Definition report_query (clock : Clock) (period : string)
    (start_date end_date : option string) : DateQuery :=
  let start_date :=
    if negb (truthy start_date)
    then default_start clock period start_date
    else start_date in
  date_query start_date end_date.

Definition get_report_summary (clock : Clock) (period : string)
    (start_date end_date : option string) (current_user : UserDoc)
  : Handler num (ReportSummary num) :=
  let query := report_query clock period start_date end_date in
  sales <- read (fun d =>
             to_list 10000 (filter (in_range query) (sales d))) ;;
  let total_sales :=
    fold_left (fun acc s => add acc (sale_total s)) sales zero in
  let total_transactions := Z.of_nat (List.length sales) in
  let (product_sales, daily_totals) :=
    fold_left add_sale sales ([], []) in
  category_sales <- category_loop product_sales [] ;;
  let top_products :=
    firstn 10 (sort_by more_sold (map snd product_sales)) in
  let daily_sales_list :=
    map (fun kv => {| ds_date := fst kv; ds_total := snd kv |})
        (sort_by earlier_day daily_totals) in
  ret {| total_sales := total_sales;
         total_transactions := total_transactions;
         top_products := top_products;
         sales_by_category := category_sales;
         daily_sales := daily_sales_list |}.
End Reporting.

(** ** Sample data: whole amounts *)

#[export] Instance Number_Z : Number Z := {| zero := 0; add := Z.add |}.

#[export] Instance ExactAmounts_Z : ExactAmounts Z :=
  {| of_whole := fun z => z;
     whole := fun z => z;
     exact_bound := 2 ^ 53;
     zero_exact := eq_refl;
     add_exact := fun a b _ _ _ => eq_refl |}.

(** A stand-in platform for the worked examples: the MAC and the hash are
    toy functions of their inputs; a stored string without the separator
    is not a hash, and verifying against it raises. *)
Definition toy_platform : Platform :=
  {| SECRET_KEY := "your-secret-key-change-in-production";
     hs256 := fun key claims =>
       key ++ "." ++ or_else (claim_sub claims) "";
     get_password_hash := fun salt password => salt ++ "$" ++ password;
     verify_password := fun password hashed =>
       match index 0 "$" hashed with
       | Some n =>
           Some (String.eqb password
                   (substring (S n) (String.length hashed - S n) hashed))
       | None => None
       end;
     regex_search_i := fun pattern name =>
       match index 0 pattern name with
       | Some _ => true
       | None => false
       end |}.

(** ** Specification vocabulary *)

(** The one error of a failed login. *)
Definition incorrect_email_or_password : HTTPException :=
  {| status_code := 401;
     detail := "Incorrect email or password";
     headers := None |}.

(** The error of a registration with a taken email. *)
Definition email_already_registered : HTTPException :=
  {| status_code := 400;
     detail := "Email already registered";
     headers := None |}.

Definition by_email (email : string) (u : UserDoc) : bool :=
  String.eqb (user_email (doc_user u)) email.

Definition by_id (uid : string) (u : UserDoc) : bool :=
  String.eqb (user_id (doc_user u)) uid.

(** The units of product [pid] on the line items of a sale. *)
Fixpoint units_sold {num} (items : list (SaleProduct num)) (pid : string)
  : Z :=
  match items with
  | [] => 0
  | item :: items' =>
      (if String.eqb (product_id item) pid then quantity item else 0)
      + units_sold items' pid
  end.

(** The sales that [get_report_summary] aggregates. *)
Definition report_sales {num} (q : DateQuery) (w : World num)
  : list (Sale num) :=
  to_list 10000 (filter (in_range q) (sales (db w))).

(** All line items of a list of sales, in order. *)
Definition line_items {num} (l : list (Sale num)) : list (SaleProduct num) :=
  flat_map (@sale_products num) l.

(** The keys of a list in the order in which they are first seen. *)
Fixpoint first_occurrences (keys : list string) : list string :=
  match keys with
  | [] => []
  | k :: keys' =>
      k :: filter (fun k' => negb (String.eqb k' k)) (first_occurrences keys')
  end.

Definition names (pid : string) {num} (item : SaleProduct num) : bool :=
  String.eqb (product_id item) pid.

(** The aggregate of one product over a list of line items: the name on
    the first item that names the product, the units, and the subtotals
    added up from [zero] in the order of the items. *)
Definition aggregate {num} `{Number num} (items : list (SaleProduct num))
    (pid : string) : ProductSales num :=
  {| ps_product_id := pid;
     ps_product_name :=
       match find (names pid) items with
       | Some item => product_name item
       | None => ""
       end;
     ps_quantity := units_sold items pid;
     ps_revenue :=
       fold_left add (map (@subtotal num) (filter (names pid) items)) zero |}.

(** The per-product aggregates, in first-seen order of the product ids. *)
Definition per_product {num} `{Number num} (items : list (SaleProduct num))
  : list (ProductSales num) :=
  map (aggregate items)
      (first_occurrences (map (@product_id num) items)).

(** The category a product id has in the catalog now, if it has a record. *)
Definition live_category {num} (catalog : list (Product num)) (pid : string)
  : option string :=
  option_map (@prod_category num) (find (has_id pid) catalog).

Definition in_category {num} (catalog : list (Product num)) (c : string)
    (a : ProductSales num) : bool :=
  match live_category catalog (ps_product_id a) with
  | Some c' => String.eqb c' c
  | None => false
  end.

(** The line items of a sale without those of product [pid]. *)
Definition without_product {num} (pid : string) (s : Sale num) : Sale num :=
  {| sale_id := sale_id s;
     sale_products :=
       filter (fun item => negb (names pid item)) (sale_products s);
     sale_total := sale_total s;
     sale_customer_type := sale_customer_type s;
     sale_payment_method := sale_payment_method s;
     sale_amount_paid := sale_amount_paid s;
     sale_change_amount := sale_change_amount s;
     sale_cashier_id := sale_cashier_id s;
     sale_cashier_name := sale_cashier_name s;
     sale_date := sale_date s |}.

(** The ledger as it would be had product [pid] never been sold. *)
Definition forget_product {num} (pid : string) (w : World num) : World num :=
  {| db := with_sales (db w) (map (without_product pid) (sales (db w)));
     journal := journal w |}.

(** The order of the ranking and the test of a tie. *)
Definition at_least {num} (a b : ProductSales num) : Prop :=
  ps_quantity a >= ps_quantity b.

Definition sold_exactly {num} (n : Z) (a : ProductSales num) : bool :=
  ps_quantity a =? n.

(** The ledger with more sales behind the ones it has. *)
Definition append_sales {num} (extra : list (Sale num)) (w : World num)
  : World num :=
  {| db := with_sales (db w) (sales (db w) ++ extra);
     journal := journal w |}.

(** The revenue of a list of aggregates. *)
Definition revenue_sum (aggs : list (ProductSales Z)) : Z :=
  fold_right Z.add 0 (map (@ps_revenue Z) aggs).

(** The range of a report request, said directly: a bound that is absent
    or the empty string is not given; without a given start the period
    names it (today's midnight, or 7, 30 or 365 days ago), and any other
    period leaves the range open below; both bounds are inclusive, in the
    order of the date strings. *)
Definition given (bound : option string) : option string :=
  match bound with
  | Some b => if String.eqb b "" then None else Some b
  | None => None
  end.

Definition period_start (clock : Clock) (period : string) : option string :=
  if String.eqb period "daily" then Some (midnight_iso clock)
  else if String.eqb period "weekly" then Some (days_ago_iso clock 7)
  else if String.eqb period "monthly" then Some (days_ago_iso clock 30)
  else if String.eqb period "yearly" then Some (days_ago_iso clock 365)
  else None.

Definition in_requested_range {num} (clock : Clock) (period : string)
    (start_date end_date : option string) (s : Sale num) : bool :=
  let lower :=
    match given start_date with
    | Some lo => Some lo
    | None => period_start clock period
    end in
  match lower with
  | Some lo => String.leb lo (sale_date s)
  | None => true
  end
  && match given end_date with
     | Some hi => String.leb (sale_date s) hi
     | None => true
     end.

(** All sales of the ledger in the requested range, in store order. *)
Definition requested_sales {num} (clock : Clock) (period : string)
    (start_date end_date : option string) (w : World num)
  : list (Sale num) :=
  filter (in_requested_range clock period start_date end_date)
    (sales (db w)).

(** The whole number that the subtotals of a list of line items add up
    to. *)
Definition whole_sum {num} `{ExactAmounts num}
    (items : list (SaleProduct num)) : Z :=
  fold_right Z.add 0 (map (fun item => whole (subtotal item)) items).

(** The line items carry non-negative whole-number subtotals. *)
Definition all_whole {num} `{ExactAmounts num}
    (items : list (SaleProduct num)) : Prop :=
  forall item,
    In item items ->
    subtotal item = of_whole (whole (subtotal item))
    /\ 0 <= whole (subtotal item).

(** The line items of a sale carry non-negative whole-number subtotals
    that add up to [total]. *)
Definition whole_subtotals {num} `{ExactAmounts num} (s : Sale num)
    (total : Z) : Prop :=
  all_whole (sale_products s) /\ whole_sum (sale_products s) = total.

(** The worked example of the report: the sales in the requested range are
    two, of totals 10 and 15, on an earlier and a later day, and every line
    item names a product that the catalog has under "drinks". *)
Definition two_drink_sales {num} `{ExactAmounts num} (clock : Clock)
    (period : string) (start_date end_date : option string)
    (w : World num) (s1 s2 : Sale num) : Prop :=
  (requested_sales clock period start_date end_date w = [s1; s2]
   \/ requested_sales clock period start_date end_date w = [s2; s1])
  /\ sale_total s1 = of_whole 10
  /\ sale_total s2 = of_whole 15
  /\ String.ltb (day_key_of (sale_date s1)) (day_key_of (sale_date s2))
     = true
  /\ forall item,
       In item (sale_products s1 ++ sale_products s2)%list ->
       live_category (products (db w)) (product_id item) = Some "drinks".

(** The report that the example expects. *)
Definition two_drink_report {num} `{ExactAmounts num} (s1 s2 : Sale num)
    (r : ReportSummary num) : Prop :=
  total_sales r = of_whole 25
  /\ total_transactions r = 2
  /\ daily_sales r
     = [ {| ds_date := day_key_of (sale_date s1);
            ds_total := of_whole 10 |};
         {| ds_date := day_key_of (sale_date s2);
            ds_total := of_whole 15 |} ]
  /\ sales_by_category r = [("drinks", of_whole 25)].

(** ** Sample data *)

Definition empty_world : World Z :=
  {| db := {| users := []; products := []; sales := [] |}; journal := [] |}.

Definition sample_clock : Clock :=
  {| midnight_iso := "2024-03-02T00:00:00+00:00";
     days_ago_iso := fun _ => "2024-02-01T09:30:00+00:00" |}.

Definition ana : UserDoc :=
  {| doc_user := {| user_id := "u1";
                    user_email := "ana@pos.com";
                    user_name := "Ana";
                    user_role := "cashier";
                    user_created_at := "2024-01-01T08:00:00+00:00" |};
     doc_password := "salt$secret" |}.

Definition cola : Product Z :=
  {| prod_id := "p1"; prod_name := "Cola"; prod_category := "drinks";
     prod_cost := 1; prod_sale_price := 5; prod_employee_price := 3;
     prod_image_url := ""; prod_times_sold := 7;
     prod_created_at := "2024-01-01T08:00:00+00:00" |}.

Definition chips : Product Z :=
  {| prod_id := "p2"; prod_name := "Chips"; prod_category := "snacks";
     prod_cost := 1; prod_sale_price := 2; prod_employee_price := 1;
     prod_image_url := ""; prod_times_sold := 0;
     prod_created_at := "2024-01-01T08:00:00+00:00" |}.

Definition line (pid name : string) (n price : Z) : SaleProduct Z :=
  {| product_id := pid; product_name := name; quantity := n;
     unit_price := price; subtotal := n * price |}.

Definition sale_of (sid date : string) (items : list (SaleProduct Z))
    (total : Z) : Sale Z :=
  {| sale_id := sid; sale_products := items; sale_total := total;
     sale_customer_type := "customer"; sale_payment_method := "cash";
     sale_amount_paid := total; sale_change_amount := 0;
     sale_cashier_id := "u1"; sale_cashier_name := "Ana";
     sale_date := date |}.

Definition shop (ss : list (Sale Z)) : World Z :=
  {| db := {| users := [ana]; products := [cola; chips]; sales := ss |};
     journal := [] |}.

(** Two consistent sales of cola, on the first and on the second of
    March. *)
Definition monday : Sale Z :=
  sale_of "s1" "2024-03-01T10:00:00+00:00" [line "p1" "Cola" 2 5] 10.

Definition tuesday : Sale Z :=
  sale_of "s2" "2024-03-02T11:00:00+00:00" [line "p1" "Cola" 3 5] 15.

(** The same two sales with totals that their line items do not add up
    to: the client sends the total, the server does not recompute it. *)
Definition monday_off : Sale Z :=
  sale_of "s1" "2024-03-01T10:00:00+00:00" [line "p1" "Cola" 1 4] 10.

Definition tuesday_off : Sale Z :=
  sale_of "s2" "2024-03-02T11:00:00+00:00" [line "p1" "Cola" 1 4] 15.

(** A sale of a product that is no longer in the catalog. *)
Definition wednesday : Sale Z :=
  sale_of "s3" "2024-03-03T12:00:00+00:00"
    [line "p9" "Lemonade" 4 3; line "p1" "Cola" 1 5] 17.

(** A basket of two colas and three bags of chips. *)
Definition basket : SaleCreate Z :=
  {| sc_products := [line "p1" "Cola" 2 5; line "p2" "Chips" 3 2];
     sc_total := 16; sc_customer_type := "customer";
     sc_payment_method := "cash"; sc_amount_paid := 20;
     sc_change_amount := 4 |}.

Definition only_sale_price (v : Z) : ProductUpdate Z :=
  {| pu_name := None; pu_category := None; pu_cost := None;
     pu_sale_price := Some v; pu_employee_price := None;
     pu_image_url := None |}.

Definition admin_request : UserCreate :=
  {| uc_email := "admin@pos.com"; uc_password := "hunter2";
     uc_name := "Early Bird"; uc_role := "cashier" |}.

Definition wrong_password : UserLogin :=
  {| ul_email := "ana@pos.com"; ul_password := "guess" |}.

Definition ana_again : UserCreate :=
  {| uc_email := "ana@pos.com"; uc_password := "other";
     uc_name := "Ana B"; uc_role := "admin" |}.

(** A ledger with ten thousand sales. *)
Definition busy_shop : World Z := shop (repeat monday (Z.to_nat 10000)).

(** The world in which somebody registered the email of the demo admin
    before the catalog was seeded. *)
Definition early_bird_world : World Z :=
  snd (@register Z toy_platform "u7" "2024-03-01T09:00:00+00:00" "na"
         admin_request empty_world).

Definition emails {num} (w : World num) : list string :=
  map (fun u => user_email (doc_user u)) (users (db w)).

(** ** Further handlers *)

(** [cursor.limit(n)]: Mongo reads [0] as no limit and a negative [n] as
    its absolute value. *)
Definition cursor_limit {A} (n : Z) (cursor : list A) : list A :=
  if n =? 0 then cursor else firstn (Z.to_nat (Z.abs n)) cursor.

Definition forbidden : HTTPException :=
  {| status_code := 403; detail := "Admin access required";
     headers := None |}.

Section MoreHandlers.
Context {num : Type} {platform : Platform}.

(** [endpoint(..., current_user = Depends(dependency))]: the dependency
    runs first and its exception ends the request. *)
Definition Depends {A} (dependency : Handler num UserDoc)
    (endpoint : UserDoc -> Handler num A) : Handler num A :=
  current_user <- dependency ;;
  endpoint current_user.

(** [Depends(get_admin_user)], which itself depends on
    [get_current_user]. *)
Definition admin_dependency (now : Z) (token : bearer)
  : Handler num UserDoc :=
  Depends (get_current_user now token) get_admin_user.

(** [get_me]: the [User] built from [current_user] has no password. *)
Definition get_me (current_user : UserDoc) : Handler num User :=
  ret (doc_user current_user).

(** [.sort("times_sold", -1)]: most sold first. *)
Definition more_popular (y x : Product num) : bool :=
  prod_times_sold y >? prod_times_sold x.

(** [get_top_products]; [to_list] raises [ValueError] on a negative
    length, which the server answers with status 500. *)
Definition get_top_products (limit : Z)
  : Handler num (list (Product num)) :=
  if limit <? 0
  then raise {| status_code := 500;
                detail := "Internal Server Error";
                headers := None |}
  else read (fun d =>
         to_list limit
           (cursor_limit limit (sort_by more_popular (products d)))).

(** [get_users]: the projection leaves the password out. *)
Definition get_users (current_user : UserDoc) : Handler num (list User) :=
  read (fun d => map doc_user (to_list 1000 (users d))).
End MoreHandlers.

(** ** Further vocabulary *)

Definition times_sold_sum {num} (catalog : list (Product num)) : Z :=
  fold_right Z.add 0 (map (@prod_times_sold num) catalog).

(** The units on the line items whose product id the catalog has. *)
Fixpoint catalogued_units {num} (catalog : list (Product num))
    (items : list (SaleProduct num)) : Z :=
  match items with
  | [] => 0
  | item :: items' =>
      (if existsb (has_id (product_id item)) catalog
       then quantity item else 0)
      + catalogued_units catalog items'
  end.

Definition on_day {num} (day : string) (s : Sale num) : bool :=
  String.eqb (day_key_of (sale_date s)) day.

Definition in_catalog {num} (catalog : list (Product num))
    (a : ProductSales num) : bool :=
  existsb (has_id (ps_product_id a)) catalog.

Definition already_seeded : Message :=
  {| message := "Database already seeded";
     products_count := None;
     users_created := None |}.

Definition admin_login : UserLogin :=
  {| ul_email := "admin@pos.com"; ul_password := "admin123" |}.

(** More sample data. *)
Definition boss : UserDoc :=
  {| doc_user := {| user_id := "u0";
                    user_email := "boss@pos.com";
                    user_name := "Boss";
                    user_role := "admin";
                    user_created_at := "2024-01-01T08:00:00+00:00" |};
     doc_password := "salt$topsecret" |}.

Definition staffed_shop : World Z :=
  {| db := {| users := [boss; ana]; products := [cola; chips];
              sales := [monday; tuesday] |};
     journal := [] |}.

Definition ana_login : UserLogin :=
  {| ul_email := "ana@pos.com"; ul_password := "secret" |}.

Definition new_hire : UserCreate :=
  {| uc_email := "eve@pos.com"; uc_password := "pw";
     uc_name := "Eve"; uc_role := "cashier" |}.

Definition tea : ProductCreate Z :=
  {| pc_name := "Tea"; pc_category := "drinks"; pc_cost := 1;
     pc_sale_price := 3; pc_employee_price := 2; pc_image_url := "" |}.

Definition no_change : ProductUpdate Z :=
  {| pu_name := None; pu_category := None; pu_cost := None;
     pu_sale_price := None; pu_employee_price := None;
     pu_image_url := None |}.

Definition ghost_basket : SaleCreate Z :=
  {| sc_products := [line "p9" "Lemonade" 4 3];
     sc_total := 12; sc_customer_type := "customer";
     sc_payment_method := "cash"; sc_amount_paid := 12;
     sc_change_amount := 0 |}.

Definition ana_token : bearer :=
  @create_access_token toy_platform 1709300000
    {| claim_sub := Some "u1"; claim_exp := None |}.

Definition boss_token : bearer :=
  @create_access_token toy_platform 1709300000
    {| claim_sub := Some "u0"; claim_exp := None |}.

(** A user whose stored password is not a hash, and a shop that has it. *)
Definition zed : UserDoc :=
  {| doc_user := {| user_id := "u6";
                    user_email := "zed@pos.com";
                    user_name := "Zed";
                    user_role := "cashier";
                    user_created_at := "2023-06-01T08:00:00+00:00" |};
     doc_password := "imported-plain-text" |}.

Definition legacy_shop : World Z :=
  {| db := {| users := [ana; zed]; products := [cola; chips]; sales := [] |};
     journal := [] |}.

Definition zed_login : UserLogin :=
  {| ul_email := "zed@pos.com"; ul_password := "guess" |}.

Definition nobody_login : UserLogin :=
  {| ul_email := "nobody@pos.com"; ul_password := "guess" |}.

Definition internal_server_error : HTTPException :=
  {| status_code := 500; detail := "Internal Server Error";
     headers := None |}.

(** One more sale, of chips, behind the ten thousand of the busy shop. *)
Definition chips_sale : Sale Z :=
  sale_of "s10001" "2024-03-02T11:00:00+00:00" [line "p2" "Chips" 3 2] 6.

Definition crowded_shop : World Z := append_sales [chips_sale] busy_shop.

(** * Properties *)

Unset Implicit Arguments.
Local Open Scope list_scope.
Local Open Scope Z_scope.

Ltac run :=
  cbv beta delta
    [bind ret raise read write users_find_one_by_email users_find_one_by_id
     products_find_one products_delete_one] in *;
  cbn beta iota in *.

Lemma find_app_first {A} (p : A -> bool) (l1 l2 : list A) :
  find p (l1 ++ l2)
    = match find p l1 with
      | Some a => Some a
      | None => find p l2
      end.
Proof.
  induction l1 as [| x l1 IH]; cbn; [reflexivity |].
  destruct (p x); [reflexivity | exact IH].
Qed.

Lemma find_none_iff {A} (p : A -> bool) (l : list A) :
  find p l = None <-> forall x, In x l -> p x = false.
Proof.
  split.
  - intros H x Hx. exact (find_none p l H x Hx).
  - induction l as [| y l IH]; cbn; intros H; [reflexivity |].
    rewrite (H y (or_introl eq_refl)). apply IH.
    intros x Hx. apply H. right. exact Hx.
Qed.

Section AuthProperties.
Context {num : Type} {platform : Platform}.

(** The two rejections of a login are one: when no user has the email,
    and when the stored hash is checked and does not verify, the login ends
    in the same exception value (401, "Incorrect email or password", no
    headers) and leaves the world as it was. *)
Lemma login_rejections_agree :
  forall (now : Z) (credentials : UserLogin) (w : World num),
    (find (by_email (ul_email credentials)) (users (db w)) = None \/
     exists u,
       find (by_email (ul_email credentials)) (users (db w)) = Some u /\
       verify_password (ul_password credentials) (doc_password u)
       = Some false)
    ->
    @login num platform now credentials w
      = (inl incorrect_email_or_password, w).
Proof.
  intros now credentials w H.
  unfold login. run. fold (by_email (ul_email credentials)).
  destruct H as [-> | [u [-> Hv]]]; [reflexivity |].
  rewrite Hv. reflexivity.
Qed.

(** When the hasher raises on the stored string of the matching user, the
    login ends in a server error: nothing catches the exception. *)
Lemma login_lets_hasher_raise :
  forall (now : Z) (credentials : UserLogin) (w : World num) (u : UserDoc),
    find (by_email (ul_email credentials)) (users (db w)) = Some u ->
    verify_password (ul_password credentials) (doc_password u) = None ->
    @login num platform now credentials w = (inl internal_server_error, w).
Proof.
  intros now credentials w u Hfind Hraise.
  unfold login. run. fold (by_email (ul_email credentials)).
  rewrite Hfind, Hraise. reflexivity.
Qed.

(** C9.  A registration whose email some stored user already has ends in
    the exception of a taken email (HTTP 400, "Email already registered")
    and changes nothing; any other registration appends one user document,
    holding the hash of the password, and returns that document's public
    part, which has no password field; after it, a registration with the
    same email is refused. *)
Theorem register_conflict_or_created :
  forall (fresh_id now_iso salt : string) (user_data : UserCreate)
         (w : World num),
    let user_obj :=
      {| user_id := fresh_id;
         user_email := uc_email user_data;
         user_name := uc_name user_data;
         user_role := uc_role user_data;
         user_created_at := now_iso |} in
    let doc :=
      {| doc_user := user_obj;
         doc_password :=
           get_password_hash salt (uc_password user_data) |} in
    let w' :=
      {| db := with_users (db w) (users (db w) ++ [doc]);
         journal := journal w ++ [InsertUser doc] |} in
    ((exists u, In u (users (db w)) /\
                user_email (doc_user u) = uc_email user_data) ->
     @register num platform fresh_id now_iso salt user_data w
       = (inl email_already_registered, w))
    /\ ((forall u, In u (users (db w)) ->
                   user_email (doc_user u) <> uc_email user_data) ->
        @register num platform fresh_id now_iso salt user_data w
          = (inr (doc_user doc), w')
        /\ forall (id2 now2 salt2 : string) (again : UserCreate),
             uc_email again = uc_email user_data ->
             @register num platform id2 now2 salt2 again w'
               = (inl email_already_registered, w')).
Proof.
  intros fresh_id now_iso salt user_data w user_obj doc w'.
  split.
  - intros [u [Hin Hmail]]. unfold register. run.
    fold (by_email (uc_email user_data)).
    destruct (find (by_email (uc_email user_data)) (users (db w)))
      as [v |] eqn:E; [reflexivity |].
    rewrite find_none_iff in E. specialize (E u Hin).
    unfold by_email in E. rewrite Hmail, String.eqb_refl in E.
    discriminate.
  - intros Hfresh.
    assert (E : find (by_email (uc_email user_data)) (users (db w))
                = None).
    { apply find_none_iff. intros u Hin. unfold by_email.
      apply String.eqb_neq. apply Hfresh. exact Hin. }
    split.
    + unfold register. run. fold (by_email (uc_email user_data)).
      rewrite E. reflexivity.
    + intros id2 now2 salt2 again Hsame. unfold register. run.
      fold (by_email (uc_email again)). rewrite Hsame.
      subst w'. cbn [db users with_users].
      rewrite find_app_first, E. cbn [find].
      unfold by_email at 1. subst doc user_obj.
      cbn [doc_user user_email]. rewrite String.eqb_refl. reflexivity.
Qed.

(** C4.  The token issued at time [issued] for the id of a stored user
    carries that id and the expiry [issued + 7 days]; presented to
    [get_current_user] at any time up to the expiry it resolves to a
    stored user with that id.  Presented after the expiry, or with any
    other signature, or as a string that is no token at all, it ends in
    the 401 exception; and every failure of the gate is that one
    exception: nothing is returned for a token that does not verify. *)
Theorem token_resolves_until_expiry :
  forall (issued now : Z) (uid : string) (u : UserDoc) (w : World num),
    find (by_id uid) (users (db w)) = Some u ->
    let claims :=
      {| claim_sub := Some uid;
         claim_exp := Some (issued + 7 * 24 * 60 * 60) |} in
    let token :=
      create_access_token issued
        {| claim_sub := Some uid; claim_exp := None |} in
    token = Signed "HS256" claims (hs256 SECRET_KEY claims)
    /\ user_id (doc_user u) = uid
    /\ (now <= issued + 7 * 24 * 60 * 60 ->
        @get_current_user num platform now token w = (inr u, w))
    /\ (issued + 7 * 24 * 60 * 60 < now ->
        @get_current_user num platform now token w
          = (inl credentials_exception, w))
    /\ (forall (alg signature : string),
          signature <> hs256 SECRET_KEY claims ->
          @get_current_user num platform now
             (Signed alg claims signature) w
            = (inl credentials_exception, w))
    /\ (forall raw : string,
          @get_current_user num platform now (Garbled raw) w
            = (inl credentials_exception, w))
    /\ (forall (presented : bearer) (e : HTTPException)
               (w1 : World num),
          @get_current_user num platform now presented w = (inl e, w1) ->
          e = credentials_exception /\ w1 = w).
Proof.
  intros issued now uid u w Hu claims token.
  assert (Hexp : issued + ACCESS_TOKEN_EXPIRE_MINUTES * 60
                 = issued + 7 * 24 * 60 * 60).
  { unfold ACCESS_TOKEN_EXPIRE_MINUTES. lia. }
  assert (Htok : token = Signed "HS256" claims (hs256 SECRET_KEY claims)).
  { subst token claims. unfold create_access_token, jwt_encode.
    cbn [claim_sub]. rewrite Hexp. reflexivity. }
  split; [exact Htok |].
  split.
  { apply find_some in Hu. destruct Hu as [_ Hid].
    apply String.eqb_eq. exact Hid. }
  split; [| split; [| split; [| split]]].
  - intros Hle. rewrite Htok. unfold get_current_user, jwt_decode.
    unfold ALGORITHM. cbn [existsb]. rewrite !String.eqb_refl.
    cbn [orb andb claim_exp claims].
    destruct (Z.ltb_spec (issued + 7 * 24 * 60 * 60) now) as [Hlt | _];
      [lia |].
    subst claims. cbn [claim_sub]. run. fold (by_id uid).
    rewrite Hu. reflexivity.
  - intros Hlt. rewrite Htok. unfold get_current_user, jwt_decode.
    unfold ALGORITHM. cbn [existsb]. rewrite !String.eqb_refl.
    cbn [orb andb claim_exp claims].
    destruct (Z.ltb_spec (issued + 7 * 24 * 60 * 60) now) as [_ | Hge];
      [reflexivity | lia].
  - intros alg signature Hsig. unfold get_current_user, jwt_decode.
    apply String.eqb_neq in Hsig. rewrite Hsig, andb_false_r.
    reflexivity.
  - intros raw. reflexivity.
  - intros presented e w1. unfold get_current_user.
    destruct (jwt_decode now presented SECRET_KEY [ALGORITHM])
      as [payload |]; [| intros E; inversion E; split; reflexivity].
    destruct (claim_sub payload) as [sub |];
      [| intros E; inversion E; split; reflexivity].
    clear Hu. run. destruct (find _ (users (db w))) as [v |];
      intros E; inversion E; split; reflexivity.
Qed.
End AuthProperties.

(** ** Catalog and sale handlers *)

Lemma update_first_app {A} (p : A -> bool) (f : A -> A) (l1 l2 : list A) :
  update_first p f (l1 ++ l2)
    = if existsb p l1 then update_first p f l1 ++ l2
      else l1 ++ update_first p f l2.
Proof.
  induction l1 as [| x l1 IH]; cbn; [reflexivity |].
  destruct (p x); cbn; [reflexivity |].
  rewrite IH. destruct (existsb p l1); reflexivity.
Qed.

Lemma existsb_false_iff {A} (p : A -> bool) (l : list A) :
  existsb p l = false <-> forall x, In x l -> p x = false.
Proof.
  induction l as [| y l IH]; cbn.
  - split; [intros _ x [] | reflexivity].
  - rewrite orb_false_iff, IH. split.
    + intros [Hy Hl] x [<- | Hx]; [exact Hy | exact (Hl x Hx)].
    + intros H. split; [apply H; left; reflexivity |].
      intros x Hx. apply H. right. exact Hx.
Qed.

Lemma find_split {A} (p : A -> bool) (l : list A) (x : A) :
  find p l = Some x ->
  exists before after,
    l = before ++ x :: after
    /\ existsb p before = false
    /\ p x = true.
Proof.
  induction l as [| y l IH]; cbn; [discriminate |].
  destruct (p y) eqn:Hy.
  - intros E. inversion E. subst y. exists [], l. repeat split. exact Hy.
  - intros E. destruct (IH E) as [before [after [-> [Hb Hx]]]].
    exists (y :: before), after. cbn. rewrite Hy, Hb. repeat split.
    exact Hx.
Qed.

Lemma update_first_at {A} (p : A -> bool) (f : A -> A)
    (before after : list A) (x : A) :
  existsb p before = false -> p x = true ->
  update_first p f (before ++ x :: after) = before ++ f x :: after.
Proof.
  intros Hb Hx. rewrite update_first_app, Hb. cbn. rewrite Hx. reflexivity.
Qed.

Section HandlerProperties.
Context {num : Type} {platform : Platform}.

Lemma set_fields_none (u : ProductUpdate num) (p : Product num) :
  no_fields u = true -> set_fields u p = p.
Proof.
  destruct u as [a b c d e f], p.
  destruct a, b, c, d, e, f; cbn; intros H;
    try discriminate; reflexivity.
Qed.

Lemma has_id_set_fields (pid : string) (u : ProductUpdate num)
    (p : Product num) :
  has_id pid (set_fields u p) = has_id pid p.
Proof. reflexivity. Qed.

Lemma for_each_write {A} (f : A -> Write num) (items : list A)
    (w : World num) :
  for_each items (fun item => write (f item)) w
    = (inr tt,
       {| db := fold_left (fun d item => apply_write (f item) d)
                  items (db w);
          journal := journal w ++ map f items |}).
Proof.
  revert w. induction items as [| item items IH]; intros w.
  - cbn. unfold ret. destruct w as [d j]. cbn. rewrite app_nil_r.
    reflexivity.
  - cbn [for_each fold_left map]. unfold bind at 1. unfold write at 1.
    rewrite IH. cbn [db journal]. rewrite <- app_assoc. reflexivity.
Qed.

Lemma inc_times_sold_twice (m n : Z) (p : Product num) :
  inc_times_sold n (inc_times_sold m p) = inc_times_sold (m + n) p.
Proof.
  unfold inc_times_sold. cbn. f_equal. lia.
Qed.

Lemma inc_times_sold_zero (p : Product num) : inc_times_sold 0 p = p.
Proof.
  destruct p. unfold inc_times_sold. cbn. f_equal. lia.
Qed.

Lemma update_first_inc_ids (pid : string) (n : Z)
    (l : list (Product num)) :
  map (@prod_id num) (update_first (has_id pid) (inc_times_sold n) l)
    = map (@prod_id num) l.
Proof.
  induction l as [| x l IH]; cbn; [reflexivity |].
  destruct (has_id pid x); cbn; [reflexivity |]. rewrite IH. reflexivity.
Qed.

Lemma existsb_has_id_ids (pid : string) (l1 l2 : list (Product num)) :
  map (@prod_id num) l1 = map (@prod_id num) l2 ->
  existsb (has_id pid) l1 = existsb (has_id pid) l2.
Proof.
  revert l2. induction l1 as [| x l1 IH]; intros [| y l2]; cbn;
    try discriminate; [reflexivity |].
  intros E. inversion E as [[Hxy Hrest]]. unfold has_id at 1 3.
  rewrite Hxy, (IH l2 Hrest). reflexivity.
Qed.

(** The increments of a sale, seen from one product: the first document
    with its id collects the units of all line items that name it. *)
Lemma increments_at (items : list (SaleProduct num)) :
  forall (d : Database num) (before after : list (Product num))
         (p : Product num),
    products d = before ++ p :: after ->
    existsb (has_id (prod_id p)) before = false ->
    let d' :=
      fold_left
        (fun d item =>
           apply_write (IncTimesSold (product_id item) (quantity item)) d)
        items d in
    users d' = users d
    /\ sales d' = sales d
    /\ exists before' after',
         products d'
           = before'
             ++ inc_times_sold (units_sold items (prod_id p)) p :: after'
         /\ map (@prod_id num) before' = map (@prod_id num) before.
Proof.
  induction items as [| item items IH]; intros d before after p Hd Hb d'.
  - subst d'. cbn. repeat split. exists before, after.
    rewrite inc_times_sold_zero. split; [exact Hd | reflexivity].
  - subst d'. cbn [fold_left units_sold].
    set (d1 := apply_write
                 (IncTimesSold (product_id item) (quantity item)) d).
    assert (Hu : users d1 = users d) by reflexivity.
    assert (Hs : sales d1 = sales d) by reflexivity.
    assert (Hp1 : products d1
                  = update_first (has_id (product_id item))
                      (inc_times_sold (quantity item))
                      (before ++ p :: after)).
    { subst d1. cbn. rewrite Hd. reflexivity. }
    rewrite <- Hu, <- Hs.
    destruct (String.eqb (product_id item) (prod_id p)) eqn:Hpid.
    + apply String.eqb_eq in Hpid.
      rewrite Hpid in Hp1.
      rewrite update_first_at in Hp1;
        [| exact Hb | apply String.eqb_refl].
      destruct (IH d1 before after (inc_times_sold (quantity item) p)
                  Hp1 Hb) as [Hu' [Hs' [b' [a' [Hp' Hids]]]]].
      split; [exact Hu' |]. split; [exact Hs' |].
      exists b', a'. split; [| exact Hids].
      rewrite Hp'. cbn [prod_id inc_times_sold].
      rewrite inc_times_sold_twice. reflexivity.
    + rewrite update_first_app in Hp1.
      assert (Hnot : has_id (product_id item) p = false).
      { unfold has_id. rewrite String.eqb_sym. exact Hpid. }
      destruct (existsb (has_id (product_id item)) before) eqn:Hhit.
      * assert (Hb1 : existsb (has_id (prod_id p))
                        (update_first (has_id (product_id item))
                           (inc_times_sold (quantity item)) before)
                      = false).
        { rewrite (existsb_has_id_ids (prod_id p) _ before);
            [exact Hb | apply update_first_inc_ids]. }
        destruct (IH d1 _ after p Hp1 Hb1)
          as [Hu' [Hs' [b' [a' [Hp' Hids]]]]].
        split; [exact Hu' |]. split; [exact Hs' |].
        exists b', a'. split.
        -- rewrite Hp'. rewrite Z.add_0_l. reflexivity.
        -- rewrite Hids. apply update_first_inc_ids.
      * cbn [update_first] in Hp1. rewrite Hnot in Hp1.
        destruct (IH d1 before _ p Hp1 Hb)
          as [Hu' [Hs' [b' [a' [Hp' Hids]]]]].
        split; [exact Hu' |]. split; [exact Hs' |].
        exists b', a'. split; [| exact Hids].
        rewrite Hp'. rewrite Z.add_0_l. reflexivity.
Qed.

Lemma units_sold_single (items1 items2 : list (SaleProduct num))
    (item : SaleProduct num) :
  (forall other, In other (items1 ++ items2) ->
                 product_id other <> product_id item) ->
  units_sold (items1 ++ item :: items2) (product_id item)
    = quantity item.
Proof.
  intros Hother.
  assert (Hzero : forall l : list (SaleProduct num),
            (forall other, In other l ->
                           product_id other <> product_id item) ->
            units_sold l (product_id item) = 0).
  { induction l as [| x l IHl]; intros H; cbn; [reflexivity |].
    rewrite (proj2 (String.eqb_neq _ _) (H x (or_introl eq_refl))).
    rewrite IHl; [reflexivity |].
    intros o Ho. apply H. right. exact Ho. }
  induction items1 as [| x items1 IH]; cbn.
  - rewrite String.eqb_refl, Hzero; [lia |].
    intros o Ho. apply Hother. exact Ho.
  - rewrite (proj2 (String.eqb_neq _ _) (Hother x (or_introl eq_refl))).
    rewrite IH; [reflexivity |].
    intros o Ho. apply Hother. right. exact Ho.
Qed.

(** C7.  [create_sale] always succeeds; it first inserts the sale, stamped
    with the caller's id and name, and then sends one [times_sold]
    increment per line item, by that item's quantity, in the order of the
    items.  In the resulting catalog the first document with a given id
    has its counter raised by the units of the line items that name it,
    which is the quantity of the item when only one item names it; users
    are untouched and the ledger has grown by the sale. *)
Theorem create_sale_increments :
  forall (fresh_id now_iso : string) (sale_data : SaleCreate num)
         (current_user : UserDoc) (w : World num)
         (before after : list (Product num)) (p : Product num),
    products (db w) = before ++ p :: after ->
    (forall q, In q before -> prod_id q <> prod_id p) ->
    exists (sale : Sale num) (w' : World num)
           (before' after' : list (Product num)),
      create_sale fresh_id now_iso sale_data current_user w
        = (inr sale, w')
      /\ sale_products sale = sc_products sale_data
      /\ sale_total sale = sc_total sale_data
      /\ sale_cashier_id sale = user_id (doc_user current_user)
      /\ sale_cashier_name sale = user_name (doc_user current_user)
      /\ journal w'
         = journal w
           ++ InsertSale sale
              :: map (fun item =>
                        IncTimesSold (product_id item) (quantity item))
                   (sc_products sale_data)
      /\ sales (db w') = sales (db w) ++ [sale]
      /\ users (db w') = users (db w)
      /\ products (db w')
         = before'
           ++ inc_times_sold
                (units_sold (sc_products sale_data) (prod_id p)) p
              :: after'
      /\ map (@prod_id num) before' = map (@prod_id num) before
      /\ (forall items1 item items2,
            sc_products sale_data = items1 ++ item :: items2 ->
            product_id item = prod_id p ->
            (forall other, In other (items1 ++ items2) ->
                           product_id other <> product_id item) ->
            prod_times_sold
              (inc_times_sold
                 (units_sold (sc_products sale_data) (prod_id p)) p)
              = prod_times_sold p + quantity item).
Proof.
  intros fresh_id now_iso sale_data current_user w before after p
         Hsplit Hfirst.
  assert (Hb : existsb (has_id (prod_id p)) before = false).
  { apply existsb_false_iff. intros q Hq. apply String.eqb_neq.
    exact (Hfirst q Hq). }
  unfold create_sale.
  set (sale := {| sale_id := fresh_id |}).
  unfold bind at 1. unfold write at 1. unfold bind at 1.
  rewrite for_each_write. cbn [db journal]. unfold ret.
  set (d1 := apply_write (InsertSale sale) (db w)).
  assert (Hp1 : products d1 = before ++ p :: after) by exact Hsplit.
  destruct (increments_at (sc_products sale_data) d1 before after p
              Hp1 Hb) as [Hu [Hs [b' [a' [Hp' Hids]]]]].
  exists sale, {| db := fold_left
                          (fun d item =>
                             apply_write
                               (IncTimesSold (product_id item)
                                  (quantity item)) d)
                          (sc_products sale_data) d1;
                  journal := (journal w ++ [InsertSale sale])
                             ++ map (fun item =>
                                       IncTimesSold (product_id item)
                                         (quantity item))
                                  (sc_products sale_data) |}, b', a'.
  cbn [db journal].
  split; [reflexivity |].
  do 4 (split; [reflexivity |]).
  split; [rewrite <- app_assoc; reflexivity |].
  split; [rewrite Hs; reflexivity |].
  split; [rewrite Hu; reflexivity |].
  split; [exact Hp' |].
  split; [exact Hids |].
  intros items1 item items2 Hitems Hpid Hother.
  cbn [prod_times_sold inc_times_sold]. f_equal.
  rewrite Hitems, <- Hpid. apply units_sold_single. exact Hother.
Qed.

(** C8.  Updating a product that exists returns it with exactly the
    supplied (non-[None]) fields overwritten: every field of the result is
    the supplied value if there is one and the old value otherwise, and
    [id], [times_sold] and [created_at] are always the old ones.  In the
    catalog only that document changes (the first one with the id); users
    and sales are untouched.  Updating an id that no product has ends in
    404 "Product not found" and changes nothing. *)
Theorem update_product_partial :
  forall (pid : string) (product : ProductUpdate num)
         (current_user : UserDoc) (w : World num),
    (forall p : Product num,
       find (has_id pid) (products (db w)) = Some p ->
       exists (before after : list (Product num)) (p' : Product num)
              (w' : World num),
         products (db w) = before ++ p :: after
         /\ (forall q, In q before -> prod_id q <> pid)
         /\ update_product pid product current_user w = (inr p', w')
         /\ products (db w') = before ++ p' :: after
         /\ users (db w') = users (db w)
         /\ sales (db w') = sales (db w)
         /\ prod_id p' = prod_id p
         /\ prod_times_sold p' = prod_times_sold p
         /\ prod_created_at p' = prod_created_at p
         /\ prod_name p' = or_else (pu_name product) (prod_name p)
         /\ prod_category p'
            = or_else (pu_category product) (prod_category p)
         /\ prod_cost p' = or_else (pu_cost product) (prod_cost p)
         /\ prod_sale_price p'
            = or_else (pu_sale_price product) (prod_sale_price p)
         /\ prod_employee_price p'
            = or_else (pu_employee_price product) (prod_employee_price p)
         /\ prod_image_url p'
            = or_else (pu_image_url product) (prod_image_url p))
    /\ ((forall q, In q (products (db w)) -> prod_id q <> pid) ->
        update_product pid product current_user w = (inl not_found, w)).
Proof.
  intros pid product current_user w. split.
  - intros p Hfind.
    destruct (find_split _ _ _ Hfind) as [before [after [Hsplit [Hb Hp]]]].
    exists before, after, (set_fields product p).
    assert (Hbefore : forall q, In q before -> prod_id q <> pid).
    { intros q Hq. rewrite existsb_false_iff in Hb.
      apply String.eqb_neq. exact (Hb q Hq). }
    unfold update_product. run. rewrite Hfind.
    destruct (no_fields product) eqn:Hnone.
    + exists w. rewrite Hfind, (set_fields_none _ _ Hnone).
      repeat split; try assumption.
      all: destruct product as [a b c d e f];
        destruct a, b, c, d, e, f; try discriminate; reflexivity.
    + eexists. cbn [db apply_write with_products products users sales].
      rewrite Hsplit, (update_first_at _ _ _ _ _ Hb Hp).
      rewrite find_app_first.
      assert (Hnone' : find (has_id pid) before = None).
      { apply find_none_iff. apply existsb_false_iff. exact Hb. }
      rewrite Hnone'. cbn [find]. rewrite has_id_set_fields, Hp.
      repeat split; try assumption; reflexivity.
  - intros Habsent. unfold update_product. run.
    assert (E : find (has_id pid) (products (db w)) = None).
    { apply find_none_iff. intros q Hq. apply String.eqb_neq.
      exact (Habsent q Hq). }
    rewrite E. reflexivity.
Qed.
End HandlerProperties.

(** ** Dictionaries keyed by a list of distinct keys *)

Lemma dict_get_set {V} (d : list (string * V)) (k k' : string) (v : V) :
  dict_get (dict_set d k v) k'
    = if String.eqb k k' then Some v else dict_get d k'.
Proof.
  induction d as [| [k0 v0] d IH]; cbn.
  - destruct (String.eqb k k'); reflexivity.
  - destruct (String.eqb k0 k) eqn:E0; cbn.
    + apply String.eqb_eq in E0. subst k0.
      destruct (String.eqb k k'); reflexivity.
    + destruct (String.eqb k0 k') eqn:E1; [| exact IH].
      apply String.eqb_eq in E1. subst k0. rewrite String.eqb_sym, E0.
      reflexivity.
Qed.

Lemma dict_get_keyed_in {V} (f : string -> V) (keys : list string)
    (k : string) :
  In k keys -> dict_get (map (fun k' => (k', f k')) keys) k = Some (f k).
Proof.
  induction keys as [| k0 keys IH]; cbn; [intros [] |].
  intros H. destruct (String.eqb k0 k) eqn:E.
  - apply String.eqb_eq in E. subst k0. reflexivity.
  - destruct H as [-> | H]; [rewrite String.eqb_refl in E; discriminate |].
    exact (IH H).
Qed.

Lemma dict_get_keyed_new {V} (f : string -> V) (keys : list string)
    (k : string) :
  ~ In k keys -> dict_get (map (fun k' => (k', f k')) keys) k = None.
Proof.
  induction keys as [| k0 keys IH]; cbn; [reflexivity |].
  intros H. destruct (String.eqb k0 k) eqn:E.
  - apply String.eqb_eq in E. subst k0. exfalso. apply H. left. reflexivity.
  - apply IH. intros Hin. apply H. right. exact Hin.
Qed.

Lemma dict_set_keyed_in {V} (f : string -> V) (keys : list string)
    (k : string) (v : V) :
  NoDup keys -> In k keys ->
  dict_set (map (fun k' => (k', f k')) keys) k v
    = map (fun k' => (k', if String.eqb k' k then v else f k')) keys.
Proof.
  induction keys as [| k0 keys IH]; cbn; [intros _ [] |].
  intros Hnd H. inversion Hnd as [| ? ? Hnotin Hnd']; subst.
  destruct (String.eqb k0 k) eqn:E.
  - apply String.eqb_eq in E. subst k0. f_equal.
    apply map_ext_in. intros k' Hk'.
    destruct (String.eqb k' k) eqn:E'; [| reflexivity].
    apply String.eqb_eq in E'. subst k'. contradiction.
  - destruct H as [-> | H]; [rewrite String.eqb_refl in E; discriminate |].
    f_equal. exact (IH Hnd' H).
Qed.

Lemma dict_set_keyed_new {V} (f : string -> V) (keys : list string)
    (k : string) (v : V) :
  ~ In k keys ->
  dict_set (map (fun k' => (k', f k')) keys) k v
    = map (fun k' => (k', f k')) keys ++ [(k, v)].
Proof.
  induction keys as [| k0 keys IH]; cbn; [reflexivity |].
  intros H. destruct (String.eqb k0 k) eqn:E.
  - apply String.eqb_eq in E. subst k0. exfalso. apply H. left. reflexivity.
  - f_equal. apply IH. intros Hin. apply H. right. exact Hin.
Qed.

(** ** First-seen order *)

Lemma first_occurrences_In (keys : list string) (k : string) :
  In k (first_occurrences keys) <-> In k keys.
Proof.
  induction keys as [| k0 keys IH]; cbn; [reflexivity |].
  rewrite filter_In, IH. split.
  - intros [H | [H _]]; [left | right]; exact H.
  - intros [H | H]; [left; exact H |].
    destruct (String.eqb k k0) eqn:E.
    + left. apply String.eqb_eq in E. symmetry. exact E.
    + right. split; [exact H | reflexivity].
Qed.

Lemma first_occurrences_NoDup (keys : list string) :
  NoDup (first_occurrences keys).
Proof.
  induction keys as [| k0 keys IH]; cbn; constructor.
  - rewrite filter_In. intros [_ H]. rewrite String.eqb_refl in H.
    discriminate.
  - apply NoDup_filter. exact IH.
Qed.

Lemma first_occurrences_snoc (keys : list string) (k : string) :
  first_occurrences (keys ++ [k])
    = if in_dec string_dec k keys then first_occurrences keys
      else first_occurrences keys ++ [k].
Proof.
  induction keys as [| k0 keys IH]; cbn [app first_occurrences].
  - destruct (in_dec string_dec k []) as [[] | _]. reflexivity.
  - rewrite IH.
    destruct (in_dec string_dec k keys) as [Hin | Hout];
      destruct (in_dec string_dec k (k0 :: keys)) as [Hin' | Hout'].
    + reflexivity.
    + exfalso. apply Hout'. right. exact Hin.
    + destruct Hin' as [-> | Hin']; [| contradiction].
      rewrite filter_app. cbn. rewrite String.eqb_refl. cbn.
      rewrite app_nil_r. reflexivity.
    + rewrite filter_app. cbn.
      destruct (String.eqb k k0) eqn:E.
      * apply String.eqb_eq in E. subst k0. exfalso. apply Hout'. left.
        reflexivity.
      * reflexivity.
Qed.

Lemma first_occurrences_filter (q : string -> bool) (keys : list string) :
  first_occurrences (filter q keys) = filter q (first_occurrences keys).
Proof.
  assert (Hcomm : forall (p1 p2 : string -> bool) (l : list string),
            filter p1 (filter p2 l) = filter p2 (filter p1 l)).
  { intros p1 p2 l. induction l as [| x l IHl]; cbn; [reflexivity |].
    destruct (p1 x) eqn:E1, (p2 x) eqn:E2; cbn; rewrite ?E1, ?E2, IHl;
      reflexivity. }
  induction keys as [| k keys IH]; cbn; [reflexivity |].
  destruct (q k) eqn:Hq; cbn.
  - rewrite IH, Hcomm. reflexivity.
  - rewrite IH. clear IH.
    induction (first_occurrences keys) as [| x l IHl]; cbn; [reflexivity |].
    destruct (String.eqb x k) eqn:E; cbn.
    + apply String.eqb_eq in E. subst x. rewrite Hq. exact IHl.
    + destruct (q x); rewrite IHl; reflexivity.
Qed.

(** ** The reporting engine *)

Section ReportProperties.
Context {num : Type} {number : Number num}.

Lemma units_sold_snoc (items : list (SaleProduct num))
    (item : SaleProduct num) (pid : string) :
  units_sold (items ++ [item]) pid
    = units_sold items pid
      + (if names pid item then quantity item else 0).
Proof.
  unfold names. induction items as [| x items IH]; cbn; [lia |].
  rewrite IH. lia.
Qed.

Lemma not_named (items : list (SaleProduct num)) (pid : string) :
  ~ In pid (map (@product_id num) items) ->
  find (names pid) items = None
  /\ units_sold items pid = 0
  /\ filter (names pid) items = [].
Proof.
  unfold names. induction items as [| x items IH]; cbn;
    [intros _; repeat split |].
  intros H. destruct (String.eqb (product_id x) pid) eqn:E.
  - apply String.eqb_eq in E. exfalso. apply H. left. exact E.
  - destruct IH as [H1 [H2 H3]];
      [intros Hin; apply H; right; exact Hin |].
    rewrite H1, H2, H3. repeat split.
Qed.

Lemma named (items : list (SaleProduct num)) (pid : string) :
  In pid (map (@product_id num) items) ->
  exists item, find (names pid) items = Some item.
Proof.
  unfold names. induction items as [| x items IH]; cbn; [intros [] |].
  intros H. destruct (String.eqb (product_id x) pid) eqn:E.
  - exists x. reflexivity.
  - destruct H as [H | H]; [| exact (IH H)].
    apply String.eqb_neq in E. contradiction.
Qed.

(** One more line item, seen from the aggregate of a product. *)
Lemma aggregate_snoc (items : list (SaleProduct num))
    (item : SaleProduct num) (pid : string) :
  aggregate (items ++ [item]) pid
    = if names pid item
      then {| ps_product_id := pid;
              ps_product_name :=
                match find (names pid) items with
                | Some first => product_name first
                | None => product_name item
                end;
              ps_quantity := units_sold items pid + quantity item;
              ps_revenue :=
                add (ps_revenue (aggregate items pid)) (subtotal item) |}
      else aggregate items pid.
Proof.
  unfold aggregate. rewrite units_sold_snoc, find_app_first, filter_app.
  cbn [find filter ps_revenue].
  destruct (names pid item) eqn:E.
  - rewrite map_app, fold_left_app. cbn.
    destruct (find (names pid) items); reflexivity.
  - rewrite app_nil_r, Z.add_0_r.
    destruct (find (names pid) items); reflexivity.
Qed.

(** [product_sales] after the loops: one entry per product id, in the
    order in which the ids are first seen, holding the aggregate of the
    product. *)
Lemma product_sales_spec (items : list (SaleProduct num)) :
  fold_left add_item items []
    = map (fun pid => (pid, aggregate items pid))
        (first_occurrences (map (@product_id num) items)).
Proof.
  induction items as [| item items IH] using rev_ind; [reflexivity |].
  rewrite fold_left_app. cbn [fold_left]. rewrite IH. clear IH.
  rewrite map_app. cbn [map]. rewrite first_occurrences_snoc.
  unfold add_item.
  set (pid := product_id item).
  set (keys := first_occurrences (map (@product_id num) items)).
  destruct (in_dec string_dec pid (map (@product_id num) items))
    as [Hin | Hout].
  - assert (Hkey : In pid keys) by (apply first_occurrences_In; exact Hin).
    rewrite (dict_get_keyed_in (aggregate items) keys pid Hkey).
    rewrite (dict_set_keyed_in (aggregate items) keys pid _
               (first_occurrences_NoDup _) Hkey).
    apply map_ext. intros k. f_equal.
    rewrite aggregate_snoc. unfold names. fold pid.
    rewrite (String.eqb_sym k pid).
    destruct (String.eqb pid k) eqn:E; [| reflexivity].
    apply String.eqb_eq in E. subst k.
    destruct (named items pid Hin) as [first Hfirst].
    unfold aggregate at 1 2. cbn [ps_product_id ps_product_name
                                   ps_quantity].
    unfold names in Hfirst |- *. rewrite Hfirst. reflexivity.
  - assert (Hkey : ~ In pid keys).
    { intros H. apply Hout. apply first_occurrences_In. exact H. }
    rewrite (dict_get_keyed_new (aggregate items) keys pid Hkey).
    rewrite (dict_set_keyed_new (aggregate items) keys pid _ Hkey).
    rewrite map_app. cbn [map]. f_equal.
    + apply map_ext_in. intros k Hk. f_equal.
      rewrite aggregate_snoc. unfold names. fold pid.
      destruct (String.eqb pid k) eqn:E; [| reflexivity].
      apply String.eqb_eq in E. subst k. contradiction.
    + f_equal. f_equal. rewrite aggregate_snoc. unfold names. fold pid.
      rewrite String.eqb_refl.
      destruct (not_named items pid Hout) as [H1 [H2 H3]].
      unfold aggregate. unfold names in H1, H3 |- *.
      rewrite H1, H2, H3. reflexivity.
Qed.

Lemma add_sale_split (l : list (Sale num))
    (product_sales : list (string * ProductSales num))
    (daily_totals : list (string * num)) :
  fold_left add_sale l (product_sales, daily_totals)
    = (fold_left add_item (line_items l) product_sales,
       fold_left add_day l daily_totals).
Proof.
  revert product_sales daily_totals.
  induction l as [| s l IH]; intros ps dt; [reflexivity |].
  cbn [fold_left line_items flat_map]. unfold add_sale at 2.
  rewrite IH. unfold line_items. rewrite fold_left_app. reflexivity.
Qed.

(** The category loop reads the catalog and writes nothing. *)
Lemma category_loop_run (items : list (string * ProductSales num))
    (category_sales : list (string * num)) (w : World num) :
  category_loop items category_sales w
    = (inr (fold_left
              (fun cs kv =>
                 add_category cs
                   (find (has_id (fst kv)) (products (db w))) (snd kv))
              items category_sales),
       w).
Proof.
  revert category_sales.
  induction items as [| [pid data] items IH]; intros cs; [reflexivity |].
  cbn [category_loop fold_left fst snd]. run. rewrite IH. reflexivity.
Qed.

(** The report as a value: the handler never fails and writes nothing. *)
Lemma report_run (clock : Clock) (period : string)
    (start_date end_date : option string) (current_user : UserDoc)
    (w : World num) :
  let l := report_sales
             (report_query clock period start_date end_date) w in
  get_report_summary clock period start_date end_date current_user w
    = (inr {| total_sales :=
                fold_left (fun acc s => add acc (sale_total s)) l zero;
              total_transactions := Z.of_nat (List.length l);
              top_products :=
                firstn 10 (sort_by more_sold (per_product (line_items l)));
              sales_by_category :=
                fold_left
                  (fun cs a =>
                     add_category cs
                       (find (has_id (ps_product_id a)) (products (db w)))
                       a)
                  (per_product (line_items l)) [];
              daily_sales :=
                map (fun kv => {| ds_date := fst kv; ds_total := snd kv |})
                    (sort_by earlier_day (fold_left add_day l [])) |},
       w).
Proof.
  intros l. unfold get_report_summary. unfold bind at 1. unfold read at 1.
  fold (report_sales (report_query clock period start_date end_date) w).
  fold l. rewrite add_sale_split. unfold bind.
  rewrite category_loop_run. unfold ret.
  rewrite product_sales_spec. unfold per_product.
  rewrite !map_map. cbn [snd fst].
  set (keys := first_occurrences _).
  assert (Hcat : forall cs : list (string * num),
            fold_left
              (fun cs kv =>
                 add_category cs
                   (find (has_id (fst kv)) (products (db w))) (snd kv))
              (map (fun pid => (pid, aggregate (line_items l) pid)) keys)
              cs
            = fold_left
                (fun cs a =>
                   add_category cs
                     (find (has_id (ps_product_id a)) (products (db w)))
                     a)
                (map (aggregate (line_items l)) keys) cs).
  { induction keys as [| k keys IH]; intros cs; [reflexivity |].
    cbn [map fold_left fst snd aggregate ps_product_id]. apply IH. }
  rewrite Hcat. reflexivity.
Qed.

(** *** The sales that are read *)

Lemma leb_empty (s : string) : String.leb "" s = true.
Proof. destruct s; reflexivity. Qed.

(** The query built by the handler selects the requested range. *)
Lemma in_range_requested (clock : Clock) (period : string)
    (start_date end_date : option string) (s : Sale num) :
  in_range (report_query clock period start_date end_date) s
    = in_requested_range clock period start_date end_date s.
Proof.
  assert (Hlow : forall o : option string,
            match (if truthy o then o else None) with
            | Some lo => String.leb lo (sale_date s)
            | None => true
            end
            = match o with
              | Some lo => String.leb lo (sale_date s)
              | None => true
              end).
  { intros [lo |]; cbn [truthy]; [| reflexivity].
    destruct (String.eqb lo "") eqn:E; cbn [negb]; [| reflexivity].
    apply String.eqb_eq in E. subst lo. symmetry. apply leb_empty. }
  assert (Hup : match (if truthy end_date then end_date else None) with
                | Some hi => String.leb (sale_date s) hi
                | None => true
                end
                = match given end_date with
                  | Some hi => String.leb (sale_date s) hi
                  | None => true
                  end).
  { unfold given. destruct end_date as [hi |]; cbn [truthy];
      [| reflexivity].
    destruct (String.eqb hi ""); reflexivity. }
  unfold in_range, report_query, date_query, in_requested_range.
  cbn [q_gte q_lte]. rewrite Hup, Hlow. f_equal.
  assert (Hdefault : forall o : option string,
            truthy o = false ->
            match default_start clock period o with
            | Some lo => String.leb lo (sale_date s)
            | None => true
            end
            = match period_start clock period with
              | Some lo => String.leb lo (sale_date s)
              | None => true
              end).
  { intros o Ho. unfold default_start, period_start.
    destruct (String.eqb period "daily"); [reflexivity |].
    destruct (String.eqb period "weekly"); [reflexivity |].
    destruct (String.eqb period "monthly"); [reflexivity |].
    destruct (String.eqb period "yearly"); [reflexivity |].
    destruct o as [lo |]; [| reflexivity].
    cbn [truthy] in Ho. apply negb_false_iff in Ho.
    apply String.eqb_eq in Ho. subst lo. apply leb_empty. }
  unfold given. destruct start_date as [lo |].
  - cbn [truthy]. destruct (String.eqb lo "") eqn:E; cbn [negb].
    + apply Hdefault. cbn [truthy]. rewrite E. reflexivity.
    + reflexivity.
  - cbn [truthy negb]. apply Hdefault. reflexivity.
Qed.

(** Up to ten thousand sales in the requested range are all read, in
    store order. *)
Lemma report_sales_all (clock : Clock) (period : string)
    (start_date end_date : option string) (w : World num) :
  Z.of_nat
    (List.length (requested_sales clock period start_date end_date w))
  <= 10000 ->
  report_sales (report_query clock period start_date end_date) w
    = requested_sales clock period start_date end_date w.
Proof.
  intros Hfew. unfold report_sales, requested_sales in *.
  rewrite (filter_ext _ _ (in_range_requested clock period start_date
                             end_date)).
  unfold to_list. apply firstn_all2. lia.
Qed.

(** *** The ranking *)

Lemma insert_by_perm {A} (before : A -> A -> bool) (x : A) (l : list A) :
  Permutation (x :: l) (insert_by before x l).
Proof.
  induction l as [| y l IH]; cbn; [apply Permutation_refl |].
  destruct (before y x); [| apply Permutation_refl].
  apply perm_trans with (y :: x :: l); [apply perm_swap |].
  apply perm_skip. exact IH.
Qed.

Lemma sort_by_perm {A} (before : A -> A -> bool) (l : list A) :
  Permutation l (sort_by before l).
Proof.
  induction l as [| x l IH]; cbn; [apply Permutation_refl |].
  apply perm_trans with (x :: sort_by before l).
  - apply perm_skip. exact IH.
  - apply insert_by_perm.
Qed.

Lemma insert_more_sold_sorted (x : ProductSales num)
    (l : list (ProductSales num)) :
  StronglySorted at_least l ->
  StronglySorted at_least (insert_by more_sold x l).
Proof.
  induction 1 as [| y l Hsorted IH Hall]; cbn.
  - constructor; constructor.
  - unfold more_sold at 1.
    destruct (Z.gtb_spec (ps_quantity y) (ps_quantity x)) as [Hgt | Hle].
    + constructor; [exact IH |].
      apply (Permutation_Forall (insert_by_perm more_sold x l)).
      constructor; [unfold at_least; lia | exact Hall].
    + constructor; [constructor; assumption |].
      constructor; [unfold at_least; lia |].
      apply (Forall_impl _ (P := at_least y)); [| exact Hall].
      unfold at_least. intros z Hz. lia.
Qed.

Lemma sort_more_sold_sorted (l : list (ProductSales num)) :
  StronglySorted at_least (sort_by more_sold l).
Proof.
  induction l as [| x l IH]; cbn; [constructor |].
  apply insert_more_sold_sorted. exact IH.
Qed.

Lemma insert_more_sold_stable (n : Z) (x : ProductSales num)
    (l : list (ProductSales num)) :
  filter (sold_exactly n) (insert_by more_sold x l)
    = filter (sold_exactly n) (x :: l).
Proof.
  induction l as [| y l IH]; [reflexivity |].
  cbn [insert_by]. unfold more_sold at 1.
  destruct (Z.gtb_spec (ps_quantity y) (ps_quantity x)) as [Hgt | Hle];
    [| reflexivity].
  cbn [filter] in *. rewrite IH. unfold sold_exactly.
  destruct (Z.eqb_spec (ps_quantity x) n) as [Hx | Hx];
    destruct (Z.eqb_spec (ps_quantity y) n) as [Hy | Hy];
    try reflexivity.
  lia.
Qed.

Lemma sort_more_sold_stable (n : Z) (l : list (ProductSales num)) :
  filter (sold_exactly n) (sort_by more_sold l)
    = filter (sold_exactly n) l.
Proof.
  induction l as [| x l IH]; [reflexivity |].
  cbn [sort_by fold_right]. fold (sort_by more_sold l).
  rewrite insert_more_sold_stable. cbn [filter]. rewrite IH.
  reflexivity.
Qed.

Lemma per_product_ids (items : list (SaleProduct num)) :
  map (@ps_product_id num) (per_product items)
    = first_occurrences (map (@product_id num) items).
Proof.
  unfold per_product. rewrite map_map. cbn. apply map_id.
Qed.

(** C2, as amended.  When at most ten thousand sales lie in the requested
    range, [top_products] is the first ten of a ranking of the per-product
    aggregates of all those sales.  The ranking holds exactly the
    aggregates, one per product id, each with the units summed over all
    line items that name the id; it is in descending order of quantity;
    and aggregates with the same quantity stand in it in the order in
    which their ids are first seen.  So the list has ten entries when more
    than ten products were sold, and all of them otherwise. *)
Theorem top_products_ranked :
  forall (clock : Clock) (period : string)
         (start_date end_date : option string) (current_user : UserDoc)
         (w : World num),
    Z.of_nat
      (List.length (requested_sales clock period start_date end_date w))
    <= 10000 ->
    exists (r : ReportSummary num) (ranked : list (ProductSales num)),
      get_report_summary clock period start_date end_date current_user w
        = (inr r, w)
      /\ top_products r = firstn 10 ranked
      /\ Permutation
           (per_product
              (line_items
                 (requested_sales clock period start_date end_date w)))
           ranked
      /\ NoDup
           (map (@ps_product_id num)
              (per_product
                 (line_items
                    (requested_sales clock period start_date end_date w))))
      /\ (forall a,
            In a ranked ->
            ps_quantity a
            = units_sold
                (line_items
                   (requested_sales clock period start_date end_date w))
                (ps_product_id a))
      /\ StronglySorted
           (fun a b => ps_quantity a >= ps_quantity b) ranked
      /\ (forall n : Z,
            filter (fun a => ps_quantity a =? n) ranked
            = filter (fun a => ps_quantity a =? n)
                (per_product
                   (line_items
                      (requested_sales clock period start_date end_date
                         w))))
      /\ List.length (top_products r)
         = Nat.min 10
             (List.length
                (per_product
                   (line_items
                      (requested_sales clock period start_date end_date
                         w)))).
Proof.
  intros clock period start_date end_date current_user w Hfew.
  set (items := line_items
                  (requested_sales clock period start_date end_date w)).
  eexists. exists (sort_by more_sold (per_product items)).
  split; [apply report_run |]. cbn [top_products].
  rewrite (report_sales_all clock period start_date end_date w Hfew).
  fold items.
  split; [reflexivity |].
  split; [apply sort_by_perm |].
  split; [rewrite per_product_ids; apply first_occurrences_NoDup |].
  split.
  { intros a Ha.
    apply (Permutation_in _ (Permutation_sym (sort_by_perm _ _))) in Ha.
    unfold per_product in Ha. apply in_map_iff in Ha.
    destruct Ha as [k [<- _]]. reflexivity. }
  split; [apply sort_more_sold_sorted |].
  split; [intros n; apply (sort_more_sold_stable n) |].
  rewrite length_firstn.
  rewrite <- (Permutation_length (sort_by_perm more_sold _)).
  reflexivity.
Qed.

(** *** Revenue by category *)

Lemma category_lookup (catalog : list (Product num))
    (aggs : list (ProductSales num)) :
  forall (cs : list (string * num)) (c : string),
    dict_get
      (fold_left
         (fun cs a =>
            add_category cs (find (has_id (ps_product_id a)) catalog) a)
         aggs cs) c
      = match dict_get cs c with
        | Some v =>
            Some (fold_left add
                    (map (@ps_revenue num)
                       (filter (in_category catalog c) aggs)) v)
        | None =>
            if existsb (in_category catalog c) aggs
            then Some (fold_left add
                         (map (@ps_revenue num)
                            (filter (in_category catalog c) aggs)) zero)
            else None
        end.
Proof.
  induction aggs as [| a aggs IH]; intros cs c.
  - cbn. destruct (dict_get cs c); reflexivity.
  - cbn [fold_left filter existsb]. rewrite IH. clear IH.
    assert (Hin : in_category catalog c a
                  = match find (has_id (ps_product_id a)) catalog with
                    | Some p => String.eqb (prod_category p) c
                    | None => false
                    end).
    { unfold in_category, live_category.
      destruct (find (has_id (ps_product_id a)) catalog); reflexivity. }
    rewrite Hin. clear Hin.
    destruct (find (has_id (ps_product_id a)) catalog) as [p |];
      cbn [add_category]; [| reflexivity].
    rewrite dict_get_set. unfold dict_get_default.
    destruct (String.eqb (prod_category p) c) eqn:E; [| reflexivity].
    apply String.eqb_eq in E. rewrite E. cbn [orb map fold_left].
    destruct (dict_get cs c); reflexivity.
Qed.

Lemma category_skip (catalog : list (Product num)) (pid : string)
    (f : string -> ProductSales num) :
  (forall k, ps_product_id (f k) = k) ->
  find (has_id pid) catalog = None ->
  forall (keys : list string) (cs : list (string * num)),
    fold_left
      (fun cs a =>
         add_category cs (find (has_id (ps_product_id a)) catalog) a)
      (map f (filter (fun k => negb (String.eqb k pid)) keys)) cs
    = fold_left
        (fun cs a =>
           add_category cs (find (has_id (ps_product_id a)) catalog) a)
        (map f keys) cs.
Proof.
  intros Hid Hgone. induction keys as [| k keys IH]; intros cs;
    [reflexivity |].
  cbn [filter map fold_left].
  destruct (String.eqb k pid) eqn:E; cbn [negb map fold_left].
  - apply String.eqb_eq in E. subst k. rewrite Hid, Hgone.
    cbn [add_category]. apply IH.
  - apply IH.
Qed.

Lemma aggregate_without (items : list (SaleProduct num))
    (pid k : string) :
  k <> pid ->
  aggregate (filter (fun item => negb (names pid item)) items) k
    = aggregate items k.
Proof.
  intros Hk.
  assert (H : find (names k)
                (filter (fun item => negb (names pid item)) items)
              = find (names k) items
              /\ units_sold
                   (filter (fun item => negb (names pid item)) items) k
                 = units_sold items k
              /\ filter (names k)
                   (filter (fun item => negb (names pid item)) items)
                 = filter (names k) items).
  { induction items as [| x items [IH1 [IH2 IH3]]];
      [repeat split |].
    cbn [filter find units_sold].
    destruct (names pid x) eqn:Ex; cbn [negb].
    - assert (Ek : names k x = false).
      { unfold names in *. apply String.eqb_eq in Ex.
        apply String.eqb_neq. rewrite Ex. intros E. apply Hk.
        symmetry. exact E. }
      rewrite Ek. unfold names in Ek. rewrite Ek.
      repeat split; [exact IH1 | rewrite IH2; lia | exact IH3].
    - cbn [filter find units_sold]. rewrite IH1, IH2, IH3.
      repeat split. }
  destruct H as [H1 [H2 H3]]. unfold aggregate.
  rewrite H1, H2, H3. reflexivity.
Qed.

Lemma line_items_without (pid : string) (l : list (Sale num)) :
  line_items (map (without_product pid) l)
    = filter (fun item => negb (names pid item)) (line_items l).
Proof.
  unfold line_items. induction l as [| s l IH]; [reflexivity |].
  cbn [map flat_map]. rewrite filter_app, IH. reflexivity.
Qed.

Lemma report_sales_without (q : DateQuery) (pid : string)
    (w : World num) :
  report_sales q (forget_product pid w)
    = map (without_product pid) (report_sales q w).
Proof.
  unfold report_sales, forget_product, to_list. cbn [db sales with_sales].
  rewrite <- firstn_map. f_equal.
  induction (sales (db w)) as [| s l IH]; [reflexivity |].
  cbn [map filter].
  change (in_range q (without_product pid s)) with (in_range q s).
  destruct (in_range q s); cbn [map]; rewrite IH; reflexivity.
Qed.

Lemma per_product_without (pid : string) (items : list (SaleProduct num)) :
  per_product (filter (fun item => negb (names pid item)) items)
    = map (aggregate items)
        (filter (fun k => negb (String.eqb k pid))
           (first_occurrences (map (@product_id num) items))).
Proof.
  unfold per_product.
  assert (Hids : map (@product_id num)
                   (filter (fun item => negb (names pid item)) items)
                 = filter (fun k => negb (String.eqb k pid))
                     (map (@product_id num) items)).
  { induction items as [| x items IH]; [reflexivity |].
    cbn [filter map]. unfold names at 1.
    destruct (String.eqb (product_id x) pid); cbn [negb map];
      rewrite IH; reflexivity. }
  rewrite Hids, first_occurrences_filter.
  apply map_ext_in. intros k Hk. apply filter_In in Hk.
  destruct Hk as [_ Hk]. apply aggregate_without.
  intros ->. rewrite String.eqb_refl in Hk. discriminate.
Qed.

(** C3, as amended.  When at most ten thousand sales lie in the requested
    range, [sales_by_category] has one key per category that some product
    sold in the range has in the catalog now, and its value is the sum,
    from [zero] and in first-seen order, of the revenue aggregates of the
    products that have that category now.  A product id without a catalog
    record is in no category: the category totals are those of the ledger
    with its line items left out.  [top_products] does not look at the
    catalog: the aggregate of such a product, with its name snapshot and
    its units, is among the ranked aggregates, and in [top_products]
    itself when no more than ten products were sold. *)
Theorem sales_by_category_live :
  forall (clock : Clock) (period : string)
         (start_date end_date : option string) (current_user : UserDoc)
         (w : World num),
    Z.of_nat
      (List.length (requested_sales clock period start_date end_date w))
    <= 10000 ->
    let items :=
      line_items (requested_sales clock period start_date end_date w) in
    let catalog := products (db w) in
    exists r : ReportSummary num,
      get_report_summary clock period start_date end_date current_user w
        = (inr r, w)
      /\ (forall c : string,
            dict_get (sales_by_category r) c
              = if existsb (in_category catalog c) (per_product items)
                then Some
                       (fold_left add
                          (map (@ps_revenue num)
                             (filter (in_category catalog c)
                                (per_product items)))
                          zero)
                else None)
      /\ (forall pid : string,
            (forall p, In p catalog -> prod_id p <> pid) ->
            (exists r' : ReportSummary num,
               get_report_summary clock period start_date end_date
                 current_user (forget_product pid w)
                 = (inr r', forget_product pid w)
               /\ sales_by_category r' = sales_by_category r)
            /\ (forall c : string,
                  in_category catalog c (aggregate items pid) = false)
            /\ (In pid (map (@product_id num) items) ->
                In (aggregate items pid) (per_product items)
                /\ ((List.length (per_product items) <= 10)%nat ->
                    In (aggregate items pid) (top_products r))))
      /\ (forall w2 : World num,
            sales (db w2) = sales (db w) ->
            exists r2 : ReportSummary num,
              get_report_summary clock period start_date end_date
                current_user w2 = (inr r2, w2)
              /\ top_products r2 = top_products r).
Proof.
  intros clock period start_date end_date current_user w Hfew items
         catalog.
  pose proof (report_sales_all clock period start_date end_date w Hfew)
    as Hread.
  eexists. split; [apply report_run |].
  cbn [sales_by_category top_products]. rewrite Hread. fold items.
  fold catalog.
  split; [| split].
  - intros c. rewrite category_lookup. reflexivity.
  - intros pid Habsent.
    assert (Hgone : find (has_id pid) catalog = None).
    { apply find_none_iff. intros p Hp. apply String.eqb_neq.
      exact (Habsent p Hp). }
    split; [| split].
    + eexists. split; [apply report_run |]. cbn [sales_by_category].
      rewrite report_sales_without, Hread, line_items_without.
      fold items. rewrite per_product_without.
      change (products (db (forget_product pid w))) with catalog.
      apply (category_skip catalog pid (aggregate items));
        [reflexivity | exact Hgone].
    + intros c. unfold in_category, live_category.
      cbn [aggregate ps_product_id]. rewrite Hgone. reflexivity.
    + intros Hsold.
      assert (Hin : In (aggregate items pid) (per_product items)).
      { unfold per_product. apply in_map. apply first_occurrences_In.
        exact Hsold. }
      split; [exact Hin |]. intros Hfew10.
      rewrite firstn_all2.
      * apply (Permutation_in _ (sort_by_perm more_sold _)). exact Hin.
      * rewrite <- (Permutation_length (sort_by_perm more_sold _)).
        exact Hfew10.
  - intros w2 Hsame. eexists. split; [apply report_run |].
    cbn [top_products].
    assert (Hread2 : report_sales
                       (report_query clock period start_date end_date) w2
                     = report_sales
                         (report_query clock period start_date end_date)
                         w).
    { unfold report_sales. rewrite Hsame. reflexivity. }
    rewrite Hread2, Hread. reflexivity.
Qed.
End ReportProperties.

(** ** The fixed caps of the cursors *)

Section CapProperties.
Context {num : Type} {number : Number num} {platform : Platform}.

Lemma to_list_length {A} (n : Z) (l : list A) :
  0 <= n ->
  Z.of_nat (List.length (to_list n l)) = Z.min n (Z.of_nat (List.length l)).
Proof.
  intros Hn. unfold to_list. rewrite length_firstn. lia.
Qed.

Lemma to_list_full {A} (n : Z) (l extra : list A) :
  n <= Z.of_nat (List.length l) ->
  to_list n (l ++ extra) = to_list n l.
Proof.
  intros Hn. unfold to_list. rewrite firstn_app.
  replace (Z.to_nat n - List.length l)%nat with 0%nat by lia.
  cbn [firstn]. apply app_nil_r.
Qed.

(** C10.  [get_sales] returns the first 1000 of the matching sales,
    newest first, and [get_products] the first 1000 of the matching
    products; [get_report_summary] aggregates the first 10000 matching
    sales only.  All three succeed whatever the number of matches, and
    the answer carries no sign of the cut: once 10000 sales match, any
    further sales leave the report as it is. *)
Theorem cursor_caps :
  forall (current_user : UserDoc) (w : World num),
    (forall start_date end_date : option string,
       let matching :=
         sort_by newer
           (filter (in_range (date_query start_date end_date))
              (sales (db w))) in
       exists l rest,
         get_sales start_date end_date current_user w = (inr l, w)
         /\ matching = l ++ rest
         /\ Z.of_nat (List.length l)
            = Z.min 1000 (Z.of_nat (List.length matching)))
    /\ (forall category search : option string,
          let matching :=
            filter (product_query category search) (products (db w)) in
          exists l rest,
            get_products category search w = (inr l, w)
            /\ matching = l ++ rest
            /\ Z.of_nat (List.length l)
               = Z.min 1000 (Z.of_nat (List.length matching)))
    /\ (forall (clock : Clock) (period : string)
               (start_date end_date : option string),
          let q := report_query clock period start_date end_date in
          let matching := filter (in_range q) (sales (db w)) in
          exists (r : ReportSummary num) (rest : list (Sale num)),
            get_report_summary clock period start_date end_date
              current_user w = (inr r, w)
            /\ matching = report_sales q w ++ rest
            /\ total_transactions r
               = Z.min 10000 (Z.of_nat (List.length matching))
            /\ total_sales r
               = fold_left (fun acc s => add acc (sale_total s))
                   (report_sales q w) zero
            /\ (10000 <= Z.of_nat (List.length matching) ->
                forall extra : list (Sale num),
                  get_report_summary clock period start_date end_date
                    current_user (append_sales extra w)
                    = (inr r, append_sales extra w))).
Proof.
  intros current_user w. split; [| split].
  - intros start_date end_date matching.
    exists (to_list 1000 matching), (skipn (Z.to_nat 1000) matching).
    split; [reflexivity |]. split.
    + unfold to_list. symmetry. apply firstn_skipn.
    + apply to_list_length. lia.
  - intros category search matching.
    exists (to_list 1000 matching), (skipn (Z.to_nat 1000) matching).
    split; [reflexivity |]. split.
    + unfold to_list. symmetry. apply firstn_skipn.
    + apply to_list_length. lia.
  - intros clock period start_date end_date q matching.
    eexists. exists (skipn (Z.to_nat 10000) matching).
    split; [apply report_run |].
    cbn [total_transactions total_sales]. fold q.
    split; [unfold report_sales, to_list; symmetry; apply firstn_skipn |].
    split; [apply to_list_length; lia |].
    split; [reflexivity |].
    intros Hfull extra. rewrite report_run. fold q.
    assert (Hsame : report_sales q (append_sales extra w)
                    = report_sales q w).
    { unfold report_sales, append_sales. cbn [db sales with_sales].
      rewrite filter_app. apply to_list_full. exact Hfull. }
    rewrite Hsame. reflexivity.
Qed.
End CapProperties.

(** ** The worked example of the report, in whole amounts *)

Lemma ltb_apart (d1 d2 : string) :
  String.ltb d1 d2 = true ->
  String.eqb d1 d2 = false
  /\ String.eqb d2 d1 = false
  /\ String.ltb d2 d1 = false.
Proof.
  unfold String.ltb. intros H.
  assert (Hc : String.compare d1 d2 = Lt)
    by (destruct (String.compare d1 d2); [discriminate | reflexivity
                                          | discriminate]).
  assert (Hne : d1 <> d2).
  { intros ->. rewrite String.compare_antisym in Hc.
    destruct (String.compare d2 d2); discriminate. }
  split; [apply String.eqb_neq; exact Hne |].
  split; [apply String.eqb_neq; intros E; apply Hne; symmetry; exact E |].
  rewrite String.compare_antisym, Hc. reflexivity.
Qed.

Lemma dict_set_revenue (d : list (string * ProductSales Z)) (k : string)
    (v : ProductSales Z) :
  revenue_sum (map snd (dict_set d k v))
    = revenue_sum (map snd d)
      - match dict_get d k with
        | Some e => ps_revenue e
        | None => 0
        end
      + ps_revenue v.
Proof.
  unfold revenue_sum. induction d as [| [k0 v0] d IH]; cbn; [lia |].
  destruct (String.eqb k0 k); cbn; [lia |]. rewrite IH. lia.
Qed.

Lemma add_items_revenue (items : list (SaleProduct Z)) :
  forall ps : list (string * ProductSales Z),
    revenue_sum (map snd (fold_left add_item items ps))
      = revenue_sum (map snd ps)
        + fold_right Z.add 0 (map (@subtotal Z) items).
Proof.
  induction items as [| item items IH]; intros ps; cbn [fold_left map
                                                         fold_right];
    [lia |].
  rewrite IH. unfold add_item. rewrite dict_set_revenue.
  cbn [ps_revenue]. destruct (dict_get ps (product_id item)); cbn; lia.
Qed.

Lemma per_product_revenue (items : list (SaleProduct Z)) :
  revenue_sum (per_product items)
    = fold_right Z.add 0 (map (@subtotal Z) items).
Proof.
  rewrite <- (Z.add_0_l (fold_right _ _ _)).
  change 0 with (revenue_sum (map snd (@nil (string * ProductSales Z))))
    at 1.
  rewrite <- add_items_revenue, product_sales_spec, map_map.
  reflexivity.
Qed.

Lemma per_product_named (items : list (SaleProduct Z))
    (a : ProductSales Z) :
  In a (per_product items) ->
  exists item, In item items /\ product_id item = ps_product_id a.
Proof.
  unfold per_product. intros Ha. apply in_map_iff in Ha.
  destruct Ha as [k [<- Hk]].
  apply (proj1 (first_occurrences_In _ _)) in Hk.
  apply in_map_iff in Hk. destruct Hk as [item [Hid Hitem]].
  exists item. split; [exact Hitem | exact Hid].
Qed.

(** *** Exact amounts *)

Lemma sum_without_key (f : string -> Z) (pid : string)
    (keys : list string) :
  NoDup keys ->
  fold_right Z.add 0 (map f keys)
    = (if in_dec string_dec pid keys then f pid else 0)
      + fold_right Z.add 0
          (map f (filter (fun k => negb (String.eqb k pid)) keys)).
Proof.
  induction keys as [| k keys IH]; intros Hnd; [reflexivity |].
  inversion Hnd as [| ? ? Hnotin Hnd']; subst.
  cbn [map fold_right filter]. rewrite (IH Hnd').
  destruct (String.eqb k pid) eqn:E; cbn [negb].
  - apply String.eqb_eq in E. subst k.
    destruct (in_dec string_dec pid (pid :: keys)) as [_ | Hout];
      [| exfalso; apply Hout; left; reflexivity].
    destruct (in_dec string_dec pid keys) as [Hin | _];
      [contradiction | lia].
  - apply String.eqb_neq in E. cbn [map fold_right].
    destruct (in_dec string_dec pid (k :: keys)) as [Hin | Hout];
      destruct (in_dec string_dec pid keys) as [Hin' | Hout'].
    + lia.
    + destruct Hin as [Hin | Hin]; [contradiction | contradiction].
    + exfalso. apply Hout. right. exact Hin'.
    + lia.
Qed.

Section ExactReport.
Context {num : Type} {number : Number num} {exact : ExactAmounts num}.

Lemma whole_sum_bounds (p : SaleProduct num -> bool)
    (items : list (SaleProduct num)) :
  all_whole items ->
  0 <= whole_sum (filter p items) <= whole_sum items.
Proof.
  unfold whole_sum. induction items as [| x items IH]; intros Hall;
    cbn [filter map fold_right]; [lia |].
  assert (Hx : 0 <= whole (subtotal x))
    by (apply (Hall x); left; reflexivity).
  assert (Hrest : all_whole items)
    by (intros y Hy; apply Hall; right; exact Hy).
  specialize (IH Hrest).
  destruct (p x); cbn [map fold_right]; lia.
Qed.

Lemma whole_sum_app (l1 l2 : list (SaleProduct num)) :
  whole_sum (l1 ++ l2) = whole_sum l1 + whole_sum l2.
Proof.
  unfold whole_sum. induction l1 as [| x l1 IH]; cbn; [reflexivity |].
  rewrite IH. lia.
Qed.

(** Adding whole amounts one after the other is exact below the bound. *)
Lemma exact_fold (items : list (SaleProduct num)) :
  all_whole items ->
  forall acc : Z,
    0 <= acc -> acc + whole_sum items <= exact_bound ->
    fold_left add (map (@subtotal num) items) (of_whole acc)
      = of_whole (acc + whole_sum items).
Proof.
  unfold whole_sum. induction items as [| x items IH]; intros Hall acc H0 Hb;
    cbn [map fold_left fold_right].
  - rewrite Z.add_0_r. reflexivity.
  - destruct (Hall x (or_introl eq_refl)) as [Hx Hx0].
    assert (Hrest : all_whole items)
      by (intros y Hy; apply Hall; right; exact Hy).
    pose proof (whole_sum_bounds (fun _ => true) items Hrest) as Hsum.
    unfold whole_sum in Hsum. cbn [map fold_right] in Hb.
    rewrite Hx at 1. rewrite add_exact; [| exact H0 | exact Hx0 | lia].
    rewrite (IH Hrest); [f_equal; lia | lia | lia].
Qed.

Lemma filter_all_whole (p : SaleProduct num -> bool)
    (items : list (SaleProduct num)) :
  all_whole items -> all_whole (filter p items).
Proof.
  intros Hall item Hitem. apply filter_In in Hitem. apply Hall.
  exact (proj1 Hitem).
Qed.

(** The revenue of an aggregate is the whole number its line items add up
    to. *)
Lemma aggregate_exact (items : list (SaleProduct num)) (k : string) :
  all_whole items ->
  whole_sum items <= exact_bound ->
  ps_revenue (aggregate items k)
    = of_whole (whole_sum (filter (names k) items)).
Proof.
  intros Hall Hb. unfold aggregate. cbn [ps_revenue].
  pose proof (whole_sum_bounds (names k) items Hall) as Hk.
  rewrite zero_exact.
  rewrite (exact_fold (filter (names k) items)
             (filter_all_whole _ _ Hall) 0); [reflexivity | lia | lia].
Qed.

(** Grouping the line items by product loses nothing. *)
Lemma whole_sum_grouped (items : list (SaleProduct num)) :
  fold_right Z.add 0
    (map (fun k => whole_sum (filter (names k) items))
       (first_occurrences (map (@product_id num) items)))
  = whole_sum items.
Proof.
  induction items as [| x items IH]; [reflexivity |].
  cbn [map first_occurrences fold_right].
  set (pid := product_id x).
  set (keys := first_occurrences (map (@product_id num) items)) in *.
  assert (Hhead : whole_sum (filter (names pid) (x :: items))
                  = whole (subtotal x)
                    + whole_sum (filter (names pid) items)).
  { cbn [filter]. unfold names at 1. fold pid. rewrite String.eqb_refl.
    reflexivity. }
  assert (Hrest : map (fun k => whole_sum (filter (names k) (x :: items)))
                    (filter (fun k => negb (String.eqb k pid)) keys)
                  = map (fun k => whole_sum (filter (names k) items))
                      (filter (fun k => negb (String.eqb k pid)) keys)).
  { apply map_ext_in. intros k Hk. apply filter_In in Hk.
    destruct Hk as [_ Hk]. cbn [filter]. unfold names at 1. fold pid.
    rewrite String.eqb_sym. apply negb_true_iff in Hk. rewrite Hk.
    reflexivity. }
  rewrite Hhead, Hrest.
  rewrite (sum_without_key
             (fun k => whole_sum (filter (names k) items)) pid keys
             (first_occurrences_NoDup _)) in IH.
  assert (Hpid : (if in_dec string_dec pid keys
                  then whole_sum (filter (names pid) items) else 0)
                 = whole_sum (filter (names pid) items)).
  { destruct (in_dec string_dec pid keys) as [_ | Hout]; [reflexivity |].
    assert (Hnot : ~ In pid (map (@product_id num) items)).
    { intros H. apply Hout. apply first_occurrences_In. exact H. }
    destruct (not_named items pid Hnot) as [_ [_ Hnone]].
    rewrite Hnone. reflexivity. }
  rewrite Hpid in IH.
  change (whole_sum (x :: items))
    with (whole (subtotal x) + whole_sum items).
  lia.
Qed.

(** The category loop over products of one category, in exact amounts. *)
Lemma one_category_exact (catalog : list (Product num)) (c : string)
    (items : list (SaleProduct num)) (keys : list string) :
  all_whole items ->
  whole_sum items <= exact_bound ->
  (forall k, In k keys -> live_category catalog k = Some c) ->
  forall v : Z,
    0 <= v ->
    v + fold_right Z.add 0
          (map (fun k => whole_sum (filter (names k) items)) keys)
    <= exact_bound ->
    fold_left
      (fun cs a =>
         add_category cs (find (has_id (ps_product_id a)) catalog) a)
      (map (aggregate items) keys) [(c, of_whole v)]
    = [(c, of_whole
             (v + fold_right Z.add 0
                    (map (fun k => whole_sum (filter (names k) items))
                       keys)))].
Proof.
  intros Hall Hb. induction keys as [| k keys IH]; intros Hcat v H0 Hv;
    cbn [map fold_left fold_right] in *.
  - rewrite Z.add_0_r. reflexivity.
  - pose proof (Hcat k (or_introl eq_refl)) as Hk.
    unfold live_category in Hk.
    change (ps_product_id (aggregate items k)) with k.
    destruct (find (has_id k) catalog) as [p |]; [| discriminate].
    cbn in Hk. inversion Hk as [Hc]. cbn [add_category]. rewrite Hc.
    unfold dict_get_default. cbn [dict_set dict_get].
    rewrite String.eqb_refl. cbn [or_else].
    pose proof (whole_sum_bounds (names k) items Hall) as Hkb.
    assert (Hrest : 0 <= fold_right Z.add 0
                           (map (fun k => whole_sum (filter (names k) items))
                              keys)).
    { clear IH Hcat Hv. induction keys as [| k' keys IHk]; cbn; [lia |].
      pose proof (whole_sum_bounds (names k') items Hall). lia. }
    rewrite (aggregate_exact items k Hall Hb).
    rewrite add_exact; [| exact H0 | lia | lia].
    rewrite IH; [f_equal; f_equal; f_equal; lia | | lia | lia].
    intros k' Hk'. apply Hcat. right. exact Hk'.
Qed.

Lemma drinks_only_exact (catalog : list (Product num))
    (items : list (SaleProduct num)) (total : Z) :
  all_whole items ->
  whole_sum items = total ->
  0 < total <= exact_bound ->
  (forall item, In item items ->
                live_category catalog (product_id item) = Some "drinks") ->
  fold_left
    (fun cs a =>
       add_category cs (find (has_id (ps_product_id a)) catalog) a)
    (per_product items) []
  = [("drinks", of_whole total)].
Proof.
  intros Hall Hsum Htotal Hdrinks.
  pose proof (whole_sum_grouped items) as Hgroup.
  unfold per_product.
  assert (Hcat : forall k,
            In k (first_occurrences (map (@product_id num) items)) ->
            live_category catalog k = Some "drinks").
  { intros k Hk. apply (proj1 (first_occurrences_In _ _)) in Hk.
    apply in_map_iff in Hk. destruct Hk as [item [<- Hitem]].
    apply Hdrinks. exact Hitem. }
  destruct (first_occurrences (map (@product_id num) items))
    as [| k keys].
  - cbn in Hgroup. lia.
  - (* the first step from the empty dict is the step from a zero entry *)
    assert (Hfirst :
              add_category [] (find (has_id (ps_product_id
                                               (aggregate items k)))
                                 catalog) (aggregate items k)
              = add_category [("drinks", of_whole 0)]
                  (find (has_id (ps_product_id (aggregate items k)))
                     catalog) (aggregate items k)).
    { pose proof (Hcat k (or_introl eq_refl)) as Hk.
      unfold live_category in Hk.
      change (ps_product_id (aggregate items k)) with k.
      destruct (find (has_id k) catalog) as [p |]; [| discriminate].
      cbn in Hk. inversion Hk as [Hc]. cbn [add_category]. rewrite Hc.
      unfold dict_get_default. cbn [dict_set dict_get].
      rewrite String.eqb_refl. cbn [or_else]. rewrite zero_exact.
      reflexivity. }
    cbn [map fold_left]. rewrite Hfirst.
    change (fold_left
              (fun cs a =>
                 add_category cs (find (has_id (ps_product_id a)) catalog)
                   a)
              (map (aggregate items) keys)
              (add_category [("drinks", of_whole 0)]
                 (find (has_id (ps_product_id (aggregate items k)))
                    catalog) (aggregate items k)))
      with (fold_left
              (fun cs a =>
                 add_category cs (find (has_id (ps_product_id a)) catalog)
                   a)
              (map (aggregate items) (k :: keys))
              [("drinks", of_whole 0)]).
    rewrite (one_category_exact catalog "drinks" items (k :: keys) Hall);
      [| lia | exact Hcat | lia | lia].
    rewrite Hgroup, Hsum. reflexivity.
Qed.

(** C1, as amended.  The sales in the requested range are two, of totals
    10 and 15, on an earlier day D1 and a later day D2; every line item
    names a product that the catalog has under "drinks"; and the line items
    of each sale carry non-negative whole-number subtotals that add up to
    its total.  Then, for amounts that add whole numbers exactly up to 25
    (as binary64 does), the report has [total_sales = 25],
    [total_transactions = 2], [daily_sales = [{D1, 10}; {D2, 15}]] and
    [sales_by_category = {"drinks": 25}]. *)
Theorem two_drink_sales_report :
  forall (clock : Clock) (period : string)
         (start_date end_date : option string) (current_user : UserDoc)
         (w : World num) (s1 s2 : Sale num),
    25 <= exact_bound ->
    two_drink_sales clock period start_date end_date w s1 s2 ->
    whole_subtotals s1 10 ->
    whole_subtotals s2 15 ->
    exists r : ReportSummary num,
      get_report_summary clock period start_date end_date current_user w
        = (inr r, w)
      /\ two_drink_report s1 s2 r.
Proof.
  intros clock period start_date end_date current_user w s1 s2 Hbound
         [Hread [H10 [H15 [Hdays Hdrinks]]]] [Hw1 Hsum1] [Hw2 Hsum2].
  destruct (ltb_apart _ _ Hdays) as [Hne12 [Hne21 Hnlt]].
  assert (Hfew : Z.of_nat
                   (List.length
                      (requested_sales clock period start_date end_date w))
                 <= 10000).
  { destruct Hread as [-> | ->]; cbn; lia. }
  assert (Hall : all_whole (sale_products s1 ++ sale_products s2)).
  { intros item Hitem. apply in_app_or in Hitem.
    destruct Hitem as [H | H]; [exact (Hw1 item H) | exact (Hw2 item H)]. }
  assert (Hall' : all_whole (sale_products s2 ++ sale_products s1)).
  { intros item Hitem. apply Hall. apply in_app_or in Hitem.
    apply in_or_app. destruct Hitem; [right | left]; assumption. }
  assert (E10 : add zero (of_whole 10) = of_whole 10).
  { rewrite zero_exact, add_exact; [reflexivity | lia | lia | lia]. }
  assert (E15 : add zero (of_whole 15) = of_whole 15).
  { rewrite zero_exact, add_exact; [reflexivity | lia | lia | lia]. }
  assert (E25 : add (of_whole 10) (of_whole 15) = of_whole 25).
  { rewrite add_exact; [reflexivity | lia | lia | lia]. }
  assert (E25' : add (of_whole 15) (of_whole 10) = of_whole 25).
  { rewrite add_exact; [reflexivity | lia | lia | lia]. }
  eexists. split; [apply report_run |].
  rewrite (report_sales_all clock period start_date end_date w Hfew).
  unfold two_drink_report.
  cbn [total_sales total_transactions daily_sales sales_by_category].
  destruct Hread as [Hread | Hread]; rewrite Hread;
    cbn [fold_left List.length line_items flat_map];
    rewrite app_nil_r; unfold add_day, dict_get_default;
    cbn [dict_set dict_get or_else]; rewrite ?Hne12, ?Hne21;
    cbn [dict_set dict_get or_else sort_by fold_right insert_by];
    unfold earlier_day; cbn [fst snd]; rewrite ?Hnlt, ?Hdays;
    cbn [map fst snd]; rewrite H10, H15, E10, E15, ?E25, ?E25'.
  - repeat split.
    apply drinks_only_exact; [exact Hall | | lia | exact Hdrinks].
    rewrite whole_sum_app, Hsum1, Hsum2. reflexivity.
  - repeat split.
    apply drinks_only_exact; [exact Hall' | | lia |].
    + rewrite whole_sum_app, Hsum1, Hsum2. reflexivity.
    + intros item Hitem. apply Hdrinks. apply in_app_or in Hitem.
      apply in_or_app. destruct Hitem; [right | left]; assumption.
Qed.
End ExactReport.

(** C1, as stated, fails: with totals 10 and 15 that the line items do
    not add up to (each sale has one cola at 4), the premises of the
    example hold and the report has [total_sales = 25] but
    [sales_by_category = {"drinks": 8}]. *)
Lemma two_drink_sales_off :
  two_drink_sales sample_clock "all" None None
    (shop [monday_off; tuesday_off]) monday_off tuesday_off
  /\ exists r : ReportSummary Z,
       get_report_summary sample_clock "all" None None ana
         (shop [monday_off; tuesday_off])
         = (inr r, shop [monday_off; tuesday_off])
       /\ total_sales r = 25
       /\ sales_by_category r = [("drinks", 8)]
       /\ ~ two_drink_report monday_off tuesday_off r.
Proof.
  split.
  - unfold two_drink_sales. split; [left; vm_compute; reflexivity |].
    split; [reflexivity |]. split; [reflexivity |].
    split; [vm_compute; reflexivity |].
    intros item Hitem. cbn in Hitem.
    destruct Hitem as [<- | [<- | []]]; vm_compute; reflexivity.
  - eexists. split; [vm_compute; reflexivity |].
    split; [reflexivity |]. split; [reflexivity |].
    intros [_ [_ [_ Hcat]]]. discriminate Hcat.
Qed.

Lemma two_drink_sales_report_witness :
  exists r : ReportSummary Z,
    get_report_summary sample_clock "all" None None ana
      (shop [monday; tuesday]) = (inr r, shop [monday; tuesday])
    /\ two_drink_report monday tuesday r.
Proof.
  apply (@two_drink_sales_report Z Number_Z ExactAmounts_Z).
  - vm_compute. discriminate.
  - unfold two_drink_sales. split; [left; vm_compute; reflexivity |].
    split; [reflexivity |]. split; [reflexivity |].
    split; [vm_compute; reflexivity |].
    intros item Hitem. cbn in Hitem.
    destruct Hitem as [<- | [<- | []]]; vm_compute; reflexivity.
  - split; [| reflexivity].
    intros item [<- | []]. split; [reflexivity | vm_compute; discriminate].
  - split; [| reflexivity].
    intros item [<- | []]. split; [reflexivity | vm_compute; discriminate].
Defined.

(** ** Email uniqueness *)

Section EmailProperties.
Context {num : Type} {platform : Platform}.

(** [register] keeps the emails of the stored users distinct. *)
Lemma register_keeps_emails_distinct (fresh_id now_iso salt : string)
    (user_data : UserCreate) (w : World num) :
  NoDup (emails w) ->
  NoDup (emails (snd (@register num platform fresh_id now_iso salt
                        user_data w))).
Proof.
  intros Hnd. unfold register. run.
  destruct (find _ (users (db w))) as [u |] eqn:E; [exact Hnd |].
  cbn [snd db apply_write with_users users]. unfold emails in *.
  unfold with_users. cbn [db users]. rewrite map_app.
  cbn [map doc_user user_email].
  apply NoDup_rev in Hnd. rewrite <- (rev_involutive (_ ++ _)).
  apply NoDup_rev. rewrite rev_app_distr. cbn [rev app].
  constructor; [| exact Hnd].
  rewrite <- in_rev. intros Hin. apply in_map_iff in Hin.
  destruct Hin as [u [Hmail Hu]].
  rewrite find_none_iff in E. specialize (E u Hu). cbn in E.
  rewrite Hmail, String.eqb_refl in E. discriminate.
Qed.

(** [seed_data] on an empty catalog appends its two users whatever the
    users collection holds. *)
Lemma seed_appends_users (products_to_insert : list (Product num))
    (admin_id cashier_id now_iso salt1 salt2 : string) (w : World num) :
  products (db w) = [] ->
  emails (snd (@seed_data num platform products_to_insert admin_id
                 cashier_id now_iso salt1 salt2 w))
    = emails w ++ ["admin@pos.com"; "cashier@pos.com"]%string.
Proof.
  intros Hempty. unfold seed_data. run. rewrite Hempty.
  cbn [List.length Z.of_nat Z.gtb Z.compare].
  unfold emails.
  destruct products_to_insert; cbn; rewrite <- app_assoc, map_app;
    reflexivity.
Qed.
End EmailProperties.

(** C6.  Seeding does not check the users collection: after a registration
    of "admin@pos.com" on an empty shop, [seed_data] succeeds and leaves two
    user documents with that email. *)
Theorem seed_duplicates_registered_email :
  emails early_bird_world = ["admin@pos.com"%string]
  /\ exists (m : Message) (w' : World Z),
       @seed_data Z toy_platform [cola; chips] "u8" "u9"
         "2024-03-02T09:00:00+00:00" "cl" "na" early_bird_world
         = (inr m, w')
       /\ message m = "Database seeded successfully"%string
       /\ emails w'
          = ["admin@pos.com"; "admin@pos.com"; "cashier@pos.com"]%string
       /\ ~ NoDup (emails w').
Proof.
  split; [reflexivity |].
  eexists. eexists. split; [vm_compute; reflexivity |].
  split; [reflexivity |]. split; [reflexivity |].
  cbn. intros Hnd. inversion Hnd as [| ? ? Hnotin _]. apply Hnotin.
  left. reflexivity.
Qed.

(** ** Worked instances *)

(** C5.  The caller can tell the two checks apart when the hasher raises:
    in a shop where Zed's stored password is not a hash, a login with
    Zed's email ends in a server error (500), while the same login with an
    email that nobody has ends in 401 "Incorrect email or password".  The
    500 therefore says that the email exists. *)
Theorem login_tells_raising_hasher_apart :
  @login Z toy_platform 1709300000 zed_login legacy_shop
    = (inl internal_server_error, legacy_shop)
  /\ @login Z toy_platform 1709300000 nobody_login legacy_shop
     = (inl incorrect_email_or_password, legacy_shop)
  /\ internal_server_error <> incorrect_email_or_password.
Proof.
  split; [| split].
  - apply (@login_lets_hasher_raise Z toy_platform 1709300000 zed_login
             legacy_shop zed); reflexivity.
  - apply (@login_rejections_agree Z toy_platform 1709300000 nobody_login
             legacy_shop).
    left. reflexivity.
  - discriminate.
Qed.

Lemma register_conflict_or_created_witness :
  @register Z toy_platform "u2" "2024-03-01T09:00:00+00:00" "na"
    ana_again (shop [])
    = (inl email_already_registered, shop []).
Proof.
  apply (@register_conflict_or_created Z toy_platform "u2"
           "2024-03-01T09:00:00+00:00" "na" ana_again (shop [])).
  exists ana. split; [left; reflexivity | reflexivity].
Defined.

Lemma token_resolves_until_expiry_witness :
  find (by_id "u1") (users (db (shop []))) = Some ana
  /\ @get_current_user Z toy_platform (1709300000 + 604800)
       (@create_access_token toy_platform 1709300000
          {| claim_sub := Some "u1"%string; claim_exp := None |})
       (shop [])
     = (inr ana, shop [])
  /\ @get_current_user Z toy_platform (1709300000 + 604801)
       (@create_access_token toy_platform 1709300000
          {| claim_sub := Some "u1"%string; claim_exp := None |})
       (shop [])
     = (inl credentials_exception, shop []).
Proof.
  split; [reflexivity |].
  destruct (@token_resolves_until_expiry Z toy_platform 1709300000
              (1709300000 + 604800) "u1" ana (shop []) eq_refl)
    as [_ [_ [Hfresh _]]].
  destruct (@token_resolves_until_expiry Z toy_platform 1709300000
              (1709300000 + 604801) "u1" ana (shop []) eq_refl)
    as [_ [_ [_ [Hstale _]]]].
  split; [apply Hfresh; lia | apply Hstale; lia].
Defined.

Lemma update_product_partial_witness :
  exists (p' : Product Z) (w' : World Z),
    update_product "p1" (only_sale_price 999) ana (shop []) = (inr p', w')
    /\ prod_sale_price p' = 999
    /\ prod_name p' = "Cola"%string
    /\ prod_category p' = "drinks"%string
    /\ prod_cost p' = 1
    /\ prod_employee_price p' = 3
    /\ prod_image_url p' = ""%string
    /\ prod_times_sold p' = 7
    /\ products (db w') = [p'; chips].
Proof.
  destruct (proj1 (update_product_partial "p1" (only_sale_price 999) ana
                     (shop [])) cola eq_refl)
    as [before [after [p' [w' [Hsplit [Hbefore [Hrun [Hcat [_ [_ [_
         [Hsold [_ [Hname [Hcategory [Hcost [Hprice [Hemp Himg
         ]]]]]]]]]]]]]]]]]].
  exists p', w'.
  destruct before as [| q before]; cbn in Hsplit.
  - injection Hsplit as Hafter. subst after.
    repeat split; assumption.
  - injection Hsplit as Hq _. exfalso.
    apply (Hbefore q (or_introl eq_refl)). rewrite <- Hq. reflexivity.
Defined.

Lemma create_sale_increments_witness :
  exists (w' : World Z) (before' after' : list (Product Z)),
    snd (create_sale "s9" "2024-03-04T10:00:00+00:00" basket ana (shop []))
      = w'
    /\ products (db w') = before' ++ inc_times_sold 3 chips :: after'
    /\ map (@prod_id Z) before' = ["p1"%string]
    /\ prod_times_sold (inc_times_sold 3 chips)
       = prod_times_sold chips + 3.
Proof.
  destruct (create_sale_increments "s9" "2024-03-04T10:00:00+00:00" basket
              ana (shop []) [cola] [] chips eq_refl)
    as [sale [w' [before' [after' [Hrun [_ [_ [_ [_ [_ [_ [_ [Hprod
         [Hids Hone]]]]]]]]]]]]]].
  - intros q [<- | []]. discriminate.
  - exists w', before', after'. rewrite Hrun.
    split; [reflexivity |]. split; [exact Hprod |].
    split; [exact Hids |].
    apply (Hone [line "p1" "Cola" 2 5] (line "p2" "Chips" 3 2) []);
      [reflexivity | reflexivity |].
    intros other [<- | []]. discriminate.
Defined.

Lemma top_products_ranked_witness :
  exists (r : ReportSummary Z) (ranked : list (ProductSales Z)),
    get_report_summary sample_clock "all" None None ana
      (shop [monday; wednesday]) = (inr r, shop [monday; wednesday])
    /\ top_products r = firstn 10 ranked
    /\ Permutation
         [ {| ps_product_id := "p1"; ps_product_name := "Cola";
              ps_quantity := 3; ps_revenue := 15 |};
           {| ps_product_id := "p9"; ps_product_name := "Lemonade";
              ps_quantity := 4; ps_revenue := 12 |} ]
         ranked
    /\ StronglySorted (fun a b => ps_quantity a >= ps_quantity b) ranked
    /\ List.length (top_products r) = 2%nat.
Proof.
  destruct (top_products_ranked sample_clock "all" None None ana
              (shop [monday; wednesday]))
    as [r [ranked [Hrun [Htop [Hperm [_ [_ [Hsorted [_ Hlen]]]]]]]]].
  - vm_compute. discriminate.
  - exists r, ranked. split; [exact Hrun |]. split; [exact Htop |].
    split; [exact Hperm |]. split; [exact Hsorted |].
    rewrite Hlen. reflexivity.
Defined.

(** C2, as stated, fails: behind the ten thousand sales of cola of the
    busy shop lies one sale of chips; all 10001 sales are in the requested
    range and name two products, yet [top_products] has the one entry of
    cola and no ranking of the aggregates of all in-range sales has it as
    its first ten. *)
Lemma top_products_beyond_cap :
  Z.of_nat
    (List.length (requested_sales sample_clock "all" None None crowded_shop))
  = 10001
  /\ List.length
       (per_product
          (line_items
             (requested_sales sample_clock "all" None None crowded_shop)))
     = 2%nat
  /\ exists r : ReportSummary Z,
       get_report_summary sample_clock "all" None None ana crowded_shop
         = (inr r, crowded_shop)
       /\ List.length (top_products r) = 1%nat
       /\ ~ exists ranked : list (ProductSales Z),
              top_products r = firstn 10 ranked
              /\ Permutation
                   (per_product
                      (line_items
                         (requested_sales sample_clock "all" None None
                            crowded_shop)))
                   ranked.
Proof.
  split; [vm_compute; reflexivity |].
  split; [vm_compute; reflexivity |].
  eexists. split; [vm_compute; reflexivity |].
  split; [reflexivity |].
  intros [ranked [Htop Hperm]].
  apply Permutation_length in Hperm.
  assert (Hlen : List.length
                   (per_product
                      (line_items
                         (requested_sales sample_clock "all" None None
                            crowded_shop))) = 2%nat)
    by (vm_compute; reflexivity).
  rewrite Hlen in Hperm.
  destruct ranked as [| a [| b [| c ranked]]]; try discriminate Hperm.
  discriminate Htop.
Qed.

Lemma sales_by_category_live_witness :
  exists r : ReportSummary Z,
    get_report_summary sample_clock "all" None None ana
      (shop [monday; wednesday]) = (inr r, shop [monday; wednesday])
    /\ dict_get (sales_by_category r) "drinks" = Some 15
    /\ dict_get (sales_by_category r) "snacks" = None
    /\ In {| ps_product_id := "p9"; ps_product_name := "Lemonade";
             ps_quantity := 4; ps_revenue := 12 |} (top_products r).
Proof.
  destruct (sales_by_category_live sample_clock "all" None None ana
              (shop [monday; wednesday]))
    as [r [Hrun [Hcat [Hgone _]]]].
  - vm_compute. discriminate.
  - exists r. split; [exact Hrun |].
    split; [rewrite Hcat; reflexivity |].
    split; [rewrite Hcat; reflexivity |].
    destruct (Hgone "p9"%string) as [_ [_ Htop]].
    + intros p [<- | [<- | []]]; discriminate.
    + destruct Htop as [_ Htop].
      * right. left. reflexivity.
      * apply Htop. vm_compute. lia.
Defined.

(** C3, as stated, fails: in the same shop the sale of chips is in the
    requested range and chips are "snacks" in the catalog, with a subtotal
    of 6, but [sales_by_category] has no key "snacks". *)
Lemma sales_by_category_beyond_cap :
  In chips_sale (requested_sales sample_clock "all" None None crowded_shop)
  /\ existsb (in_category (products (db crowded_shop)) "snacks")
       (per_product
          (line_items
             (requested_sales sample_clock "all" None None crowded_shop)))
     = true
  /\ exists r : ReportSummary Z,
       get_report_summary sample_clock "all" None None ana crowded_shop
         = (inr r, crowded_shop)
       /\ sales_by_category r = [("drinks", 100000)]
       /\ dict_get (sales_by_category r) "snacks" = None.
Proof.
  split.
  - unfold requested_sales. apply filter_In. split; [| reflexivity].
    unfold crowded_shop, append_sales. cbn [db sales with_sales].
    apply in_or_app. right. left. reflexivity.
  - split; [vm_compute; reflexivity |].
    eexists. split; [vm_compute; reflexivity |].
    split; reflexivity.
Qed.

Lemma cursor_caps_witness :
  exists r : ReportSummary Z,
    @get_report_summary Z Number_Z sample_clock "all" None None ana
      busy_shop = (inr r, busy_shop)
    /\ total_transactions r = 10000
    /\ @get_report_summary Z Number_Z sample_clock "all" None None ana
         (append_sales [tuesday] busy_shop)
       = (inr r, append_sales [tuesday] busy_shop).
Proof.
  destruct (proj2 (proj2 (@cursor_caps Z Number_Z toy_platform ana
                            busy_shop))
              sample_clock "all"%string None None)
    as [r [rest [Hrun [_ [Hcount [_ Hextra]]]]]].
  exists r. split; [exact Hrun |].
  split; [rewrite Hcount; vm_compute; reflexivity |].
  apply Hextra. vm_compute. discriminate.
Defined.

(** * Further properties *)

(** ** Accounts, tokens and the admin gate *)

Section AccountProperties.
Context {num : Type} {platform : Platform}.

Lemma login_accepts (now : Z) (credentials : UserLogin) (w : World num)
    (u : UserDoc) :
  find (by_email (ul_email credentials)) (users (db w)) = Some u ->
  verify_password (ul_password credentials) (doc_password u)
  = Some true ->
  @login num platform now credentials w
    = (inr {| access_token :=
                create_access_token now
                  {| claim_sub := Some (user_id (doc_user u));
                     claim_exp := None |};
              token_type := "bearer";
              token_user := doc_user u |}, w).
Proof.
  intros Hfind Hverify. unfold login. run.
  fold (by_email (ul_email credentials)). rewrite Hfind, Hverify.
  reflexivity.
Qed.

Lemma issued_token_resolves (issued now : Z) (w : World num) (u : UserDoc) :
  find (by_id (user_id (doc_user u))) (users (db w)) = Some u ->
  now <= issued + 604800 ->
  @get_current_user num platform now
    (create_access_token issued
       {| claim_sub := Some (user_id (doc_user u)); claim_exp := None |}) w
    = (inr u, w).
Proof.
  intros Hfind Hnow.
  unfold get_current_user, create_access_token, jwt_encode, jwt_decode.
  unfold ALGORITHM, ACCESS_TOKEN_EXPIRE_MINUTES. cbn [existsb claim_sub].
  rewrite !String.eqb_refl. cbn [orb andb claim_exp claim_sub].
  destruct (Z.ltb_spec (issued + 60 * 24 * 7 * 60) now) as [Hlt | _];
    [lia |].
  run. cbn [claim_sub]. fold (by_id (user_id (doc_user u))).
  rewrite Hfind. reflexivity.
Qed.

Lemma find_last {A} (p : A -> bool) (l : list A) (x : A) (rest : list A) :
  (forall y, In y l -> p y = false) -> p x = true ->
  find p (l ++ x :: rest) = Some x.
Proof.
  intros Hl Hx. rewrite find_app_first.
  rewrite (proj2 (find_none_iff p l) Hl). cbn. rewrite Hx. reflexivity.
Qed.

(** The admin gate in front of an endpoint: when the token resolves to a
    user, the endpoint runs, on that user, exactly when the user's role is
    the string "admin"; for any other role the request ends in 403 "Admin
    access required" and the endpoint does not run. *)
Theorem admin_gate_guards :
  forall (A : Type) (now : Z) (token : bearer) (w : World num)
         (u : UserDoc) (endpoint : UserDoc -> Handler num A),
    @get_current_user num platform now token w = (inr u, w) ->
    (user_role (doc_user u) = "admin"%string ->
     Depends (@admin_dependency num platform now token) endpoint w
       = endpoint u w)
    /\ (user_role (doc_user u) <> "admin"%string ->
        Depends (@admin_dependency num platform now token) endpoint w
          = (inl forbidden, w)).
Proof.
  intros A now token w u endpoint Hresolve.
  unfold Depends, admin_dependency, Depends. unfold bind.
  rewrite Hresolve. unfold get_admin_user. split.
  - intros Hrole. rewrite Hrole. reflexivity.
  - intros Hrole. apply String.eqb_neq in Hrole. rewrite Hrole.
    reflexivity.
Qed.

(** A login with the stored user's password succeeds without touching
    the store; the bearer token it returns, presented within seven days,
    resolves through [get_current_user] to that user, so [get_me] answers
    with the same public view that the login returned.  The user must be
    the first one stored under its id. *)
Theorem login_then_whoami :
  forall (now now' : Z) (credentials : UserLogin) (w : World num)
         (u : UserDoc),
    find (by_email (ul_email credentials)) (users (db w)) = Some u ->
    find (by_id (user_id (doc_user u))) (users (db w)) = Some u ->
    verify_password (ul_password credentials) (doc_password u)
    = Some true ->
    now' <= now + 604800 ->
    exists tok : Token,
      @login num platform now credentials w = (inr tok, w)
      /\ token_type tok = "bearer"%string
      /\ token_user tok = doc_user u
      /\ Depends (@get_current_user num platform now' (access_token tok))
           get_me w
         = (inr (token_user tok), w).
Proof.
  intros now now' credentials w u Hmail Hid Hverify Hnow.
  eexists. split; [apply (login_accepts now credentials w u Hmail Hverify) |].
  cbn [token_type token_user access_token].
  split; [reflexivity |]. split; [reflexivity |].
  unfold Depends, bind.
  rewrite (issued_token_resolves now now' w u Hid Hnow). reflexivity.
Qed.

(** Register, log in, ask who I am: for a request whose email and fresh
    id no stored user has, the registration succeeds, a login with the
    same email and password then succeeds (the hasher verifying what it
    hashed), and [get_me] with the token returns the registered user. *)
Theorem register_then_login :
  forall (fresh_id now_iso salt : string) (user_data : UserCreate)
         (w : World num) (now now' : Z),
    (forall u, In u (users (db w)) ->
               user_email (doc_user u) <> uc_email user_data) ->
    (forall u, In u (users (db w)) -> user_id (doc_user u) <> fresh_id) ->
    verify_password (uc_password user_data)
      (get_password_hash salt (uc_password user_data)) = Some true ->
    now' <= now + 604800 ->
    exists (user : User) (w1 : World num) (tok : Token),
      @register num platform fresh_id now_iso salt user_data w
        = (inr user, w1)
      /\ user_id user = fresh_id
      /\ user_email user = uc_email user_data
      /\ @login num platform now
           {| ul_email := uc_email user_data;
              ul_password := uc_password user_data |} w1
         = (inr tok, w1)
      /\ token_user tok = user
      /\ Depends (@get_current_user num platform now' (access_token tok))
           get_me w1
         = (inr user, w1).
Proof.
  intros fresh_id now_iso salt user_data w now now' Hmail Hid Hverify Hnow.
  set (user := {| user_id := fresh_id;
                  user_email := uc_email user_data;
                  user_name := uc_name user_data;
                  user_role := uc_role user_data;
                  user_created_at := now_iso |}).
  set (doc := {| doc_user := user;
                 doc_password :=
                   get_password_hash salt (uc_password user_data) |}).
  set (w1 := {| db := with_users (db w) (users (db w) ++ [doc]);
                journal := journal w ++ [InsertUser doc] |}).
  assert (Hreg : @register num platform fresh_id now_iso salt user_data w
                 = (inr user, w1)).
  { unfold register. run. fold (by_email (uc_email user_data)).
    rewrite (proj2 (find_none_iff _ _)); [reflexivity |].
    intros u Hu. apply String.eqb_neq. exact (Hmail u Hu). }
  assert (Hfind_mail :
            find (by_email (uc_email user_data)) (users (db w1)) = Some doc).
  { subst w1. cbn [db users with_users]. apply find_last.
    - intros u Hu. apply String.eqb_neq. exact (Hmail u Hu).
    - apply String.eqb_refl. }
  assert (Hfind_id :
            find (by_id (user_id (doc_user doc))) (users (db w1))
            = Some doc).
  { subst w1. cbn [db users with_users]. apply find_last.
    - intros u Hu. apply String.eqb_neq. exact (Hid u Hu).
    - apply String.eqb_refl. }
  exists user, w1.
  eexists. split; [exact Hreg |].
  split; [reflexivity |]. split; [reflexivity |].
  split.
  { apply (login_accepts now
             {| ul_email := uc_email user_data;
                ul_password := uc_password user_data |} w1 doc
             Hfind_mail Hverify). }
  cbn [token_user access_token]. split; [reflexivity |].
  unfold Depends, bind.
  rewrite (issued_token_resolves now now' w1 doc Hfind_id Hnow).
  reflexivity.
Qed.
End AccountProperties.

Lemma firstn_subset {A} (n : nat) (l : list A) (x : A) :
  In x (firstn n l) -> In x l.
Proof.
  intros H. rewrite <- (firstn_skipn n l). apply in_or_app. left. exact H.
Qed.

Section SeedProperties.
Context {num : Type} {platform : Platform}.

Lemma seed_on_stocked (products_to_insert : list (Product num))
    (admin_id cashier_id now_iso salt1 salt2 : string) (w : World num) :
  products (db w) <> [] ->
  @seed_data num platform products_to_insert admin_id cashier_id now_iso
    salt1 salt2 w = (inr already_seeded, w).
Proof.
  intros Hstocked. unfold seed_data. run.
  destruct (products (db w)) as [| p ps]; [contradiction |].
  cbn [List.length]. rewrite Nat2Z.inj_succ.
  destruct (Z.gtb_spec (Z.succ (Z.of_nat (List.length ps))) 0) as [_ | H];
    [reflexivity | lia].
Qed.

Lemma seed_on_empty (products_to_insert : list (Product num))
    (admin_id cashier_id now_iso salt1 salt2 : string) (w : World num) :
  products (db w) = [] ->
  let admin := seed_user admin_id "admin@pos.com" "Admin User" "admin"
                 now_iso salt1 "admin123" in
  let cashier := seed_user cashier_id "cashier@pos.com" "Cashier User"
                   "cashier" now_iso salt2 "cashier123" in
  db (snd (@seed_data num platform products_to_insert admin_id cashier_id
             now_iso salt1 salt2 w))
    = {| users := users (db w) ++ [admin; cashier];
         products := products_to_insert;
         sales := sales (db w) |}.
Proof.
  intros Hempty admin cashier. unfold seed_data. run. rewrite Hempty.
  cbn [List.length Z.of_nat Z.gtb Z.compare].
  destruct products_to_insert as [| p ps];
    cbn [bind ret write snd db apply_write];
    unfold with_users, with_products; cbn [users products sales];
    rewrite ?Hempty, <- app_assoc; reflexivity.
Qed.

(** Seeding is idempotent: whenever the catalog is not empty the handler
    answers "Database already seeded" and changes nothing, and after any
    call that had a non-empty product table to insert, every further call
    is such a no-op. *)
Theorem seed_twice_is_noop :
  forall (table table' : list (Product num))
         (admin_id cashier_id now_iso salt1 salt2 : string)
         (admin_id' cashier_id' now_iso' salt1' salt2' : string)
         (w : World num),
    table <> [] \/ products (db w) <> [] ->
    let w1 := snd (@seed_data num platform table admin_id cashier_id
                     now_iso salt1 salt2 w) in
    @seed_data num platform table' admin_id' cashier_id' now_iso' salt1'
      salt2' w1 = (inr already_seeded, w1)
    /\ (products (db w) <> [] -> w1 = w).
Proof.
  intros table table' admin_id cashier_id now_iso salt1 salt2
         admin_id' cashier_id' now_iso' salt1' salt2' w Hsome w1.
  destruct (products (db w)) as [| p ps] eqn:Hcat.
  - split; [| intros H; contradiction].
    apply seed_on_stocked. subst w1.
    rewrite (seed_on_empty table admin_id cashier_id now_iso salt1 salt2
               w Hcat).
    cbn [products]. destruct Hsome as [H | H]; [exact H | contradiction].
  - assert (Hstocked : products (db w) <> []) by (rewrite Hcat; discriminate).
    assert (Hw1 : w1 = w).
    { subst w1. rewrite seed_on_stocked; [reflexivity | exact Hstocked]. }
    split; [| intros _; exact Hw1].
    rewrite Hw1. apply seed_on_stocked. exact Hstocked.
Qed.

(** After seeding a store whose users have neither the demo admin's email
    nor its id, the demo admin can log in with "admin123", gets the role
    "admin", and the token passes the admin gate: any endpoint behind the
    gate runs on the admin document. *)
Theorem seeded_admin_passes_gate :
  forall (table : list (Product num))
         (admin_id cashier_id now_iso salt1 salt2 : string)
         (w : World num) (now now' : Z),
    products (db w) = [] ->
    (forall u, In u (users (db w)) ->
               user_email (doc_user u) <> "admin@pos.com"%string) ->
    (forall u, In u (users (db w)) -> user_id (doc_user u) <> admin_id) ->
    verify_password "admin123" (get_password_hash salt1 "admin123")
    = Some true ->
    now' <= now + 604800 ->
    let w1 := snd (@seed_data num platform table admin_id cashier_id
                     now_iso salt1 salt2 w) in
    let admin := seed_user admin_id "admin@pos.com" "Admin User" "admin"
                   now_iso salt1 "admin123" in
    exists tok : Token,
      @login num platform now admin_login w1 = (inr tok, w1)
      /\ token_user tok = doc_user admin
      /\ user_role (token_user tok) = "admin"%string
      /\ forall (A : Type) (endpoint : UserDoc -> Handler num A),
           Depends
             (@admin_dependency num platform now' (access_token tok))
             endpoint w1
           = endpoint admin w1.
Proof.
  intros table admin_id cashier_id now_iso salt1 salt2 w now now'
         Hempty Hmail Hid Hverify Hnow w1 admin.
  assert (Husers : users (db w1)
                   = users (db w)
                     ++ admin
                        :: [seed_user cashier_id "cashier@pos.com"
                              "Cashier User" "cashier" now_iso salt2
                              "cashier123"]).
  { subst w1. rewrite seed_on_empty; [reflexivity | exact Hempty]. }
  assert (Hfind_mail :
            find (by_email (ul_email admin_login)) (users (db w1))
            = Some admin).
  { rewrite Husers. apply find_last.
    - intros u Hu. apply String.eqb_neq. exact (Hmail u Hu).
    - reflexivity. }
  assert (Hfind_id :
            find (by_id (user_id (doc_user admin))) (users (db w1))
            = Some admin).
  { rewrite Husers. apply find_last.
    - intros u Hu. apply String.eqb_neq. exact (Hid u Hu).
    - apply String.eqb_refl. }
  eexists. split.
  { apply (login_accepts now admin_login w1 admin Hfind_mail Hverify). }
  cbn [token_user access_token].
  split; [reflexivity |]. split; [reflexivity |].
  intros A endpoint. unfold Depends, admin_dependency, Depends, bind.
  rewrite (issued_token_resolves now now' w1 admin Hfind_id Hnow).
  reflexivity.
Qed.

(** [get_users] after a registration: with fewer than 1000 users stored
    the list ends with the new user; from 1000 stored users on, the new
    user is registered but not listed.  No password is part of the
    answer. *)
Theorem registered_user_is_listed :
  forall (fresh_id now_iso salt : string) (user_data : UserCreate)
         (current_user : UserDoc) (w : World num),
    (forall u, In u (users (db w)) ->
               user_email (doc_user u) <> uc_email user_data) ->
    exists (user : User) (w1 : World num),
      @register num platform fresh_id now_iso salt user_data w
        = (inr user, w1)
      /\ (Z.of_nat (List.length (users (db w))) < 1000 ->
          get_users current_user w1
            = (inr (map doc_user (users (db w)) ++ [user]), w1))
      /\ (1000 <= Z.of_nat (List.length (users (db w))) ->
          get_users current_user w1
            = (inr (map doc_user (to_list 1000 (users (db w)))), w1)
          /\ ~ In user (map doc_user (to_list 1000 (users (db w))))).
Proof.
  intros fresh_id now_iso salt user_data current_user w Hmail.
  eexists. eexists. split.
  { unfold register. run. fold (by_email (uc_email user_data)).
    rewrite (proj2 (find_none_iff _ _)); [reflexivity |].
    intros u Hu. apply String.eqb_neq. exact (Hmail u Hu). }
  unfold get_users, read, to_list. cbn [db apply_write].
  unfold with_users. cbn [users]. split.
  - intros Hfew. rewrite firstn_all2.
    + rewrite map_app. reflexivity.
    + rewrite length_app. cbn [List.length]. lia.
  - intros Hmany. split.
    + rewrite firstn_app.
      replace (Z.to_nat 1000 - List.length (users (db w)))%nat with 0%nat
        by lia.
      cbn [firstn]. rewrite app_nil_r. reflexivity.
    + intros Hin. apply in_map_iff in Hin. destruct Hin as [u [Hu Hin]].
      unfold to_list in Hin. apply firstn_subset in Hin. apply (Hmail u Hin). rewrite Hu.
      reflexivity.
Qed.
End SeedProperties.

(** ** The catalog *)

Lemma remove_first_at {A} (p : A -> bool) (before after : list A) (x : A) :
  existsb p before = false -> p x = true ->
  remove_first p (before ++ x :: after) = before ++ after.
Proof.
  intros Hb Hx. induction before as [| y before IH]; cbn in *.
  - rewrite Hx. reflexivity.
  - apply orb_false_iff in Hb. destruct Hb as [Hy Hb]. rewrite Hy.
    rewrite (IH Hb). reflexivity.
Qed.

Lemma update_first_none {A} (p : A -> bool) (f : A -> A) (l : list A) :
  existsb p l = false -> update_first p f l = l.
Proof.
  induction l as [| x l IH]; cbn; [reflexivity |].
  intros H. apply orb_false_iff in H. destruct H as [Hx Hl].
  rewrite Hx, (IH Hl). reflexivity.
Qed.

Section CatalogProperties.
Context {num : Type} {platform : Platform}.

Lemma absent_id (pid : string) (l : list (Product num)) :
  (forall q, In q l -> prod_id q <> pid) <-> existsb (has_id pid) l = false.
Proof.
  rewrite existsb_false_iff. unfold has_id. split.
  - intros H q Hq. apply String.eqb_neq. exact (H q Hq).
  - intros H q Hq. apply String.eqb_neq. exact (H q Hq).
Qed.

Lemma remove_first_none {A} (p : A -> bool) (l : list A) :
  existsb p l = false -> remove_first p l = l.
Proof.
  induction l as [| x l IH]; cbn; [reflexivity |].
  intros H. apply orb_false_iff in H. destruct H as [Hx Hl].
  rewrite Hx, (IH Hl). reflexivity.
Qed.

(** Deleting a product: the delete is sent in every case.  For an id that
    no document has it removes nothing, and the handler answers 404
    "Product not found", the collections being as before; otherwise exactly
    the first document with the id is removed, everything else staying in
    place, and when no later document shares the id, the id is gone: a
    lookup finds nothing and a second delete gives 404. *)
Theorem delete_product_removes_first :
  forall (pid : string) (current_user : UserDoc) (w : World num),
    ((forall q, In q (products (db w)) -> prod_id q <> pid) ->
     delete_product pid current_user w
       = (inl not_found,
          {| db := db w; journal := journal w ++ [DeleteProduct pid] |}))
    /\ (forall (before after : list (Product num)) (p : Product num),
          products (db w) = before ++ p :: after ->
          prod_id p = pid ->
          (forall q, In q before -> prod_id q <> pid) ->
          let w1 :=
            {| db := with_products (db w) (before ++ after);
               journal := journal w ++ [DeleteProduct pid] |} in
          exists m : Message,
            delete_product pid current_user w = (inr m, w1)
            /\ message m = "Product deleted"%string
            /\ ((forall q, In q after -> prod_id q <> pid) ->
                products_find_one pid w1 = (inr None, w1)
                /\ delete_product pid current_user w1
                   = (inl not_found,
                      {| db := db w1;
                         journal := journal w1 ++ [DeleteProduct pid] |}))).
Proof.
  intros pid current_user w.
  assert (Habsent : forall w0 : World num,
            (forall q, In q (products (db w0)) -> prod_id q <> pid) ->
            products_find_one pid w0 = (inr None, w0)
            /\ delete_product pid current_user w0
               = (inl not_found,
                  {| db := db w0;
                     journal := journal w0 ++ [DeleteProduct pid] |})).
  { intros w0 H. apply (proj1 (absent_id _ _)) in H.
    assert (E : find (has_id pid) (products (db w0)) = None).
    { apply find_none_iff. apply existsb_false_iff. exact H. }
    split; [run; rewrite E; reflexivity |].
    unfold delete_product. run. rewrite H. cbn [Z.eqb].
    cbn [apply_write]. rewrite (remove_first_none _ _ H).
    destruct w0 as [[us ps ss] j]. reflexivity. }
  split; [intros H; apply (Habsent w H) |].
  intros before after p Hsplit Hp Hbefore w1.
  apply (proj1 (absent_id _ _)) in Hbefore.
  assert (Hmatch : has_id pid p = true).
  { unfold has_id. rewrite Hp. apply String.eqb_refl. }
  eexists. split.
  - unfold delete_product. run. rewrite Hsplit.
    rewrite existsb_app. cbn [existsb]. rewrite Hmatch, orb_true_r.
    cbn [orb Z.eqb]. cbn [apply_write]. rewrite Hsplit.
    rewrite (remove_first_at _ _ _ _ Hbefore Hmatch). reflexivity.
  - split; [reflexivity |]. intros Hafter. apply Habsent.
    subst w1. cbn [db products with_products]. intros q Hq.
    apply in_app_or in Hq. destruct Hq as [Hq | Hq].
    + exact (proj2 (absent_id pid before) Hbefore q Hq).
    + exact (Hafter q Hq).
Qed.

(** Creating a product appends one document with the six fields of the
    request, the fresh id, the creation time and [times_sold = 0].  If no document had the id, a lookup by
    the id finds the new product and distinct ids stay distinct; if some
    document already had it, a lookup keeps finding that older one. *)
Theorem create_product_then_find :
  forall (fresh_id now_iso : string) (product : ProductCreate num)
         (current_user : UserDoc) (w : World num),
    exists (p : Product num) (w1 : World num),
      create_product fresh_id now_iso product current_user w = (inr p, w1)
      /\ products (db w1) = products (db w) ++ [p]
      /\ users (db w1) = users (db w)
      /\ sales (db w1) = sales (db w)
      /\ prod_id p = fresh_id
      /\ prod_times_sold p = 0
      /\ prod_name p = pc_name product
      /\ prod_category p = pc_category product
      /\ prod_cost p = pc_cost product
      /\ prod_sale_price p = pc_sale_price product
      /\ prod_employee_price p = pc_employee_price product
      /\ prod_image_url p = pc_image_url product
      /\ prod_created_at p = now_iso
      /\ ((forall q, In q (products (db w)) -> prod_id q <> fresh_id) ->
          products_find_one fresh_id w1 = (inr (Some p), w1)
          /\ (NoDup (map (@prod_id num) (products (db w))) ->
              NoDup (map (@prod_id num) (products (db w1)))))
      /\ (forall q, find (has_id fresh_id) (products (db w)) = Some q ->
                    products_find_one fresh_id w1 = (inr (Some q), w1)).
Proof.
  intros fresh_id now_iso product current_user w.
  eexists. eexists. split; [unfold create_product; run; reflexivity |].
  cbn [db apply_write]. unfold with_products.
  cbn [products users sales prod_id prod_times_sold prod_name
       prod_category prod_cost prod_sale_price prod_employee_price
       prod_image_url prod_created_at].
  do 12 (split; [reflexivity |]). split.
  - intros Hfresh. split.
    + run. cbn [db products]. rewrite find_last;
        [reflexivity | | apply String.eqb_refl].
      apply existsb_false_iff. apply (proj1 (absent_id _ _)).
      exact Hfresh.
    + intros Hnd. rewrite map_app. cbn [map prod_id].
      apply NoDup_rev in Hnd. rewrite <- (rev_involutive (_ ++ _)).
      apply NoDup_rev. rewrite rev_app_distr. cbn [rev app].
      constructor; [| exact Hnd].
      rewrite <- in_rev. intros Hin. apply in_map_iff in Hin.
      destruct Hin as [q [Hq Hin]]. exact (Hfresh q Hin Hq).
  - intros q Hq. run. cbn [db products]. rewrite find_app_first, Hq.
    reflexivity.
Qed.

Lemma set_fields_twice (u : ProductUpdate num) (p : Product num) :
  set_fields u (set_fields u p) = set_fields u p.
Proof.
  unfold set_fields. cbn.
  destruct (pu_name u), (pu_category u), (pu_cost u), (pu_sale_price u),
    (pu_employee_price u), (pu_image_url u); reflexivity.
Qed.

Lemma update_product_run (pid : string) (product : ProductUpdate num)
    (current_user : UserDoc) (w : World num)
    (before after : list (Product num)) (p : Product num) :
  products (db w) = before ++ p :: after ->
  existsb (has_id pid) before = false ->
  has_id pid p = true ->
  update_product pid product current_user w
    = (inr (set_fields product p),
       if no_fields product then w
       else {| db := with_products (db w)
                       (before ++ set_fields product p :: after);
               journal := journal w ++ [SetProduct pid product] |}).
Proof.
  intros Hsplit Hb Hp.
  assert (Hfind : forall q, has_id pid q = true ->
                            find (has_id pid) (before ++ q :: after)
                            = Some q).
  { intros q Hq. apply find_last; [| exact Hq].
    apply existsb_false_iff. exact Hb. }
  unfold update_product. run. rewrite Hsplit, (Hfind p Hp).
  destruct (no_fields product) eqn:Hnone.
  - rewrite Hsplit, (Hfind p Hp), (set_fields_none _ _ Hnone).
    reflexivity.
  - cbn [db apply_write]. rewrite Hsplit.
    rewrite (update_first_at _ _ _ _ _ Hb Hp).
    unfold with_products at 1. cbn [products].
    rewrite (Hfind (set_fields product p) Hp). reflexivity.
Qed.

(** Updating is idempotent, and an empty update is free: sending the same
    update again returns the same product and leaves the collections as
    the first update left them; an update whose fields are all [None]
    returns the product as stored and sends no write at all. *)
Theorem update_product_idempotent :
  forall (pid : string) (product : ProductUpdate num)
         (current_user : UserDoc) (w : World num) (p : Product num),
    find (has_id pid) (products (db w)) = Some p ->
    exists (p' : Product num) (w1 w2 : World num),
      update_product pid product current_user w = (inr p', w1)
      /\ update_product pid product current_user w1 = (inr p', w2)
      /\ db w2 = db w1
      /\ (no_fields product = true -> p' = p /\ w1 = w).
Proof.
  intros pid product current_user w p Hfind.
  destruct (find_split _ _ _ Hfind) as [before [after [Hsplit [Hb Hp]]]].
  pose proof (update_product_run pid product current_user w before after
                p Hsplit Hb Hp) as Hrun.
  destruct (no_fields product) eqn:Hnone.
  - exists (set_fields product p), w, w.
    split; [exact Hrun |]. split; [exact Hrun |].
    split; [reflexivity |]. intros _.
    split; [apply set_fields_none; exact Hnone | reflexivity].
  - set (w1 := {| db := with_products (db w)
                          (before ++ set_fields product p :: after);
                  journal := journal w ++ [SetProduct pid product] |})
      in Hrun.
    exists (set_fields product p), w1.
    eexists. split; [exact Hrun |].
    split; [| split; [| discriminate]].
    + rewrite (update_product_run pid product current_user w1 before
                 after (set_fields product p) eq_refl Hb Hp).
      rewrite Hnone, set_fields_twice. reflexivity.
    + cbn [db]. unfold with_products. cbn [users products sales db w1].
      reflexivity.
Qed.
End CatalogProperties.

(** ** Sales and the popularity counters *)

Section SaleProperties.
Context {num : Type} {platform : Platform}.

Lemma create_sale_run (fresh_id now_iso : string)
    (sale_data : SaleCreate num) (current_user : UserDoc) (w : World num) :
  exists sale : Sale num,
    sale_products sale = sc_products sale_data
    /\ create_sale fresh_id now_iso sale_data current_user w
       = (inr sale,
          {| db :=
               fold_left
                 (fun d item =>
                    apply_write
                      (IncTimesSold (product_id item) (quantity item)) d)
                 (sc_products sale_data)
                 (with_sales (db w) (sales (db w) ++ [sale]));
             journal :=
               (journal w ++ [InsertSale sale])
               ++ map (fun item =>
                         IncTimesSold (product_id item) (quantity item))
                    (sc_products sale_data) |}).
Proof.
  unfold create_sale. eexists. split; [| unfold bind at 1; unfold write at 1;
    unfold bind at 1; rewrite for_each_write; reflexivity].
  reflexivity.
Qed.

Lemma increments_keep_rest (items : list (SaleProduct num)) :
  forall d : Database num,
    let d' :=
      fold_left
        (fun d item =>
           apply_write (IncTimesSold (product_id item) (quantity item)) d)
        items d in
    users d' = users d
    /\ sales d' = sales d
    /\ map (@prod_id num) (products d') = map (@prod_id num) (products d).
Proof.
  induction items as [| item items IH]; intros d; [repeat split |].
  cbn [fold_left].
  destruct (IH (apply_write
                  (IncTimesSold (product_id item) (quantity item)) d))
    as [Hu [Hs Hp]].
  cbn zeta. rewrite Hu, Hs, Hp. cbn [apply_write].
  unfold with_products. cbn [users sales products].
  rewrite update_first_inc_ids. repeat split.
Qed.

Lemma update_first_inc_sum (pid : string) (n : Z) (l : list (Product num)) :
  times_sold_sum (update_first (has_id pid) (inc_times_sold n) l)
    = times_sold_sum l + (if existsb (has_id pid) l then n else 0).
Proof.
  unfold times_sold_sum. induction l as [| x l IH]; cbn; [reflexivity |].
  destruct (has_id pid x); cbn; [lia |]. rewrite IH. lia.
Qed.

Lemma catalogued_units_ids (l1 l2 : list (Product num))
    (items : list (SaleProduct num)) :
  map (@prod_id num) l1 = map (@prod_id num) l2 ->
  catalogued_units l1 items = catalogued_units l2 items.
Proof.
  intros Hids. induction items as [| item items IH]; [reflexivity |].
  cbn. rewrite IH, (existsb_has_id_ids _ l1 l2 Hids). reflexivity.
Qed.

Lemma increments_sum (items : list (SaleProduct num)) :
  forall d : Database num,
    times_sold_sum
      (products
         (fold_left
            (fun d item =>
               apply_write
                 (IncTimesSold (product_id item) (quantity item)) d)
            items d))
    = times_sold_sum (products d) + catalogued_units (products d) items.
Proof.
  induction items as [| item items IH]; intros d; cbn [fold_left
                                                       catalogued_units];
    [lia |].
  rewrite IH. cbn [apply_write]. unfold with_products. cbn [products].
  rewrite update_first_inc_sum.
  rewrite (catalogued_units_ids _ (products d));
    [lia | apply update_first_inc_ids].
Qed.

Lemma increments_skip_unknown (items : list (SaleProduct num)) :
  forall d : Database num,
    (forall item q, In item items -> In q (products d) ->
                    prod_id q <> product_id item) ->
    products
      (fold_left
         (fun d item =>
            apply_write (IncTimesSold (product_id item) (quantity item)) d)
         items d) = products d.
Proof.
  induction items as [| item items IH]; intros d H; [reflexivity |].
  cbn [fold_left].
  assert (Hsame : apply_write
                    (IncTimesSold (product_id item) (quantity item)) d
                  = d).
  { cbn [apply_write]. rewrite update_first_none.
    - destruct d. reflexivity.
    - apply (proj1 (absent_id _ _)). intros q Hq.
      exact (H item q (or_introl eq_refl) Hq). }
  rewrite Hsame. apply IH. intros i q Hi Hq.
  apply (H i q); [right; exact Hi | exact Hq].
Qed.

(** A sale raises the counters by the units of the line items whose
    product id the catalog has, and by nothing else: the sum of all
    [times_sold] grows by exactly those units, no document changes its id,
    and a sale whose line items name no catalog product is recorded all
    the same while the catalog stays as it is (product ids are not
    validated). *)
Theorem create_sale_counts_catalogued_units :
  forall (fresh_id now_iso : string) (sale_data : SaleCreate num)
         (current_user : UserDoc) (w : World num),
    let w1 :=
      snd (create_sale fresh_id now_iso sale_data current_user w) in
    times_sold_sum (products (db w1))
      = times_sold_sum (products (db w))
        + catalogued_units (products (db w)) (sc_products sale_data)
    /\ map (@prod_id num) (products (db w1))
       = map (@prod_id num) (products (db w))
    /\ ((forall item q,
           In item (sc_products sale_data) -> In q (products (db w)) ->
           prod_id q <> product_id item) ->
        products (db w1) = products (db w)
        /\ exists sale : Sale num,
             sale_products sale = sc_products sale_data
             /\ sales (db w1) = sales (db w) ++ [sale]).
Proof.
  intros fresh_id now_iso sale_data current_user w w1.
  destruct (create_sale_run fresh_id now_iso sale_data current_user w)
    as [sale [Hitems Hrun]].
  subst w1. rewrite Hrun. cbn [snd db].
  set (d0 := with_sales (db w) (sales (db w) ++ [sale])).
  destruct (increments_keep_rest (sc_products sale_data) d0)
    as [_ [Hs Hids]].
  cbn zeta in Hs, Hids.
  split; [| split].
  - rewrite increments_sum. reflexivity.
  - exact Hids.
  - intros Hunknown. split.
    + rewrite increments_skip_unknown; [reflexivity | exact Hunknown].
    + exists sale. split; [exact Hitems | exact Hs].
Qed.

Lemma update_first_unique (pid : string) (f : Product num -> Product num)
    (l : list (Product num)) :
  NoDup (map (@prod_id num) l) ->
  update_first (has_id pid) f l
    = map (fun x => if has_id pid x then f x else x) l.
Proof.
  induction l as [| x l IH]; cbn; [reflexivity |].
  intros Hnd. inversion Hnd as [| ? ? Hnotin Hnd']; subst.
  destruct (has_id pid x) eqn:Hx.
  - f_equal. rewrite <- (map_id l) at 1. apply map_ext_in.
    intros y Hy. destruct (has_id pid y) eqn:Hy'; [| reflexivity].
    exfalso. apply Hnotin. unfold has_id in Hx, Hy'.
    apply String.eqb_eq in Hx, Hy'. rewrite Hx, <- Hy'.
    apply in_map. exact Hy.
  - f_equal. exact (IH Hnd').
Qed.

Lemma increments_unique (items : list (SaleProduct num)) :
  forall d : Database num,
    NoDup (map (@prod_id num) (products d)) ->
    products
      (fold_left
         (fun d item =>
            apply_write (IncTimesSold (product_id item) (quantity item)) d)
         items d)
    = map (fun p => inc_times_sold (units_sold items (prod_id p)) p)
        (products d).
Proof.
  induction items as [| item items IH]; intros d Hnd.
  - cbn. rewrite <- (map_id (products d)) at 1. apply map_ext.
    intros p. symmetry. apply inc_times_sold_zero.
  - cbn [fold_left]. rewrite IH.
    + cbn [apply_write]. unfold with_products. cbn [products].
      rewrite (update_first_unique _ _ _ Hnd), map_map.
      apply map_ext. intros p. cbn [units_sold]. unfold has_id.
      rewrite (String.eqb_sym (prod_id p)).
      destruct (String.eqb (product_id item) (prod_id p)).
      * cbn [prod_id inc_times_sold]. rewrite inc_times_sold_twice.
        reflexivity.
      * rewrite Z.add_0_l. reflexivity.
    + cbn [apply_write]. unfold with_products. cbn [products].
      rewrite update_first_inc_ids. exact Hnd.
Qed.

(** With distinct product ids in the catalog, a sale leaves every
    document in its place and raises its counter by the units that the
    line items of the sale hold for its id (zero for a product that was not
    sold). *)
Theorem create_sale_with_unique_ids :
  forall (fresh_id now_iso : string) (sale_data : SaleCreate num)
         (current_user : UserDoc) (w : World num),
    NoDup (map (@prod_id num) (products (db w))) ->
    products
      (db (snd (create_sale fresh_id now_iso sale_data current_user w)))
      = map (fun p =>
               inc_times_sold
                 (units_sold (sc_products sale_data) (prod_id p)) p)
          (products (db w)).
Proof.
  intros fresh_id now_iso sale_data current_user w Hnd.
  destruct (create_sale_run fresh_id now_iso sale_data current_user w)
    as [sale [_ Hrun]].
  rewrite Hrun. cbn [snd db]. rewrite increments_unique; [reflexivity |].
  exact Hnd.
Qed.
End SaleProperties.

(** ** Listings *)

Lemma insert_by_sorted {A} (before : A -> A -> bool) (x : A) (l : list A) :
  (forall a b, before a b = true -> before b a = false) ->
  Sorted (fun a b => before b a = false) l ->
  Sorted (fun a b => before b a = false) (insert_by before x l).
Proof.
  intros Hasym. induction l as [| y l IH]; intros Hsorted; cbn.
  - repeat constructor.
  - inversion Hsorted as [| ? ? Hl Hhd]; subst.
    destruct (before y x) eqn:Hyx.
    + constructor; [exact (IH Hl) |].
      destruct l as [| z l]; cbn.
      * constructor. apply Hasym. exact Hyx.
      * destruct (before z x).
        -- inversion Hhd; subst. constructor. assumption.
        -- constructor. apply Hasym. exact Hyx.
    + constructor; [exact Hsorted |]. constructor. exact Hyx.
Qed.

Lemma sort_by_sorted {A} (before : A -> A -> bool) (l : list A) :
  (forall a b, before a b = true -> before b a = false) ->
  Sorted (fun a b => before b a = false) (sort_by before l).
Proof.
  intros Hasym. induction l as [| x l IH]; cbn; [constructor |].
  apply insert_by_sorted; assumption.
Qed.

Lemma Sorted_firstn {A} (R : A -> A -> Prop) (n : nat) (l : list A) :
  Sorted R l -> Sorted R (firstn n l).
Proof.
  revert n. induction l as [| x l IH]; intros n Hsorted.
  - rewrite firstn_nil. constructor.
  - destruct n as [| n]; cbn; [constructor |].
    inversion Hsorted as [| ? ? Hl Hhd]; subst.
    constructor; [exact (IH n Hl) |].
    destruct l as [| y l]; [rewrite firstn_nil; constructor |].
    destruct n as [| n]; cbn; [constructor |].
    inversion Hhd; subst. constructor. assumption.
Qed.

Lemma sort_by_key_sorted {A} (key : A -> Z) (l : list A) :
  StronglySorted (fun a b => key a >= key b)
    (sort_by (fun y x => key y >? key x) l).
Proof.
  induction l as [| x l IH]; cbn; [constructor |].
  fold (sort_by (fun y x => key y >? key x) l).
  induction IH as [| y s Hsorted IHs Hall]; cbn.
  - constructor; constructor.
  - destruct (Z.gtb_spec (key y) (key x)) as [Hgt | Hle].
    + constructor; [exact IHs |].
      apply (Permutation_Forall (insert_by_perm _ x s)).
      constructor; [lia | exact Hall].
    + constructor; [constructor; assumption |].
      constructor; [lia |].
      apply (Forall_impl _ (P := fun b => key y >= key b)); [| exact Hall].
      intros z Hz. lia.
Qed.

Lemma StronglySorted_cross {A} (R : A -> A -> Prop) (l1 l2 : list A) :
  StronglySorted R (l1 ++ l2) ->
  forall a b, In a l1 -> In b l2 -> R a b.
Proof.
  induction l1 as [| x l1 IH]; intros Hsorted a b Ha Hb; [destruct Ha |].
  cbn in Hsorted. inversion Hsorted as [| ? ? Hrest Hall]; subst.
  destruct Ha as [<- | Ha].
  - rewrite Forall_forall in Hall. apply Hall. apply in_or_app. right.
    exact Hb.
  - exact (IH Hrest a b Ha Hb).
Qed.

Section ListingProperties.
Context {num : Type} {platform : Platform}.

(** [get_sales] answers with sales of the ledger, newest first (no sale
    stands before one with a later date string), each within the bounds
    that were given: not before a non-empty [start_date] and not after a
    non-empty [end_date], in the order of the date strings. *)
Theorem get_sales_newest_first :
  forall (start_date end_date : option string) (current_user : UserDoc)
         (w : World num),
    exists l : list (Sale num),
      get_sales start_date end_date current_user w = (inr l, w)
      /\ Sorted
           (fun a b => String.ltb (sale_date a) (sale_date b) = false) l
      /\ forall s,
           In s l ->
           In s (sales (db w))
           /\ (forall lo, start_date = Some lo -> lo <> ""%string ->
                          String.leb lo (sale_date s) = true)
           /\ (forall hi, end_date = Some hi -> hi <> ""%string ->
                          String.leb (sale_date s) hi = true).
Proof.
  intros start_date end_date current_user w. eexists.
  split; [reflexivity |]. split.
  - unfold to_list. apply Sorted_firstn.
    apply (sort_by_sorted (@newer num)).
    intros a b H. unfold newer in *.
    destruct (ltb_apart _ _ H) as [_ [_ Hrev]]. exact Hrev.
  - intros s Hs. unfold to_list in Hs. apply firstn_subset in Hs.
    apply (Permutation_in _ (Permutation_sym (sort_by_perm _ _))) in Hs.
    apply filter_In in Hs. destruct Hs as [Hin Hrange].
    split; [exact Hin |].
    unfold in_range, date_query in Hrange. cbn [q_gte q_lte] in Hrange.
    apply andb_true_iff in Hrange. destruct Hrange as [Hlo Hhi].
    split.
    + intros lo -> Hne. cbn [truthy] in Hlo.
      rewrite (proj2 (String.eqb_neq lo "") Hne) in Hlo. exact Hlo.
    + intros hi -> Hne. cbn [truthy] in Hhi.
      rewrite (proj2 (String.eqb_neq hi "") Hne) in Hhi. exact Hhi.
Qed.

(** [get_top_products] with a positive limit returns the [limit] best
    sellers, or the whole catalog if it is smaller: the answer and the
    products left out together are the catalog, the answer is in
    descending order of [times_sold], and no product left out has sold
    more than one that is returned. *)
Theorem get_top_products_are_best_sellers :
  forall (limit : Z) (w : World num),
    0 < limit ->
    exists l rest : list (Product num),
      get_top_products limit w = (inr l, w)
      /\ Permutation (products (db w)) (l ++ rest)
      /\ Z.of_nat (List.length l)
         = Z.min limit (Z.of_nat (List.length (products (db w))))
      /\ StronglySorted
           (fun a b => prod_times_sold a >= prod_times_sold b) l
      /\ forall p q, In p l -> In q rest ->
                     prod_times_sold p >= prod_times_sold q.
Proof.
  intros limit w Hpos.
  set (ranked := sort_by (@more_popular num) (products (db w))).
  assert (Hsorted : StronglySorted
                      (fun a b => prod_times_sold a >= prod_times_sold b)
                      ranked).
  { apply (sort_by_key_sorted (@prod_times_sold num)). }
  assert (Hcut : to_list limit (cursor_limit limit ranked)
                 = firstn (Z.to_nat limit) ranked).
  { unfold to_list, cursor_limit.
    destruct (Z.eqb_spec limit 0) as [H0 | _]; [lia |].
    rewrite Z.abs_eq by lia. rewrite firstn_firstn, Nat.min_id.
    reflexivity. }
  exists (firstn (Z.to_nat limit) ranked), (skipn (Z.to_nat limit) ranked).
  split.
  { unfold get_top_products.
    destruct (Z.ltb_spec limit 0) as [H | _]; [lia |].
    unfold read. fold ranked. rewrite Hcut. reflexivity. }
  rewrite firstn_skipn.
  split; [apply sort_by_perm |].
  split.
  { rewrite length_firstn. unfold ranked.
    rewrite <- (Permutation_length
                  (sort_by_perm (@more_popular num) (products (db w)))).
    lia. }
  rewrite <- (firstn_skipn (Z.to_nat limit) ranked) in Hsorted.
  split.
  - clear Hcut. revert Hsorted.
    generalize (skipn (Z.to_nat limit) ranked).
    induction (firstn (Z.to_nat limit) ranked) as [| x l IH];
      intros rest Hsorted; [constructor |].
    cbn in Hsorted. inversion Hsorted as [| ? ? Hrest Hall]; subst.
    constructor; [exact (IH rest Hrest) |].
    rewrite Forall_forall in *. intros y Hy. apply Hall.
    apply in_or_app. left. exact Hy.
  - exact (StronglySorted_cross _ _ _ Hsorted).
Qed.

(** [get_products] returns products of the catalog only; with a non-empty
    category every one of them has exactly that category; and with neither
    a category nor a search text (absent or empty) it returns the catalog
    itself, up to its first 1000 documents. *)
Theorem get_products_filters :
  forall (category search : option string) (w : World num),
    exists l : list (Product num),
      get_products category search w = (inr l, w)
      /\ (forall p, In p l -> In p (products (db w)))
      /\ (forall c, category = Some c -> c <> ""%string ->
                    forall p, In p l -> prod_category p = c)
      /\ (truthy category = false -> truthy search = false ->
          l = to_list 1000 (products (db w))).
Proof.
  intros category search w. eexists. split; [reflexivity |].
  split; [| split].
  - intros p Hp. unfold to_list in Hp. apply firstn_subset in Hp.
    apply filter_In in Hp. exact (proj1 Hp).
  - intros c -> Hne p Hp. unfold to_list in Hp.
    apply firstn_subset in Hp. apply filter_In in Hp.
    destruct Hp as [_ Hq]. unfold product_query in Hq.
    cbn [truthy or_else] in Hq.
    rewrite (proj2 (String.eqb_neq c "") Hne) in Hq. cbn [negb] in Hq.
    apply andb_true_iff in Hq. apply String.eqb_eq. exact (proj1 Hq).
  - intros Hc Hs. f_equal.
    induction (products (db w)) as [| p l IH]; [reflexivity |].
    cbn [filter]. unfold product_query at 1. rewrite Hc, Hs.
    cbn [andb]. rewrite IH. reflexivity.
Qed.
End ListingProperties.

(** ** More on the report *)

Lemma ltb_connected (a b : string) :
  String.ltb b a = false -> a <> b -> String.ltb a b = true.
Proof.
  unfold String.ltb. intros Hba Hne. rewrite String.compare_antisym.
  destruct (String.compare b a) eqn:E; cbn; try reflexivity.
  - apply String.compare_eq_iff in E. exfalso. apply Hne. symmetry.
    exact E.
  - discriminate.
Qed.

Lemma dict_set_keys {V} (d : list (string * V)) (k : string) (v : V) :
  NoDup (map fst d) -> NoDup (map fst (dict_set d k v)).
Proof.
  assert (Hin : forall (d : list (string * V)) k',
            In k' (map fst (dict_set d k v)) -> k' = k \/ In k' (map fst d)).
  { clear d. induction d as [| [k0 v0] d IH]; intros k'; cbn.
    - intros [H | []]. left. symmetry. exact H.
    - destruct (String.eqb k0 k) eqn:E; cbn.
      + intros H. right. exact H.
      + intros [H | H]; [right; left; exact H |].
        destruct (IH k' H) as [H' | H']; [left | right; right]; exact H'. }
  induction d as [| [k0 v0] d IH]; cbn; intros Hnd.
  - constructor; [intros [] | constructor].
  - inversion Hnd as [| ? ? Hnotin Hnd']; subst.
    destruct (String.eqb k0 k) eqn:E; cbn; [exact Hnd |].
    constructor; [| exact (IH Hnd')].
    intros H. destruct (Hin d k0 H) as [H' | H'].
    + subst k0. rewrite String.eqb_refl in E. discriminate.
    + contradiction.
Qed.

Lemma dict_get_in {V} (d : list (string * V)) (k : string) (v : V) :
  NoDup (map fst d) -> In (k, v) d -> dict_get d k = Some v.
Proof.
  induction d as [| [k0 v0] d IH]; cbn; [intros _ [] |].
  intros Hnd Hin. inversion Hnd as [| ? ? Hnotin Hnd']; subst.
  destruct Hin as [Hin | Hin].
  - inversion Hin; subst. rewrite String.eqb_refl. reflexivity.
  - destruct (String.eqb k0 k) eqn:E; [| exact (IH Hnd' Hin)].
    apply String.eqb_eq in E. subst k0. exfalso. apply Hnotin.
    apply (in_map fst) in Hin. exact Hin.
Qed.

Lemma dict_get_some_in {V} (d : list (string * V)) (k : string) (v : V) :
  dict_get d k = Some v -> In (k, v) d.
Proof.
  induction d as [| [k0 v0] d IH]; cbn; [discriminate |].
  destruct (String.eqb k0 k) eqn:E.
  - intros H. inversion H; subst. apply String.eqb_eq in E. subst k0.
    left. reflexivity.
  - intros H. right. exact (IH H).
Qed.

Lemma Sorted_map {A B} (R : B -> B -> Prop) (f : A -> B) (l : list A) :
  Sorted (fun a b => R (f a) (f b)) l -> Sorted R (map f l).
Proof.
  induction 1 as [| x l Hl IH Hhd]; cbn; constructor; [exact IH |].
  destruct Hhd; cbn; constructor. assumption.
Qed.

Lemma Sorted_strict {V} (l : list (string * V)) :
  Sorted (fun a b => String.ltb (fst b) (fst a) = false) l ->
  NoDup (map fst l) ->
  Sorted (fun a b => String.ltb (fst a) (fst b) = true) l.
Proof.
  induction 1 as [| x l Hl IH Hhd]; cbn; intros Hnd; constructor.
  - inversion Hnd; subst. apply IH. assumption.
  - destruct Hhd as [| y l Hxy]; constructor.
    apply ltb_connected; [exact Hxy |].
    inversion Hnd as [| ? ? Hnotin _]; subst. intros E. apply Hnotin.
    cbn. left. symmetry. exact E.
Qed.

Section DailyProperties.
Context {num : Type} {number : Number num}.

Lemma day_lookup (l : list (Sale num)) :
  forall (dt : list (string * num)) (d : string),
    dict_get (fold_left add_day l dt) d
      = match dict_get dt d with
        | Some v =>
            Some (fold_left add
                    (map (@sale_total num) (filter (on_day d) l)) v)
        | None =>
            if existsb (on_day d) l
            then Some (fold_left add
                         (map (@sale_total num) (filter (on_day d) l))
                         zero)
            else None
        end.
Proof.
  induction l as [| s l IH]; intros dt d.
  - cbn. destruct (dict_get dt d); reflexivity.
  - cbn [fold_left filter existsb]. rewrite IH. clear IH.
    unfold add_day at 1. rewrite dict_get_set. unfold dict_get_default.
    change (on_day d s) with (String.eqb (day_key_of (sale_date s)) d).
    destruct (String.eqb (day_key_of (sale_date s)) d) eqn:E;
      [| reflexivity].
    apply String.eqb_eq in E. rewrite E. cbn [orb map fold_left].
    destruct (dict_get dt d); reflexivity.
Qed.

Lemma daily_totals_keys (l : list (Sale num)) :
  forall dt : list (string * num),
    NoDup (map fst dt) -> NoDup (map fst (fold_left add_day l dt)).
Proof.
  induction l as [| s l IH]; intros dt Hnd; [exact Hnd |].
  cbn [fold_left]. apply IH. unfold add_day. apply dict_set_keys.
  exact Hnd.
Qed.

(** [daily_sales] has one entry per day on which a sale was read, in
    strictly ascending order of the day keys; the total of a day is the
    sum, from [zero] and in reading order, of the [total] fields of the
    sales of that day. *)
Theorem daily_sales_by_day :
  forall (clock : Clock) (period : string)
         (start_date end_date : option string) (current_user : UserDoc)
         (w : World num),
    let l :=
      report_sales (report_query clock period start_date end_date) w in
    exists r : ReportSummary num,
      get_report_summary clock period start_date end_date current_user w
        = (inr r, w)
      /\ Sorted (fun a b => String.ltb (ds_date a) (ds_date b) = true)
           (daily_sales r)
      /\ (forall x,
            In x (daily_sales r) ->
            (exists s, In s l /\ day_key_of (sale_date s) = ds_date x)
            /\ ds_total x
               = fold_left add
                   (map (@sale_total num) (filter (on_day (ds_date x)) l))
                   zero)
      /\ (forall s,
            In s l ->
            exists x, In x (daily_sales r)
                      /\ ds_date x = day_key_of (sale_date s)).
Proof.
  intros clock period start_date end_date current_user w l.
  eexists. split; [apply report_run |]. cbn [daily_sales]. fold l.
  set (dt := fold_left add_day l []).
  assert (Hnd : NoDup (map fst dt)).
  { apply daily_totals_keys. constructor. }
  assert (Hperm : Permutation dt (sort_by earlier_day dt))
    by apply sort_by_perm.
  assert (Hget : forall d,
            dict_get dt d
            = if existsb (on_day d) l
              then Some (fold_left add
                           (map (@sale_total num) (filter (on_day d) l))
                           zero)
              else None).
  { intros d. unfold dt. rewrite day_lookup. reflexivity. }
  split; [| split].
  - apply (Sorted_map
             (fun a b => String.ltb (ds_date a) (ds_date b) = true)).
    cbn [ds_date]. apply Sorted_strict.
    + apply (sort_by_sorted (@earlier_day num)).
      intros a b H. unfold earlier_day in *.
      destruct (ltb_apart _ _ H) as [_ [_ Hrev]]. exact Hrev.
    + apply (Permutation_NoDup (Permutation_map fst Hperm)). exact Hnd.
  - intros x Hx. apply in_map_iff in Hx. destruct Hx as [[k v] [<- Hkv]].
    cbn [fst snd ds_date ds_total].
    apply (Permutation_in _ (Permutation_sym Hperm)) in Hkv.
    apply (dict_get_in _ _ _ Hnd) in Hkv. rewrite Hget in Hkv.
    destruct (existsb (on_day k) l) eqn:E; [| discriminate].
    inversion Hkv as [Hv]. split; [| reflexivity].
    apply existsb_exists in E. destruct E as [s [Hs Hday]].
    exists s. split; [exact Hs |]. apply String.eqb_eq. exact Hday.
  - intros s Hs.
    assert (E : existsb (on_day (day_key_of (sale_date s))) l = true).
    { apply existsb_exists. exists s. split; [exact Hs |].
      apply String.eqb_refl. }
    pose proof (Hget (day_key_of (sale_date s))) as Hday.
    rewrite E in Hday. apply dict_get_some_in in Hday.
    apply (Permutation_in _ Hperm) in Hday.
    eexists. split; [apply in_map; exact Hday |]. reflexivity.
Qed.

(** A report over a range in which no sale lies is the empty report:
    [total_sales] is [zero], there are no transactions, and the three lists
    are empty. *)
Theorem report_of_no_sales :
  forall (clock : Clock) (period : string)
         (start_date end_date : option string) (current_user : UserDoc)
         (w : World num),
    (forall s, In s (sales (db w)) ->
               in_range (report_query clock period start_date end_date) s
               = false) ->
    get_report_summary clock period start_date end_date current_user w
      = (inr {| total_sales := zero;
                total_transactions := 0;
                top_products := [];
                sales_by_category := [];
                daily_sales := [] |}, w).
Proof.
  intros clock period start_date end_date current_user w Hnone.
  rewrite report_run.
  assert (Hempty : report_sales
                     (report_query clock period start_date end_date) w
                   = []).
  { unfold report_sales, to_list.
    induction (sales (db w)) as [| s l IH]; cbn [filter];
      [apply firstn_nil |].
    rewrite (Hnone s (or_introl eq_refl)). apply IH.
    intros s' Hs'. apply Hnone. right. exact Hs'. }
  rewrite Hempty. reflexivity.
Qed.
End DailyProperties.

(** *** Sums, in whole amounts *)

Lemma dict_set_sum (d : list (string * Z)) (k : string) (v : Z) :
  fold_right Z.add 0 (map snd (dict_set d k v))
    = fold_right Z.add 0 (map snd d) - dict_get_default d k 0 + v.
Proof.
  unfold dict_get_default.
  induction d as [| [k0 v0] d IH]; cbn; [lia |].
  destruct (String.eqb k0 k); cbn; [lia |]. rewrite IH. lia.
Qed.

Lemma sum_permutation (l1 l2 : list Z) :
  Permutation l1 l2 -> fold_right Z.add 0 l1 = fold_right Z.add 0 l2.
Proof.
  induction 1; cbn; lia.
Qed.

Lemma total_sales_sum (l : list (Sale Z)) (start : Z) :
  fold_left (fun acc s => add acc (sale_total s)) l start
    = start + fold_right Z.add 0 (map (@sale_total Z) l).
Proof.
  revert start. induction l as [| s l IH]; intros start; cbn; [lia |].
  rewrite IH. lia.
Qed.

Lemma daily_totals_sum (l : list (Sale Z)) :
  forall dt : list (string * Z),
    fold_right Z.add 0 (map snd (fold_left add_day l dt))
      = fold_right Z.add 0 (map snd dt)
        + fold_right Z.add 0 (map (@sale_total Z) l).
Proof.
  induction l as [| s l IH]; intros dt; cbn [fold_left map fold_right];
    [lia |].
  rewrite IH. unfold add_day. rewrite dict_set_sum.
  cbn [add zero Number_Z]. lia.
Qed.

(** In whole amounts the days add up: the totals of [daily_sales] sum to
    [total_sales], and both are the sum of the [total] fields of the sales
    read. *)
Theorem daily_sales_add_up :
  forall (clock : Clock) (period : string)
         (start_date end_date : option string) (current_user : UserDoc)
         (w : World Z),
    exists r : ReportSummary Z,
      get_report_summary clock period start_date end_date current_user w
        = (inr r, w)
      /\ fold_right Z.add 0 (map (@ds_total Z) (daily_sales r))
         = total_sales r
      /\ total_sales r
         = fold_right Z.add 0
             (map (@sale_total Z)
                (report_sales
                   (report_query clock period start_date end_date) w)).
Proof.
  intros clock period start_date end_date current_user w.
  eexists. split; [apply report_run |].
  cbn [daily_sales total_sales]. rewrite total_sales_sum.
  split; [| reflexivity].
  rewrite map_map. cbn [ds_total].
  rewrite <- (sum_permutation _ _
                (Permutation_map snd (sort_by_perm earlier_day _))).
  rewrite daily_totals_sum. reflexivity.
Qed.

Lemma category_sum (catalog : list (Product Z))
    (aggs : list (ProductSales Z)) :
  forall cs : list (string * Z),
    fold_right Z.add 0
      (map snd
         (fold_left
            (fun cs a =>
               add_category cs (find (has_id (ps_product_id a)) catalog) a)
            aggs cs))
    = fold_right Z.add 0 (map snd cs)
      + revenue_sum (filter (in_catalog catalog) aggs).
Proof.
  unfold revenue_sum.
  induction aggs as [| a aggs IH]; intros cs; cbn [fold_left filter];
    [cbn; lia |].
  rewrite IH. clear IH. unfold in_catalog at 2.
  destruct (find (has_id (ps_product_id a)) catalog) as [p |] eqn:E.
  - assert (Hex : existsb (has_id (ps_product_id a)) catalog = true).
    { apply existsb_exists. apply find_some in E. exists p. exact E. }
    rewrite Hex. cbn [add_category map fold_right].
    rewrite dict_set_sum. cbn [add zero Number_Z]. lia.
  - assert (Hex : existsb (has_id (ps_product_id a)) catalog = false).
    { apply existsb_false_iff. apply find_none_iff. exact E. }
    rewrite Hex. reflexivity.
Qed.

(** In whole amounts the categories account for the catalogued products
    only: the values of [sales_by_category] sum to the revenue of the
    aggregates whose product id the catalog still has, which is the sum of
    all line-item subtotals when every sold product is in the catalog. *)
Theorem category_totals_add_up :
  forall (clock : Clock) (period : string)
         (start_date end_date : option string) (current_user : UserDoc)
         (w : World Z),
    let items :=
      line_items
        (report_sales
           (report_query clock period start_date end_date) w) in
    exists r : ReportSummary Z,
      get_report_summary clock period start_date end_date current_user w
        = (inr r, w)
      /\ fold_right Z.add 0 (map snd (sales_by_category r))
         = revenue_sum
             (filter (in_catalog (products (db w))) (per_product items))
      /\ ((forall item, In item items ->
                        exists p, In p (products (db w))
                                  /\ prod_id p = product_id item) ->
          fold_right Z.add 0 (map snd (sales_by_category r))
            = fold_right Z.add 0 (map (@subtotal Z) items)).
Proof.
  intros clock period start_date end_date current_user w items.
  eexists. split; [apply report_run |].
  cbn [sales_by_category]. fold items. rewrite category_sum.
  cbn [map fold_right]. rewrite Z.add_0_l.
  split; [reflexivity |].
  intros Hall. rewrite <- per_product_revenue. f_equal.
  assert (Hevery : forall a, In a (per_product items) ->
                             in_catalog (products (db w)) a = true).
  { intros a Ha. destruct (per_product_named items a Ha)
      as [item [Hitem Hid]].
    destruct (Hall item Hitem) as [p [Hp Hpid]].
    unfold in_catalog. apply existsb_exists. exists p.
    split; [exact Hp |]. unfold has_id. rewrite Hpid, Hid.
    apply String.eqb_refl. }
  induction (per_product items) as [| a l IH]; [reflexivity |].
  cbn [filter]. rewrite (Hevery a (or_introl eq_refl)).
  rewrite IH; [reflexivity |].
  intros b Hb. apply Hevery. right. exact Hb.
Qed.

(** ** Further worked instances *)

Lemma admin_gate_guards_witness :
  Depends (@admin_dependency Z toy_platform 1709300100 ana_token)
    (delete_product "p1") staffed_shop
  = (inl forbidden, staffed_shop)
  /\ Depends (@admin_dependency Z toy_platform 1709300100 boss_token)
       (delete_product "p1") staffed_shop
     = delete_product "p1" boss staffed_shop.
Proof.
  split.
  - apply (@admin_gate_guards Z toy_platform Message 1709300100 ana_token
             staffed_shop ana (delete_product "p1") eq_refl).
    discriminate.
  - apply (@admin_gate_guards Z toy_platform Message 1709300100 boss_token
             staffed_shop boss (delete_product "p1") eq_refl).
    reflexivity.
Defined.

Lemma login_then_whoami_witness :
  exists tok : Token,
    @login Z toy_platform 1709300000 ana_login staffed_shop
      = (inr tok, staffed_shop)
    /\ Depends (@get_current_user Z toy_platform 1709300100
                  (access_token tok)) get_me staffed_shop
       = (inr (doc_user ana), staffed_shop).
Proof.
  destruct (@login_then_whoami Z toy_platform 1709300000 1709300100
              ana_login staffed_shop ana eq_refl eq_refl eq_refl)
    as [tok [Hlogin [_ [Huser Hme]]]]; [lia |].
  exists tok. split; [exact Hlogin |]. rewrite <- Huser. exact Hme.
Defined.

Lemma register_then_login_witness :
  exists (user : User) (w1 : World Z) (tok : Token),
    @register Z toy_platform "u5" "2024-03-05T09:00:00+00:00" "na" new_hire
      staffed_shop = (inr user, w1)
    /\ @login Z toy_platform 1709300000
         {| ul_email := "eve@pos.com"; ul_password := "pw" |} w1
       = (inr tok, w1)
    /\ Depends (@get_current_user Z toy_platform 1709300100
                  (access_token tok)) get_me w1
       = (inr user, w1).
Proof.
  destruct (@register_then_login Z toy_platform "u5"
              "2024-03-05T09:00:00+00:00" "na" new_hire staffed_shop
              1709300000 1709300100)
    as [user [w1 [tok [Hreg [_ [_ [Hlogin [_ Hme]]]]]]]].
  - intros u [<- | [<- | []]]; discriminate.
  - intros u [<- | [<- | []]]; discriminate.
  - reflexivity.
  - lia.
  - exists user, w1, tok. repeat split; assumption.
Defined.

Lemma seed_twice_is_noop_witness :
  @seed_data Z toy_platform [cola] "u3" "u4" "2024-03-03T09:00:00+00:00"
    "ab" "cd"
    (snd (@seed_data Z toy_platform [cola; chips] "u1" "u2"
            "2024-03-02T09:00:00+00:00" "na" "cl" empty_world))
  = (inr already_seeded,
     snd (@seed_data Z toy_platform [cola; chips] "u1" "u2"
            "2024-03-02T09:00:00+00:00" "na" "cl" empty_world)).
Proof.
  apply (@seed_twice_is_noop Z toy_platform [cola; chips] [cola]).
  left. discriminate.
Defined.

Lemma seeded_admin_passes_gate_witness :
  exists tok : Token,
    @login Z toy_platform 1709300000 admin_login
      (snd (@seed_data Z toy_platform [cola; chips] "u1" "u2"
              "2024-03-02T09:00:00+00:00" "na" "cl" empty_world))
    = (inr tok,
       snd (@seed_data Z toy_platform [cola; chips] "u1" "u2"
              "2024-03-02T09:00:00+00:00" "na" "cl" empty_world))
    /\ user_role (token_user tok) = "admin"%string.
Proof.
  destruct (@seeded_admin_passes_gate Z toy_platform [cola; chips] "u1"
              "u2" "2024-03-02T09:00:00+00:00" "na" "cl" empty_world
              1709300000 1709300100)
    as [tok [Hlogin [_ [Hrole _]]]].
  - reflexivity.
  - intros u [].
  - intros u [].
  - reflexivity.
  - lia.
  - exists tok. split; assumption.
Defined.

Lemma registered_user_is_listed_witness :
  exists (user : User) (w1 : World Z),
    @register Z toy_platform "u5" "2024-03-05T09:00:00+00:00" "na" new_hire
      staffed_shop = (inr user, w1)
    /\ get_users boss w1 = (inr [doc_user boss; doc_user ana; user], w1).
Proof.
  destruct (@registered_user_is_listed Z toy_platform "u5"
              "2024-03-05T09:00:00+00:00" "na" new_hire boss staffed_shop)
    as [user [w1 [Hreg [Hfew _]]]].
  - intros u [<- | [<- | []]]; discriminate.
  - exists user, w1. split; [exact Hreg |]. apply Hfew. cbn. lia.
Defined.

Lemma delete_product_removes_first_witness :
  exists (m : Message) (w1 : World Z),
    delete_product "p1" boss staffed_shop = (inr m, w1)
    /\ products (db w1) = [chips]
    /\ delete_product "p1" boss w1
       = (inl not_found,
          {| db := db w1; journal := journal w1 ++ [DeleteProduct "p1"] |}).
Proof.
  destruct (proj2 (delete_product_removes_first "p1" boss staffed_shop)
              [] [chips] cola eq_refl eq_refl)
    as [m [Hrun [_ Hgone]]].
  - intros q [].
  - eexists. eexists. split; [exact Hrun |]. split; [reflexivity |].
    apply Hgone. intros q [<- | []]. discriminate.
Defined.

Lemma create_product_then_find_witness :
  exists (p : Product Z) (w1 : World Z),
    create_product "p3" "2024-03-05T09:00:00+00:00" tea boss staffed_shop
      = (inr p, w1)
    /\ prod_times_sold p = 0
    /\ products_find_one "p3" w1 = (inr (Some p), w1).
Proof.
  destruct (create_product_then_find "p3" "2024-03-05T09:00:00+00:00" tea
              boss staffed_shop)
    as [p [w1 [Hrun [_ [_ [_ [_ [Hzero [_ [_ [_ [_ [_ [_ [_ [Hfresh
         _]]]]]]]]]]]]]]]].
  exists p, w1. split; [exact Hrun |]. split; [exact Hzero |].
  apply Hfresh. intros q [<- | [<- | []]]; discriminate.
Defined.

Lemma update_product_idempotent_witness :
  exists (p' : Product Z) (w1 w2 : World Z),
    update_product "p1" (only_sale_price 999) boss staffed_shop
      = (inr p', w1)
    /\ update_product "p1" (only_sale_price 999) boss w1 = (inr p', w2)
    /\ db w2 = db w1.
Proof.
  destruct (update_product_idempotent "p1" (only_sale_price 999) boss
              staffed_shop cola eq_refl)
    as [p' [w1 [w2 [H1 [H2 [Hdb _]]]]]].
  exists p', w1, w2. repeat split; assumption.
Defined.

Lemma create_sale_counts_catalogued_units_witness :
  products
    (db (snd (create_sale "s9" "2024-03-04T10:00:00+00:00" ghost_basket
                ana staffed_shop)))
  = [cola; chips].
Proof.
  apply (create_sale_counts_catalogued_units "s9"
           "2024-03-04T10:00:00+00:00" ghost_basket ana staffed_shop).
  intros item q [<- | []] [<- | [<- | []]]; discriminate.
Defined.

Lemma create_sale_with_unique_ids_witness :
  map (@prod_times_sold Z)
    (products
       (db (snd (create_sale "s9" "2024-03-04T10:00:00+00:00" basket ana
                   staffed_shop))))
  = [9; 3].
Proof.
  rewrite (create_sale_with_unique_ids "s9" "2024-03-04T10:00:00+00:00"
             basket ana staffed_shop).
  - reflexivity.
  - cbn. repeat constructor; cbn; intuition discriminate.
Defined.

Lemma get_top_products_are_best_sellers_witness :
  exists l rest : list (Product Z),
    get_top_products 1 staffed_shop = (inr l, staffed_shop)
    /\ Z.of_nat (List.length l) = 1
    /\ forall p q, In p l -> In q rest ->
                   prod_times_sold p >= prod_times_sold q.
Proof.
  destruct (get_top_products_are_best_sellers 1 staffed_shop)
    as [l [rest [Hrun [_ [Hlen [_ Hbest]]]]]]; [lia |].
  exists l, rest. split; [exact Hrun |]. split; [| exact Hbest].
  rewrite Hlen. reflexivity.
Defined.

Lemma report_of_no_sales_witness :
  get_report_summary sample_clock "daily" (Some "2025-01-01"%string) None
    ana staffed_shop
  = (inr {| total_sales := 0; total_transactions := 0; top_products := [];
            sales_by_category := []; daily_sales := [] |}, staffed_shop).
Proof.
  apply (@report_of_no_sales Z Number_Z sample_clock "daily"
           (Some "2025-01-01"%string) None ana staffed_shop).
  intros s [<- | [<- | []]]; reflexivity.
Defined.
